(** * Bird cursor system: a shallow embedding of [bird-cursor.js]

    The class [BirdCursorSystem] is embedded method by method, as functions
    on a [World]: the fields of the instance together with the part of the
    host the methods touch (the two page elements, the console, the timer
    queue, the animation-frame requests).

    JavaScript numbers are kept abstract behind the interface [JSNumber],
    which has two instances:

    - [binary64], IEEE 754 double precision ([PrimFloat]), the arithmetic a
      JavaScript engine performs; it is executable and runs the code on
      concrete inputs;
    - [ideal], the real numbers: the same arithmetic without rounding,
      overflow, infinities and NaN.  It agrees with the code only where no
      division by zero occurs, and every statement over it carries the
      hypotheses that rule one out.

    Properties that depend on the control flow alone are proved for every
    instance; properties of magnitudes and limits are proved over [ideal];
    concrete runs are evaluated in [binary64].

    The embedding is of the class.  The script also creates one global
    instance and later gives it an own property [updatePhysics] (the handler
    of the sliders), which shadows the method of that name on that instance;
    the global instance is not modelled. *)

From Stdlib Require Import Floats.
From Stdlib Require Import ZArith QArith Reals Lra Lia List Bool.
From stdpp Require Import base strings gmap.

(** ** Numbers *)

Declare Scope js_scope.
Delimit Scope js_scope with js.

Class JSNumber (N : Type) := {
  lit : Q -> N;              (* a decimal literal of the source text *)
  add : N -> N -> N;
  sub : N -> N -> N;
  mul : N -> N -> N;
  div : N -> N -> N;
  Math_sqrt : N -> N;
  Math_abs : N -> N;
  Math_max : N -> N -> N;
  Math_min : N -> N -> N;
  gt : N -> N -> bool;       (* a > b *)
  le : N -> N -> bool        (* a <= b *)
}.

Arguments lit {N _} q%_Q.

Infix "+" := add : js_scope.
Infix "-" := sub : js_scope.
Infix "*" := mul : js_scope.
Infix "/" := div : js_scope.
Notation "a >? b" := (gt a b) (at level 70, no associativity) : js_scope.
Notation "a <=? b" := (le a b) (at level 70, no associativity) : js_scope.

(** [v ** 2]: the exponent is the constant 2, for which the result is the
    product [v * v]. *)
Definition pow2 {N} `{JSNumber N} (v : N) : N := (v * v)%js.

(** *** IEEE 754 binary64 *)

Module Binary64.

Definition of_Z (z : Z) : float :=
  match z with
  | Z0 => PrimFloat.zero
  | Zpos _ => PrimFloat.of_uint63 (Uint63.of_Z z)
  | Zneg p => PrimFloat.opp (PrimFloat.of_uint63 (Uint63.of_Z (Zpos p)))
  end.

(** A decimal literal [n/d] denotes the double nearest to it; numerator
    and denominator of the literals of the source are exact doubles, so one
    correctly rounded division yields it. *)
Definition of_Q (q : Q) : float :=
  PrimFloat.div (of_Z (Qnum q)) (of_Z (Zpos (Qden q))).

(** [Math.max] and [Math.min]: NaN when an argument is NaN, and
    [-0] counts as smaller than [+0]. *)
Definition max (a b : float) : float :=
  if PrimFloat.is_nan a || PrimFloat.is_nan b then PrimFloat.nan
  else if PrimFloat.ltb a b then b
  else if PrimFloat.ltb b a then a
  else if PrimFloat.get_sign a then b else a.

Definition min (a b : float) : float :=
  if PrimFloat.is_nan a || PrimFloat.is_nan b then PrimFloat.nan
  else if PrimFloat.ltb a b then a
  else if PrimFloat.ltb b a then b
  else if PrimFloat.get_sign a then a else b.

(** [Number.isFinite]: neither NaN nor an infinity. *)
Definition isFinite (x : float) : bool :=
  negb (PrimFloat.is_nan x) && negb (PrimFloat.is_infinity x).

(** The two zeros, and the finite values, of the specification format. *)
Definition SFzero (x : spec_float) : Prop := exists s, x = S754_zero s.

Definition SFfinite (x : spec_float) : Prop :=
  match x with
  | S754_zero _ | S754_finite _ _ _ => True
  | _ => False
  end.

(** [x] is [+0] or [-0]. *)
Definition Zero (x : float) : Prop := SFzero (Prim2SF x).

End Binary64.

#[export] Instance binary64 : JSNumber float := {|
  lit := Binary64.of_Q;
  add := PrimFloat.add;
  sub := PrimFloat.sub;
  mul := PrimFloat.mul;
  div := PrimFloat.div;
  Math_sqrt := PrimFloat.sqrt;
  Math_abs := PrimFloat.abs;
  Math_max := Binary64.max;
  Math_min := Binary64.min;
  gt := fun a b => PrimFloat.ltb b a;
  le := PrimFloat.leb
|}.

(** *** Real numbers *)

#[export] Instance ideal : JSNumber R := {|
  lit := Q2R;
  add := Rplus;
  sub := Rminus;
  mul := Rmult;
  div := Rdiv;
  Math_sqrt := R_sqrt.sqrt;
  Math_abs := Rabs;
  Math_max := Rmax;
  Math_min := Rmin;
  gt := fun a b => if Rlt_dec b a then true else false;
  le := fun a b => if Rle_dec a b then true else false
|}.

(** ** Data *)

Module Vector2.
Record t (N : Type) := mk { x : N; y : N }.
Arguments mk {N} _ _.
Arguments x {N} _.
Arguments y {N} _.
End Vector2.
Abbreviation Vector2 := Vector2.t.

(** The configuration object.  The six properties the constructor gives it
    are fields; [otherProps] holds whatever further properties an
    [Object.assign] has added. *)
Record PhysicsConfig (N : Type) := {
  springStrength : N;
  dampening : N;
  maxSpeed : N;
  accelerationRate : N;
  flappingThreshold : N;
  baseScale : N;
  otherProps : gmap string N
}.
Arguments springStrength {N} _.
Arguments dampening {N} _.
Arguments maxSpeed {N} _.
Arguments accelerationRate {N} _.
Arguments flappingThreshold {N} _.
Arguments baseScale {N} _.
Arguments otherProps {N} _.

Record AnimationState (N : Type) := {
  isFlapping : bool;
  flapIntensity : N;
  direction : N;
  rotation : N;
  pitchRotation : N;
  scale : N
}.
Arguments isFlapping {N} _.
Arguments flapIntensity {N} _.
Arguments direction {N} _.
Arguments rotation {N} _.
Arguments pitchRotation {N} _.
Arguments scale {N} _.

(** A theme is a set of gradient descriptors. *)
Record Theme := {
  bodyGradient : string;
  breastGradient : string;
  headGradient : string
}.

(** *** The host environment

    The page may or may not hold the element with id [birdCursor]
    ([hasBird]) and, inside it, an element of class [bird-container]
    ([hasContainer]).  [birdNode] and [containerNode] are the states of these
    two element objects; the instance reaches them through its references
    [birdElement] and [containerElement].  Template strings that embed a
    number are kept as the number. *)

Record BirdNode (N : Type) := {
  style_left : option N;               (* `${x}px` *)
  style_top : option N;                (* `${y}px` *)
  style_transform : option string;
  style_animationDuration : option N   (* `${d}s` *)
}.
Arguments style_left {N} _.
Arguments style_top {N} _.
Arguments style_transform {N} _.
Arguments style_animationDuration {N} _.

(** [scaleX(..) rotate(..deg) rotateX(..deg) scale(..)] *)
Record Transform (N : Type) := {
  tr_scaleX : N;
  tr_rotate : N;
  tr_rotateX : N;
  tr_scale : N
}.
Arguments tr_scaleX {N} _.
Arguments tr_rotate {N} _.
Arguments tr_rotateX {N} _.
Arguments tr_scale {N} _.

Record ContainerNode (N : Type) := {
  classList : gset string;
  container_transform : option (Transform N)
}.
Arguments classList {N} _.
Arguments container_transform {N} _.

Inductive Level := LogInfo | LogWarn | LogError.

Record Host (N : Type) := {
  hasBird : bool;
  hasContainer : bool;
  birdNode : BirdNode N;
  containerNode : ContainerNode N;
  innerWidth : N;
  innerHeight : N;
  console : list (Level * string);
  now : Z;                       (* milliseconds *)
  timeouts : list (Z * N);       (* pending callbacks of [updateFlapping]:
                                    due time and captured velocity *)
  frameRequests : list positive; (* pending requestAnimationFrame handles;
                                    the callback is always [animate] *)
  nextHandle : positive;
  mousemoveListeners : nat
}.
Arguments hasBird {N} _.
Arguments hasContainer {N} _.
Arguments birdNode {N} _.
Arguments containerNode {N} _.
Arguments innerWidth {N} _.
Arguments innerHeight {N} _.
Arguments console {N} _.
Arguments now {N} _.
Arguments timeouts {N} _.
Arguments frameRequests {N} _.
Arguments nextHandle {N} _.
Arguments mousemoveListeners {N} _.

(** *** The instance *)

Record BirdCursorSystem (N : Type) := {
  birdElement : bool;        (* false: null *)
  containerElement : bool;   (* false: null or undefined *)
  position : Vector2 N;
  velocity : Vector2 N;
  acceleration : Vector2 N;
  target : Vector2 N;
  config : PhysicsConfig N;
  animationState : AnimationState N;
  animationFrame : option positive;
  isInitialized : bool
}.
Arguments birdElement {N} _.
Arguments containerElement {N} _.
Arguments position {N} _.
Arguments velocity {N} _.
Arguments acceleration {N} _.
Arguments target {N} _.
Arguments config {N} _.
Arguments animationState {N} _.
Arguments animationFrame {N} _.
Arguments isInitialized {N} _.

Record World (N : Type) := {
  this : BirdCursorSystem N;
  host : Host N
}.
Arguments this {N} _.
Arguments host {N} _.

(** A call returns, or throws; either way the mutations made so far stay. *)
Inductive Completion (A : Type) :=
  | Normal (a : A)
  | Throw (a : A).
Arguments Normal {A} _.
Arguments Throw {A} _.

Definition world_of {A} (c : Completion A) : A :=
  match c with Normal a | Throw a => a end.

(** ** Objects used as tables

    [o[k]] finds an own property or, failing that, one that every object
    inherits from [Object.prototype]; the inherited ones are functions (and,
    for [__proto__], the prototype object), all of them truthy and without
    enumerable properties of their own. *)

Definition Object_prototype : list string :=
  [ "constructor"; "hasOwnProperty"; "isPrototypeOf"; "propertyIsEnumerable";
    "toLocaleString"; "toString"; "valueOf"; "__proto__";
    "__defineGetter__"; "__defineSetter__"; "__lookupGetter__";
    "__lookupSetter__" ]%string.

Inductive Property (V : Type) :=
  | Own (v : V)
  | Inherited
  | Undefined.
Arguments Own {V} _.
Arguments Inherited {V}.
Arguments Undefined {V}.

Definition getProperty {V} (o : gmap string V) (k : string) : Property V :=
  match o !! k with
  | Some v => Own v
  | None => if bool_decide (k ∈ Object_prototype) then Inherited else Undefined
  end.

Definition truthy {V} (p : Property V) : bool :=
  match p with Undefined => false | _ => true end.

(** The names of the configuration properties. *)
Definition configProps : list string :=
  [ "springStrength"; "dampening"; "maxSpeed"; "accelerationRate";
    "flappingThreshold"; "baseScale" ]%string.

Section Model.

Context {N : Type} `{JSNumber N}.

Local Open Scope js_scope.

(** *** Reading and merging configuration objects *)

(** [c[k]] for the configuration object (own properties). *)
Definition getField (c : PhysicsConfig N) (k : string) : option N :=
  if decide (k = "springStrength"%string) then Some (springStrength c)
  else if decide (k = "dampening"%string) then Some (dampening c)
  else if decide (k = "maxSpeed"%string) then Some (maxSpeed c)
  else if decide (k = "accelerationRate"%string) then Some (accelerationRate c)
  else if decide (k = "flappingThreshold"%string) then Some (flappingThreshold c)
  else if decide (k = "baseScale"%string) then Some (baseScale c)
  else otherProps c !! k.

(** [Object.assign(c, source)]: every property of [source] is written to
    [c]. *)
Definition Object_assign (c : PhysicsConfig N) (source : gmap string N)
  : PhysicsConfig N :=
  {| springStrength := default (springStrength c) (source !! "springStrength"%string);
     dampening := default (dampening c) (source !! "dampening"%string);
     maxSpeed := default (maxSpeed c) (source !! "maxSpeed"%string);
     accelerationRate := default (accelerationRate c) (source !! "accelerationRate"%string);
     flappingThreshold := default (flappingThreshold c) (source !! "flappingThreshold"%string);
     baseScale := default (baseScale c) (source !! "baseScale"%string);
     otherProps := filter (fun kv => kv.1 ∉ configProps) source ∪ otherProps c |}.

(** An object literal naming the six properties. *)
Definition configObject (s d m a f b : N) : gmap string N :=
  {[ "springStrength"%string := s; "dampening"%string := d;
     "maxSpeed"%string := m; "accelerationRate"%string := a;
     "flappingThreshold"%string := f; "baseScale"%string := b ]}.

(** *** The tables of the constructor *)

Definition themes : gmap string Theme :=
  {[ "robin"%string :=
       {| bodyGradient := "linear-gradient(160deg, #8B4513 0%, #A0522D 30%, #CD853F 70%, #DEB887 100%)";
          breastGradient := "linear-gradient(160deg, #FF8C00 0%, #FF4500 30%, #FF6347 100%)";
          headGradient := "linear-gradient(160deg, #8B4513 0%, #A0522D 100%)" |};
     "bluebird"%string :=
       {| bodyGradient := "linear-gradient(160deg, #4682B4 0%, #5F9EA0 30%, #87CEEB 70%, #B0E0E6 100%)";
          breastGradient := "linear-gradient(160deg, #87CEEB 0%, #4682B4 30%, #1E90FF 100%)";
          headGradient := "linear-gradient(160deg, #4682B4 0%, #1E90FF 100%)" |};
     "cardinal"%string :=
       {| bodyGradient := "linear-gradient(160deg, #DC143C 0%, #B22222 30%, #FF0000 70%, #FF6347 100%)";
          breastGradient := "linear-gradient(160deg, #FF0000 0%, #DC143C 30%, #B22222 100%)";
          headGradient := "linear-gradient(160deg, #8B0000 0%, #DC143C 100%)" |} ]}.

Definition presets : gmap string (gmap string N) :=
  {[ "energetic"%string :=
       configObject (lit 0.18) (lit 0.8) (lit 20) (lit 0.3) (lit 1.0) (lit 0.5);
     "gentle"%string :=
       configObject (lit 0.08) (lit 0.9) (lit 10) (lit 0.15) (lit 2.0) (lit 0.4);
     "balanced"%string :=
       configObject (lit 0.12) (lit 0.85) (lit 15) (lit 0.2) (lit 1.5) (lit 0.45) ]}.

(** The configuration the constructor installs. *)
Definition defaultConfig : PhysicsConfig N :=
  {| springStrength := lit 0.12;
     dampening := lit 0.85;
     maxSpeed := lit 15;
     accelerationRate := lit 0.2;
     flappingThreshold := lit 1.5;
     baseScale := lit 0.45;
     otherProps := ∅ |}.

(** [new BirdCursorSystem()] *)
Definition constructor : BirdCursorSystem N :=
  {| birdElement := false;
     containerElement := false;
     position := Vector2.mk (lit 0) (lit 0);
     velocity := Vector2.mk (lit 0) (lit 0);
     acceleration := Vector2.mk (lit 0) (lit 0);
     target := Vector2.mk (lit 0) (lit 0);
     config := defaultConfig;
     animationState :=
       {| isFlapping := false;
          flapIntensity := lit 1;
          direction := lit 1;
          rotation := lit 0;
          pitchRotation := lit 0;
          scale := baseScale defaultConfig |};
     animationFrame := None;
     isInitialized := false |}.

(** *** Field updates *)

Definition with_this (f : BirdCursorSystem N -> BirdCursorSystem N)
    (w : World N) : World N :=
  {| this := f (this w); host := host w |}.

Definition with_host (f : Host N -> Host N) (w : World N) : World N :=
  {| this := this w; host := f (host w) |}.

Definition set_elements (b c : bool) (s : BirdCursorSystem N) :=
  {| birdElement := b; containerElement := c;
     position := position s; velocity := velocity s;
     acceleration := acceleration s; target := target s;
     config := config s; animationState := animationState s;
     animationFrame := animationFrame s; isInitialized := isInitialized s |}.

Definition set_motion (p v a : Vector2 N) (s : BirdCursorSystem N) :=
  {| birdElement := birdElement s; containerElement := containerElement s;
     position := p; velocity := v; acceleration := a; target := target s;
     config := config s; animationState := animationState s;
     animationFrame := animationFrame s; isInitialized := isInitialized s |}.

Definition set_target (t : Vector2 N) (s : BirdCursorSystem N) :=
  {| birdElement := birdElement s; containerElement := containerElement s;
     position := position s; velocity := velocity s;
     acceleration := acceleration s; target := t;
     config := config s; animationState := animationState s;
     animationFrame := animationFrame s; isInitialized := isInitialized s |}.

Definition set_config (c : PhysicsConfig N) (s : BirdCursorSystem N) :=
  {| birdElement := birdElement s; containerElement := containerElement s;
     position := position s; velocity := velocity s;
     acceleration := acceleration s; target := target s;
     config := c; animationState := animationState s;
     animationFrame := animationFrame s; isInitialized := isInitialized s |}.

Definition set_animationState (a : AnimationState N) (s : BirdCursorSystem N) :=
  {| birdElement := birdElement s; containerElement := containerElement s;
     position := position s; velocity := velocity s;
     acceleration := acceleration s; target := target s;
     config := config s; animationState := a;
     animationFrame := animationFrame s; isInitialized := isInitialized s |}.

Definition set_animationFrame (h : option positive) (s : BirdCursorSystem N) :=
  {| birdElement := birdElement s; containerElement := containerElement s;
     position := position s; velocity := velocity s;
     acceleration := acceleration s; target := target s;
     config := config s; animationState := animationState s;
     animationFrame := h; isInitialized := isInitialized s |}.

Definition set_isInitialized (b : bool) (s : BirdCursorSystem N) :=
  {| birdElement := birdElement s; containerElement := containerElement s;
     position := position s; velocity := velocity s;
     acceleration := acceleration s; target := target s;
     config := config s; animationState := animationState s;
     animationFrame := animationFrame s; isInitialized := b |}.

Definition set_flapping (b : bool) (i : N) (a : AnimationState N) :=
  {| isFlapping := b; flapIntensity := i; direction := direction a;
     rotation := rotation a; pitchRotation := pitchRotation a;
     scale := scale a |}.

Definition set_direction (d : N) (a : AnimationState N) :=
  {| isFlapping := isFlapping a; flapIntensity := flapIntensity a;
     direction := d; rotation := rotation a;
     pitchRotation := pitchRotation a; scale := scale a |}.

Definition set_scale (k : N) (a : AnimationState N) :=
  {| isFlapping := isFlapping a; flapIntensity := flapIntensity a;
     direction := direction a; rotation := rotation a;
     pitchRotation := pitchRotation a; scale := k |}.

Definition set_nodes (b : BirdNode N) (c : ContainerNode N) (h : Host N) :=
  {| hasBird := hasBird h; hasContainer := hasContainer h;
     birdNode := b; containerNode := c;
     innerWidth := innerWidth h; innerHeight := innerHeight h;
     console := console h; now := now h; timeouts := timeouts h;
     frameRequests := frameRequests h; nextHandle := nextHandle h;
     mousemoveListeners := mousemoveListeners h |}.

Definition set_console (l : list (Level * string)) (h : Host N) :=
  {| hasBird := hasBird h; hasContainer := hasContainer h;
     birdNode := birdNode h; containerNode := containerNode h;
     innerWidth := innerWidth h; innerHeight := innerHeight h;
     console := l; now := now h; timeouts := timeouts h;
     frameRequests := frameRequests h; nextHandle := nextHandle h;
     mousemoveListeners := mousemoveListeners h |}.

Definition set_now (t : Z) (h : Host N) :=
  {| hasBird := hasBird h; hasContainer := hasContainer h;
     birdNode := birdNode h; containerNode := containerNode h;
     innerWidth := innerWidth h; innerHeight := innerHeight h;
     console := console h; now := t; timeouts := timeouts h;
     frameRequests := frameRequests h; nextHandle := nextHandle h;
     mousemoveListeners := mousemoveListeners h |}.

Definition set_timeouts (q : list (Z * N)) (h : Host N) :=
  {| hasBird := hasBird h; hasContainer := hasContainer h;
     birdNode := birdNode h; containerNode := containerNode h;
     innerWidth := innerWidth h; innerHeight := innerHeight h;
     console := console h; now := now h; timeouts := q;
     frameRequests := frameRequests h; nextHandle := nextHandle h;
     mousemoveListeners := mousemoveListeners h |}.

Definition set_frames (q : list positive) (n : positive) (h : Host N) :=
  {| hasBird := hasBird h; hasContainer := hasContainer h;
     birdNode := birdNode h; containerNode := containerNode h;
     innerWidth := innerWidth h; innerHeight := innerHeight h;
     console := console h; now := now h; timeouts := timeouts h;
     frameRequests := q; nextHandle := n;
     mousemoveListeners := mousemoveListeners h |}.

Definition set_listeners (n : nat) (h : Host N) :=
  {| hasBird := hasBird h; hasContainer := hasContainer h;
     birdNode := birdNode h; containerNode := containerNode h;
     innerWidth := innerWidth h; innerHeight := innerHeight h;
     console := console h; now := now h; timeouts := timeouts h;
     frameRequests := frameRequests h; nextHandle := nextHandle h;
     mousemoveListeners := n |}.

(** *** Host services *)

Definition console_emit (l : Level) (msg : string) (w : World N) : World N :=
  with_host (fun h => set_console (console h ++ [(l, msg)]) h) w.

(** [setTimeout(callback, delay)]; the callback is the closure of
    [updateFlapping], which holds the value of its parameter [velocity].  No
    handle is kept, so nothing can cancel it. *)
Definition setTimeout (velocity : N) (delay : Z) (w : World N) : World N :=
  with_host (fun h => set_timeouts (timeouts h ++ [((now h + delay)%Z, velocity)]) h) w.

(** [requestAnimationFrame(animate)] *)
Definition requestAnimationFrame (w : World N) : positive * World N :=
  let h := nextHandle (host w) in
  (h, with_host (fun hst => set_frames (frameRequests hst ++ [h]) (Pos.succ h) hst) w).

Definition cancelAnimationFrame (h : positive) (w : World N) : World N :=
  with_host (fun hst =>
    set_frames (filter (fun h' => h' ≠ h) (frameRequests hst)) (nextHandle hst) hst) w.

(** *** Methods of [BirdCursorSystem] *)

(** The block of [updatePhysics] under "Limit maximum speed". *)
Definition limitMaximumSpeed (maxSpeed : N) (v : Vector2 N) : Vector2 N :=
  let currentSpeed := Math_sqrt (pow2 (Vector2.x v) + pow2 (Vector2.y v)) in
  if currentSpeed >? maxSpeed then
    let scale := maxSpeed / currentSpeed in
    Vector2.mk (Vector2.x v * scale) (Vector2.y v * scale)
  else v.

(** The callback [updateFlapping] hands to [setTimeout]; [velocity] is
    the value captured when it was scheduled, the threshold is read when it
    runs. *)
Definition flappingTimeout (velocity : N) (w : World N) : World N :=
  if velocity <=? flappingThreshold (config (this w)) then
    with_this (fun s =>
      set_animationState (set_flapping false (lit 1) (animationState s)) s) w
  else w.

Definition updateFlapping (velocity : N) (w : World N) : World N :=
  if velocity >? flappingThreshold (config (this w)) then
    with_this (fun s =>
      set_animationState
        (set_flapping true
           (Math_min (lit 1.5) (velocity / flappingThreshold (config s)))
           (animationState s)) s) w
  else
    setTimeout velocity 150 w.

Definition updatePhysics (w : World N) : World N :=
  let s := this w in
  let c := config s in
  (* Calculate desired direction *)
  let dx := Vector2.x (target s) - Vector2.x (position s) in
  let dy := Vector2.y (target s) - Vector2.y (position s) in
  (* Gradually adjust acceleration *)
  let a :=
    Vector2.mk
      (Vector2.x (acceleration s)
       + (dx * accelerationRate c - Vector2.x (acceleration s)) * lit 0.1)
      (Vector2.y (acceleration s)
       + (dy * accelerationRate c - Vector2.y (acceleration s)) * lit 0.1) in
  (* Update velocity with spring physics and dampening *)
  let v1 :=
    Vector2.mk (Vector2.x (velocity s) + Vector2.x a * springStrength c)
               (Vector2.y (velocity s) + Vector2.y a * springStrength c) in
  (* Apply dampening *)
  let v2 := Vector2.mk (Vector2.x v1 * dampening c) (Vector2.y v1 * dampening c) in
  (* Limit maximum speed *)
  let v := limitMaximumSpeed (maxSpeed c) v2 in
  (* Update position *)
  let p :=
    Vector2.mk (Vector2.x (position s) + Vector2.x v)
               (Vector2.y (position s) + Vector2.y v) in
  (* Calculate velocity magnitude for animation triggers *)
  let velocityMagnitude := Math_sqrt (pow2 (Vector2.x v) + pow2 (Vector2.y v)) in
  (* Determine direction based on horizontal velocity *)
  let d :=
    if Math_abs (Vector2.x v) >? lit 0.1 then
      if Vector2.x v >? lit 0 then lit 1 else lit (-1)
    else direction (animationState s) in
  let w1 :=
    with_this (fun s =>
      set_animationState (set_direction d (animationState s))
        (set_motion p v a s)) w in
  (* Update flapping state *)
  let w2 := updateFlapping velocityMagnitude w1 in
  (* Update scale based on velocity *)
  let dynamicScale := Math_max (lit 0.9) (lit 1 - velocityMagnitude * lit 0.001) in
  with_this (fun s =>
    set_animationState
      (set_scale (baseScale (config s) * dynamicScale) (animationState s)) s) w2.

(** Dereferencing [this.containerElement] or [this.birdElement] throws a
    TypeError when the reference is null. *)
Definition updateAnimation (w : World N) : Completion (World N) :=
  if negb (containerElement (this w)) then Throw w
  else
    let flapping := isFlapping (animationState (this w)) in
    let w1 :=
      with_host (fun h =>
        let c := containerNode h in
        set_nodes (birdNode h)
          {| classList :=
               if flapping then classList c ∪ {["flapping"%string]}
               else classList c ∖ {["flapping"%string]};
             container_transform := container_transform c |} h) w in
    if flapping then
      if negb (birdElement (this w)) then Throw w1
      else
        Normal (with_host (fun h =>
          let b := birdNode h in
          set_nodes
            {| style_left := style_left b; style_top := style_top b;
               style_transform := style_transform b;
               style_animationDuration :=
                 Some (lit 0.8 / flapIntensity (animationState (this w))) |}
            (containerNode h) h) w1)
    else Normal w1.

Definition render (w : World N) : World N :=
  if negb (birdElement (this w)) || negb (containerElement (this w)) then w
  else
    let s := this w in
    let a := animationState s in
    with_host (fun h =>
      set_nodes
        {| style_left := Some (Vector2.x (position s));
           style_top := Some (Vector2.y (position s));
           style_transform := Some "translate(-50%, -50%)"%string;
           style_animationDuration := style_animationDuration (birdNode h) |}
        {| classList := classList (containerNode h);
           container_transform :=
             Some {| tr_scaleX := direction a; tr_rotate := rotation a;
                     tr_rotateX := pitchRotation a; tr_scale := scale a |} |}
        h) w.

(** The closure [animate] of [startAnimation]. *)
Definition animate (w : World N) : Completion (World N) :=
  let w1 := updatePhysics w in
  match updateAnimation w1 with
  | Throw w2 => Throw w2
  | Normal w2 =>
      let w3 := render w2 in
      let '(h, w4) := requestAnimationFrame w3 in
      Normal (with_this (set_animationFrame (Some h)) w4)
  end.

Definition startAnimation (w : World N) : Completion (World N) := animate w.

Definition setupEventListeners (w : World N) : World N :=
  let w1 := with_host (fun h => set_listeners (S (mousemoveListeners h)) h) w in
  (* Initialize position to center of screen *)
  let p :=
    Vector2.mk (innerWidth (host w1) / lit 2) (innerHeight (host w1) / lit 2) in
  with_this (fun s =>
    set_target p (set_motion p (velocity s) (acceleration s) s)) w1.

Definition init (w : World N) : Completion (World N) :=
  if isInitialized (this w) then Normal w
  else
    let b := hasBird (host w) in
    let c := b && hasContainer (host w) in
    let w1 := with_this (set_elements b c) w in
    if negb b || negb c then
      Normal (console_emit LogError "Bird cursor elements not found" w1)
    else
      match startAnimation (setupEventListeners w1) with
      | Throw w2 => Throw w2
      | Normal w2 =>
          Normal (console_emit LogInfo "Bird cursor system initialized"
                    (with_this (set_isInitialized true) w2))
      end.

Definition setPreset (presetName : string) (w : World N) : World N :=
  match getProperty presets presetName with
  | Own preset =>
      console_emit LogInfo ("Applied preset: " +:+ presetName)
        (with_this (fun s => set_config (Object_assign (config s) preset) s) w)
  | Inherited =>
      (* nothing enumerable to copy *)
      console_emit LogInfo ("Applied preset: " +:+ presetName) w
  | Undefined =>
      console_emit LogWarn ("Preset '" +:+ presetName +:+ "' not found") w
  end.

Definition setTheme (themeName : string) (w : World N) : World N :=
  if negb (containerElement (this w)) then w
  else
    (* Remove existing theme classes *)
    let w1 :=
      with_host (fun h =>
        let c := containerNode h in
        set_nodes (birdNode h)
          {| classList := classList c ∖ dom themes;
             container_transform := container_transform c |} h) w in
    if truthy (getProperty themes themeName) then
      console_emit LogInfo ("Applied theme: " +:+ themeName)
        (with_host (fun h =>
           let c := containerNode h in
           set_nodes (birdNode h)
             {| classList := classList c ∪ {[themeName]};
                container_transform := container_transform c |} h) w1)
    else
      console_emit LogWarn ("Theme '" +:+ themeName +:+ "' not found") w1.

Definition updatePhysicsConfig (newConfig : gmap string N) (w : World N) : World N :=
  with_this (fun s => set_config (Object_assign (config s) newConfig) s) w.

Definition getConfig (w : World N) : PhysicsConfig N := config (this w).

Definition destroy (w : World N) : World N :=
  let w1 :=
    match animationFrame (this w) with
    | Some h => cancelAnimationFrame h w
    | None => w
    end in
  console_emit LogInfo "Bird cursor system destroyed"
    (with_this (set_isInitialized false) w1).

(** *** What the host does between calls *)

(** A [mousemove] event: every registered listener writes the target. *)
Definition mousemove (clientX clientY : N) (w : World N) : World N :=
  match mousemoveListeners (host w) with
  | O => w
  | S _ => with_this (set_target (Vector2.mk clientX clientY)) w
  end.

(** Time passes. *)
Definition elapse (ms : Z) (w : World N) : World N :=
  with_host (fun h => set_now (now h + ms)%Z h) w.

(** The timer phase of the event loop: the callbacks that are due run in
    the order they were scheduled and leave the queue. *)
Definition runChecks (due : list (Z * N)) (w : World N) : World N :=
  foldl (fun w e => flappingTimeout e.2 w) w due.

Definition runTimeouts (w : World N) : World N :=
  let t := now (host w) in
  let due := filter (fun e => (e.1 <= t)%Z) (timeouts (host w)) in
  let pending := filter (fun e => ¬ (e.1 <= t)%Z) (timeouts (host w)) in
  runChecks due (with_host (set_timeouts pending) w).

(** The animation-frame phase: every pending request runs [animate]. *)
Definition runFrame (w : World N) : World N :=
  let requests := frameRequests (host w) in
  foldl (fun w _ => world_of (animate w))
        (with_host (fun h => set_frames [] (nextHandle h) h) w) requests.

(** *** The stages of one physics step

    Names for the intermediate values of [updatePhysics]: the speed of a
    velocity, the acceleration after "Gradually adjust acceleration", and the
    velocity after "Apply dampening", which is the one the speed limit
    receives. *)

Definition magnitude (v : Vector2 N) : N :=
  Math_sqrt (pow2 (Vector2.x v) + pow2 (Vector2.y v)).

Definition adjustedAcceleration (s : BirdCursorSystem N) : Vector2 N :=
  let c := config s in
  let dx := Vector2.x (target s) - Vector2.x (position s) in
  let dy := Vector2.y (target s) - Vector2.y (position s) in
  Vector2.mk
    (Vector2.x (acceleration s)
     + (dx * accelerationRate c - Vector2.x (acceleration s)) * lit 0.1)
    (Vector2.y (acceleration s)
     + (dy * accelerationRate c - Vector2.y (acceleration s)) * lit 0.1).

Definition dampenedVelocity (s : BirdCursorSystem N) : Vector2 N :=
  let c := config s in
  let a := adjustedAcceleration s in
  Vector2.mk
    ((Vector2.x (velocity s) + Vector2.x a * springStrength c) * dampening c)
    ((Vector2.y (velocity s) + Vector2.y a * springStrength c) * dampening c).

(** *** Calls from outside

    Every method is public; [call] runs one of them and keeps the world it
    leaves, whether it returned or threw. *)

Inductive Call :=
  | Call_init
  | Call_setupEventListeners
  | Call_startAnimation
  | Call_updatePhysics
  | Call_updateFlapping (velocity : N)
  | Call_updateAnimation
  | Call_render
  | Call_setPreset (presetName : string)
  | Call_setTheme (themeName : string)
  | Call_updatePhysicsConfig (newConfig : gmap string N)
  | Call_getConfig
  | Call_destroy.

Definition call (c : Call) (w : World N) : World N :=
  match c with
  | Call_init => world_of (init w)
  | Call_setupEventListeners => setupEventListeners w
  | Call_startAnimation => world_of (startAnimation w)
  | Call_updatePhysics => updatePhysics w
  | Call_updateFlapping velocity => updateFlapping velocity w
  | Call_updateAnimation => world_of (updateAnimation w)
  | Call_render => render w
  | Call_setPreset presetName => setPreset presetName w
  | Call_setTheme themeName => setTheme themeName w
  | Call_updatePhysicsConfig newConfig => updatePhysicsConfig newConfig w
  | Call_getConfig => w
  | Call_destroy => destroy w
  end.

Definition calls (cs : list Call) (w : World N) : World N :=
  foldl (fun w c => call c w) w cs.

(** [w'] still holds every pending check of [w], in the same order. *)
Definition timeouts_kept (w w' : World N) : Prop :=
  exists more, timeouts (host w') = timeouts (host w) ++ more.

(** The part of the instance the integration reads and writes. *)
Definition motionIs (c : PhysicsConfig N) (p v a t : Vector2 N) (w : World N)
  : Prop :=
  config (this w) = c /\ position (this w) = p /\ velocity (this w) = v
  /\ acceleration (this w) = a /\ target (this w) = t.

(** [n] frames of the integration alone. *)
Definition ticks (n : nat) (w : World N) : World N :=
  Nat.iter n updatePhysics w.

End Model.

Arguments Call N : clear implicits.

(** ** Sample worlds, for running the code *)

Module Sample.

Section WithNumbers.

Context {N : Type} `{JSNumber N}.

Definition emptyBirdNode : BirdNode N :=
  {| style_left := None; style_top := None; style_transform := None;
     style_animationDuration := None |}.

(** A page of 800 by 600 pixels; [bird] and [container] say which of the
    two elements it holds. *)
Definition page (bird container : bool) : Host N :=
  {| hasBird := bird; hasContainer := container;
     birdNode := emptyBirdNode;
     containerNode :=
       {| classList := {["bird-container"%string]};
          container_transform := None |};
     innerWidth := lit 800; innerHeight := lit 600;
     console := []; now := 0%Z; timeouts := [];
     frameRequests := []; nextHandle := 1%positive;
     mousemoveListeners := 0 |}.

(** A new instance on a complete page, and on a page without the
    elements. *)
Definition fresh : World N := {| this := constructor; host := page true true |}.
Definition bare : World N := {| this := constructor; host := page false false |}.

(** At [(px, 0)] with the target at [(tx, 0)], moving with [(vx, 0)] and
    [(ax, 0)] under configuration [c]. *)
Definition along (c : PhysicsConfig N) (px tx vx ax : N) : World N :=
  {| this :=
       set_config c
         (set_target (Vector2.mk tx (lit 0))
            (set_motion (Vector2.mk px (lit 0)) (Vector2.mk vx (lit 0))
               (Vector2.mk ax (lit 0)) constructor));
     host := page true true |}.

(** The constructor's configuration with other values for [dampening] and
    [maxSpeed]. *)
Definition tuned (d m : N) : PhysicsConfig N :=
  {| springStrength := springStrength defaultConfig;
     dampening := d;
     maxSpeed := m;
     accelerationRate := accelerationRate defaultConfig;
     flappingThreshold := flappingThreshold defaultConfig;
     baseScale := baseScale defaultConfig;
     otherProps := ∅ |}.

(** A stiff spring under a low speed limit: every value is positive, and
    [springStrength] and [dampening] lie between 0 and 1. *)
Definition stiff : PhysicsConfig N :=
  {| springStrength := lit 0.5;
     dampening := lit 0.5;
     maxSpeed := lit 2;
     accelerationRate := lit 380;
     flappingThreshold := lit 1.5;
     baseScale := lit 0.45;
     otherProps := ∅ |}.

End WithNumbers.

End Sample.

(** ** An orbit of period two

    Under [Sample.stiff], the state with position (1,0), velocity (2,0) and
    acceleration (20,0) about the target (0,0), and its mirror image. *)

Module Orbit.

Section WithNumbers.

Context {N : Type} `{JSNumber N}.

Definition east : World N -> Prop :=
  motionIs Sample.stiff
    (Vector2.mk (lit 1) (lit 0)) (Vector2.mk (lit 2) (lit 0))
    (Vector2.mk (lit 20) (lit 0)) (Vector2.mk (lit 0) (lit 0)).

Definition west : World N -> Prop :=
  motionIs Sample.stiff
    (Vector2.mk (lit (-1)) (lit 0)) (Vector2.mk (lit (-2)) (lit 0))
    (Vector2.mk (lit (-20)) (lit 0)) (Vector2.mk (lit 0) (lit 0)).

Definition start : World N :=
  Sample.along Sample.stiff (lit 1) (lit 0) (lit 2) (lit 20).

End WithNumbers.

End Orbit.

(** ** Convergence, over the reals *)

(** The position after [n] steps tends to [l] as [n] grows. *)
Definition positionConverges (w : World R) (l : Vector2 R) : Prop :=
  Un_cv (fun n => Vector2.x (position (this (ticks n w)))) (Vector2.x l)
  /\ Un_cv (fun n => Vector2.y (position (this (ticks n w)))) (Vector2.y l).

(** A quadratic form in the offset from the target [e], the velocity [v]
    and the acceleration [a] along one axis; under the constructor's
    configuration one unlimited step shrinks it. *)
Definition energy1 (e v a : R) : R :=
  (14 * e * e - 90 * e * v + 2 * e * a
   + 633 * v * v + 486 * v * a + 249 * a * a)%R.

Definition energy (s : BirdCursorSystem R) : R :=
  (energy1 (Vector2.x (target s) - Vector2.x (position s))
           (Vector2.x (velocity s)) (Vector2.x (acceleration s))
   + energy1 (Vector2.y (target s) - Vector2.y (position s))
             (Vector2.y (velocity s)) (Vector2.y (acceleration s)))%R.

(** ** Laws of the comparisons

    The only facts about numbers the structural properties need; they hold
    for doubles and for reals alike. *)

Class JSNumberLaws (N : Type) `{JSNumber N} := {
  le_not_gt : forall a b : N, (a <=? b)%js = true -> (a >? b)%js = false
}.


(** ** The loop and the lifecycle *)

Section Lifecycle.

Context {N : Type} `{JSNumber N}.

(** [n] animation-frame phases of the host. *)
Definition frames (n : nat) (w : World N) : World N :=
  Nat.iter n runFrame w.

(** One loop is running: both elements are referenced and the only pending
    frame request is the one the instance remembers. *)
Definition singleLoop (w : World N) : Prop :=
  birdElement (this w) = true
  /\ containerElement (this w) = true
  /\ exists h, animationFrame (this w) = Some h /\ frameRequests (host w) = [h].

End Lifecycle.

(** ** Everything that can happen to a world

    Besides the calls from outside, the host runs its frame phase and its
    timer phase, delivers [mousemove] events and lets time pass. *)

Section Actions.

Context {N : Type} `{JSNumber N}.

Inductive HostEvent :=
  | Frame
  | Timers
  | Mousemove (clientX clientY : N)
  | Elapse (ms : Z).

Definition happen (e : HostEvent) (w : World N) : World N :=
  match e with
  | Frame => runFrame w
  | Timers => runTimeouts w
  | Mousemove clientX clientY => mousemove clientX clientY w
  | Elapse ms => elapse ms w
  end.

Definition happenings (es : list HostEvent) (w : World N) : World N :=
  foldl (fun w e => happen e w) w es.

Inductive Action :=
  | Method (c : Call N)
  | Host_ (e : HostEvent).

Definition act (a : Action) (w : World N) : World N :=
  match a with
  | Method c => call c w
  | Host_ e => happen e w
  end.

Definition acts (l : list Action) (w : World N) : World N :=
  foldl (fun w a => act a w) w l.

End Actions.

Arguments HostEvent N : clear implicits.
Arguments Action N : clear implicits.

(** ** What the page shows *)

Section Shown.

Context {N : Type} `{JSNumber N}.

Local Open Scope js_scope.

(** The two elements show the state of the instance: the bird element is
    placed at [position], the container carries the transform built from the
    animation state, the class [flapping] is set exactly when [isFlapping]
    is, and while it is the animation lasts [0.8 / flapIntensity] seconds. *)
Definition shown (w : World N) : Prop :=
  let s := this w in
  let a := animationState s in
  style_left (birdNode (host w)) = Some (Vector2.x (position s))
  /\ style_top (birdNode (host w)) = Some (Vector2.y (position s))
  /\ style_transform (birdNode (host w)) = Some "translate(-50%, -50%)"%string
  /\ container_transform (containerNode (host w))
     = Some {| tr_scaleX := direction a; tr_rotate := rotation a;
               tr_rotateX := pitchRotation a; tr_scale := scale a |}
  /\ ("flapping"%string ∈ classList (containerNode (host w))
      <-> isFlapping a = true)
  /\ (isFlapping a = true ->
      style_animationDuration (birdNode (host w))
      = Some (lit 0.8 / flapIntensity a)).

End Shown.

(** Calls of [setTheme], the one method that writes theme classes. *)
Definition isSetTheme {N : Type} (a : Action N) : bool :=
  match a with
  | Method (Call_setTheme _) => true
  | _ => false
  end.

(** Two worlds whose containers differ at most in the class [flapping]. *)
Definition sameButFlapping {N : Type} (w w' : World N) : Prop :=
  forall k : string, k <> "flapping"%string ->
    (k ∈ classList (containerNode (host w'))
     <-> k ∈ classList (containerNode (host w))).

(** ** The second half of a step, and moving the whole scene *)

Section Translate.

Context {N : Type} `{JSNumber N}.

Local Open Scope js_scope.

(** The part of [updatePhysics] from "Update position" on, as a function of
    the acceleration and of the velocity the speed limit has left. *)
Definition applyMotion (a v : Vector2 N) (w : World N) : World N :=
  let s := this w in
  let p :=
    Vector2.mk (Vector2.x (position s) + Vector2.x v)
               (Vector2.y (position s) + Vector2.y v) in
  let velocityMagnitude := Math_sqrt (pow2 (Vector2.x v) + pow2 (Vector2.y v)) in
  let d :=
    if Math_abs (Vector2.x v) >? lit 0.1 then
      if Vector2.x v >? lit 0 then lit 1 else lit (-1)
    else direction (animationState s) in
  let w1 :=
    with_this (fun s =>
      set_animationState (set_direction d (animationState s))
        (set_motion p v a s)) w in
  let w2 := updateFlapping velocityMagnitude w1 in
  let dynamicScale := Math_max (lit 0.9) (lit 1 - velocityMagnitude * lit 0.001) in
  with_this (fun s =>
    set_animationState
      (set_scale (baseScale (config s) * dynamicScale) (animationState s)) s) w2.

(** The same state with position and target both moved by [d]. *)
Definition translate (d : Vector2 N) (w : World N) : World N :=
  with_this (fun s =>
    set_target
      (Vector2.mk (Vector2.x (target s) + Vector2.x d)
                  (Vector2.y (target s) + Vector2.y d))
      (set_motion
         (Vector2.mk (Vector2.x (position s) + Vector2.x d)
                     (Vector2.y (position s) + Vector2.y d))
         (velocity s) (acceleration s) s)) w.

End Translate.

(** ** The ranges of the animation state, over the reals *)

(** [direction] is 1 or -1, [flapIntensity] lies between 1 and 1.5, and
    [scale] between 90% of [baseScale] and [baseScale]. *)
Definition inRange (w : World R) : Prop :=
  let a := animationState (this w) in
  let b := baseScale (config (this w)) in
  (direction a = 1 \/ direction a = -1)%R
  /\ (1 <= flapIntensity a <= 3 / 2)%R
  /\ (9 / 10 * b <= scale a <= b)%R.

(** At rest on the target. *)
Definition atRest (w : World R) : Prop :=
  position (this w) = target (this w)
  /\ velocity (this w) = Vector2.mk 0%R 0%R
  /\ acceleration (this w) = Vector2.mk 0%R 0%R.

(** ** Energies for the presets, over the reals

    Quadratic forms in the offset from the target, the velocity and the
    acceleration along one axis, as [energy1] is for the constructor's
    configuration: one unlimited step under the preset [gentle], or
    [energetic], shrinks its form. *)

Definition energyGentle1 (e v a : R) : R :=
  (3 * e * e - 28 * e * v + 235 * v * v + 164 * v * a + 67 * a * a)%R.

Definition energyEnergetic1 (e v a : R) : R :=
  (5 * e * e - 26 * e * v + 2 * e * a
   + 111 * v * v + 100 * v * a + 74 * a * a)%R.

(** The form [form] summed over the two axes. *)
Definition energyWith (form : R -> R -> R -> R) (s : BirdCursorSystem R) : R :=
  (form (Vector2.x (target s) - Vector2.x (position s))
        (Vector2.x (velocity s)) (Vector2.x (acceleration s))
   + form (Vector2.y (target s) - Vector2.y (position s))
          (Vector2.y (velocity s)) (Vector2.y (acceleration s)))%R.

(** The four properties of the configuration the integration reads. *)
Definition configuredAs (r k d M : R) (w : World R) : Prop :=
  accelerationRate (config (this w)) = r
  /\ springStrength (config (this w)) = k
  /\ dampening (config (this w)) = d
  /\ maxSpeed (config (this w)) = M.

(** ** Not a number *)

(** The double [x] is NaN. *)
Definition isNaN (x : float) : Prop := Prim2SF x = S754_nan.

(** A vector with a NaN coordinate. *)
Definition broken (v : Vector2 float) : Prop :=
  isNaN (Vector2.x v) \/ isNaN (Vector2.y v).

(** ** Writers *)

(** The calls that write the configuration, and the calls and events that
    write the target. *)
Definition writesConfig {N : Type} (a : Action N) : bool :=
  match a with
  | Method (Call_setPreset _) | Method (Call_updatePhysicsConfig _) => true
  | _ => false
  end.

Definition writesTarget {N : Type} (a : Action N) : bool :=
  match a with
  | Method Call_init | Method Call_setupEventListeners
  | Host_ (Mousemove _ _) => true
  | _ => false
  end.

(** ** The script around the class

    Below the class the file creates one instance, [BirdCursor], starts it
    (at once, or when the document has loaded), and then assigns it two
    functions for the sliders of the page, [updatePhysics] and [updateScale].
    The first is an own property of the instance with the name of a method of
    the class: from then on [BirdCursor.updatePhysics()], and with it
    [this.updatePhysics()] in the loop of that instance, finds the assigned
    function and not the method.

    The elements the two functions look up by id are kept in a map; they are
    taken to be distinct from each other and from the two elements of the
    bird.  A number assigned to [textContent] is kept as the number. *)

Record Element (N : Type) := {
  el_value : option string;      (* [.value]; [None]: undefined *)
  el_textContent : option N      (* [Some n]: the script has assigned [n] *)
}.
Arguments el_value {N} _.
Arguments el_textContent {N} _.

Record Page (N : Type) := {
  BirdCursor : World N;          (* the global instance, and the host *)
  assigned : bool;               (* lines 321 and 338 have run *)
  loading : bool;                (* document.readyState === 'loading' *)
  DOMContentLoaded : nat;        (* listeners registered by line 315 *)
  elementsById : gmap string (Element N)
}.
Arguments BirdCursor {N} _.
Arguments assigned {N} _.
Arguments loading {N} _.
Arguments DOMContentLoaded {N} _.
Arguments elementsById {N} _.

Section Script.

Context {N : Type} `{JSNumber N}.

(** [parseFloat], applied to the [value] of an element. *)
Variable parseFloat : option string -> N.

Definition set_instance (w : World N) (g : Page N) : Page N :=
  {| BirdCursor := w; assigned := assigned g; loading := loading g;
     DOMContentLoaded := DOMContentLoaded g; elementsById := elementsById g |}.

Definition with_instance (f : World N -> World N) (g : Page N) : Page N :=
  set_instance (f (BirdCursor g)) g.

Definition set_assigned (b : bool) (g : Page N) : Page N :=
  {| BirdCursor := BirdCursor g; assigned := b; loading := loading g;
     DOMContentLoaded := DOMContentLoaded g; elementsById := elementsById g |}.

Definition set_document (l : bool) (n : nat) (g : Page N) : Page N :=
  {| BirdCursor := BirdCursor g; assigned := assigned g; loading := l;
     DOMContentLoaded := n; elementsById := elementsById g |}.

Definition set_elementsById (m : gmap string (Element N)) (g : Page N) : Page N :=
  {| BirdCursor := BirdCursor g; assigned := assigned g; loading := loading g;
     DOMContentLoaded := DOMContentLoaded g; elementsById := m |}.

(** [parseFloat(document.getElementById(id).value)]; [None]: the element
    is missing and reading [value] of [null] throws. *)
Definition sliderValue (id : string) (g : Page N) : option N :=
  match elementsById g !! id with
  | Some e => Some (parseFloat (el_value e))
  | None => None
  end.

(** [document.getElementById(id).textContent = n]; [None]: the element is
    missing and the assignment throws. *)
Definition showValue (id : string) (n : N) (g : Page N) : option (Page N) :=
  match elementsById g !! id with
  | Some e =>
      Some (set_elementsById
              (<[id := {| el_value := el_value e; el_textContent := Some n |}]>
                 (elementsById g)) g)
  | None => None
  end.

(** The function assigned to [BirdCursor.updatePhysics]. *)
Definition controls_updatePhysics (g : Page N) : Completion (Page N) :=
  match sliderValue "springStrength" g with
  | None => Throw g
  | Some springStrength =>
  match sliderValue "maxSpeed" g with
  | None => Throw g
  | Some maxSpeed =>
  match sliderValue "scale" g with
  | None => Throw g
  | Some scale =>
  let g1 :=
    with_instance
      (updatePhysicsConfig
         {[ "springStrength"%string := springStrength;
            "maxSpeed"%string := maxSpeed;
            "baseScale"%string := scale ]}) g in
  (* Update display values *)
  match showValue "springValue" springStrength g1 with
  | None => Throw g1
  | Some g2 =>
  match showValue "speedValue" maxSpeed g2 with
  | None => Throw g2
  | Some g3 =>
  match showValue "scaleValue" scale g3 with
  | None => Throw g3
  | Some g4 => Normal g4
  end end end end end end.

(** The function assigned to [BirdCursor.updateScale]. *)
Definition controls_updateScale (g : Page N) : Completion (Page N) :=
  match sliderValue "scale" g with
  | None => Throw g
  | Some scale =>
  let g1 :=
    with_instance (updatePhysicsConfig {[ "baseScale"%string := scale ]}) g in
  match showValue "scaleValue" scale g1 with
  | None => Throw g1
  | Some g2 => Normal g2
  end end.

(** [BirdCursor.updatePhysics()]: the own property if it has been
    assigned, the method of the class otherwise. *)
Definition BirdCursor_updatePhysics (g : Page N) : Completion (Page N) :=
  if assigned g then controls_updatePhysics g
  else Normal (with_instance updatePhysics g).

(** [BirdCursor.updateScale()]: before the assignment there is no such
    property, and the call throws. *)
Definition BirdCursor_updateScale (g : Page N) : Completion (Page N) :=
  if assigned g then controls_updateScale g else Throw g.

(** The closure [animate] of [startAnimation], on the global instance. *)
Definition BirdCursor_animate (g : Page N) : Completion (Page N) :=
  match BirdCursor_updatePhysics g with
  | Throw g1 => Throw g1
  | Normal g1 =>
      match updateAnimation (BirdCursor g1) with
      | Throw w2 => Throw (set_instance w2 g1)
      | Normal w2 =>
          let w3 := render w2 in
          let '(h, w4) := requestAnimationFrame w3 in
          Normal (set_instance (with_this (set_animationFrame (Some h)) w4) g1)
      end
  end.

(** [BirdCursor.init()] *)
Definition BirdCursor_init (g : Page N) : Completion (Page N) :=
  let w := BirdCursor g in
  if isInitialized (this w) then Normal g
  else
    let b := hasBird (host w) in
    let c := b && hasContainer (host w) in
    let w1 := with_this (set_elements b c) w in
    if negb b || negb c then
      Normal (set_instance
                (console_emit LogError "Bird cursor elements not found" w1) g)
    else
      match BirdCursor_animate (set_instance (setupEventListeners w1) g) with
      | Throw g2 => Throw g2
      | Normal g2 =>
          Normal (with_instance
                    (fun w2 =>
                       console_emit LogInfo "Bird cursor system initialized"
                         (with_this (set_isInitialized true) w2)) g2)
      end.

(** The statements of the script, run on a host whose document is loading
    or not and holds the elements [els]. *)
Definition script (h : Host N) (isLoading : bool)
    (els : gmap string (Element N)) : Completion (Page N) :=
  let g0 :=
    {| BirdCursor := {| this := constructor; host := h |};
       assigned := false; loading := isLoading;
       DOMContentLoaded := 0; elementsById := els |} in
  (* Auto-initialize if DOM is already loaded *)
  let r :=
    if loading g0 then Normal (set_document (loading g0) 1 g0)
    else BirdCursor_init g0 in
  match r with
  | Throw g1 => Throw g1
  | Normal g1 =>
      (* UI Controls Integration *)
      Normal (set_assigned true g1)
  end.

(** A call of a method on the global instance, from anywhere on the page:
    [init], [startAnimation] and [updatePhysics] reach the closure and the
    assigned function, the other methods are those of the class. *)
Definition BirdCursor_call (c : Call N) (g : Page N) : Page N :=
  match c with
  | Call_init => world_of (BirdCursor_init g)
  | Call_startAnimation => world_of (BirdCursor_animate g)
  | Call_updatePhysics => world_of (BirdCursor_updatePhysics g)
  | _ => with_instance (call c) g
  end.

(** What happens on the page afterwards: the document finishes loading and
    the registered listeners call [BirdCursor.init()]; the host runs a frame
    phase (every pending request runs the closure), a timer phase, delivers a
    mouse move or lets time pass; a slider calls one of the two functions;
    some script calls a method of the instance. *)
Inductive PageEvent :=
  | Loaded
  | OnHost (e : HostEvent N)
  | Slider_updatePhysics
  | Slider_updateScale
  | OnInstance (c : Call N).

Definition BirdCursor_runFrame (g : Page N) : Page N :=
  let requests := frameRequests (host (BirdCursor g)) in
  foldl (fun g _ => world_of (BirdCursor_animate g))
        (with_instance (with_host (fun h => set_frames [] (nextHandle h) h)) g)
        requests.

Definition occur (e : PageEvent) (g : Page N) : Page N :=
  match e with
  | Loaded =>
      Nat.iter (DOMContentLoaded g) (fun g => world_of (BirdCursor_init g))
        (set_document false (DOMContentLoaded g) g)
  | OnHost Frame => BirdCursor_runFrame g
  | OnHost e => with_instance (happen e) g
  | Slider_updatePhysics => world_of (BirdCursor_updatePhysics g)
  | Slider_updateScale => world_of (BirdCursor_updateScale g)
  | OnInstance c => BirdCursor_call c g
  end.

(** The events that are no method calls. *)
Definition isCall (e : PageEvent) : bool :=
  match e with
  | OnInstance _ => true
  | _ => false
  end.

Definition occurs (es : list PageEvent) (g : Page N) : Page N :=
  foldl (fun g e => occur e g) g es.

(** The centre of the window. *)
Definition centre (h : Host N) : Vector2 N :=
  Vector2.mk (innerWidth h / lit 2)%js (innerHeight h / lit 2)%js.

End Script.

Arguments PageEvent N : clear implicits.

(** The motion of the global instance is [v], [a] and one of the positions
    [p] and [c], its functions are assigned, and the window measures [iw] by
    [ih]. *)
Definition steady {N : Type} (v a p c : Vector2 N) (iw ih : N) (g : Page N)
  : Prop :=
  assigned g = true
  /\ velocity (this (BirdCursor g)) = v
  /\ acceleration (this (BirdCursor g)) = a
  /\ (position (this (BirdCursor g)) = p \/ position (this (BirdCursor g)) = c)
  /\ innerWidth (host (BirdCursor g)) = iw
  /\ innerHeight (host (BirdCursor g)) = ih.

(** The page has no element [springStrength], the functions are assigned,
    and the two elements of the bird are in the states [b] and [c]. *)
Definition undrawn {N : Type} (b : BirdNode N) (c : ContainerNode N)
    (g : Page N) : Prop :=
  assigned g = true
  /\ elementsById g !! "springStrength"%string = None
  /\ birdNode (host (BirdCursor g)) = b
  /\ containerNode (host (BirdCursor g)) = c.

(** A page with the three sliders and the three display elements, and a
    stand-in for [parseFloat] that knows the values of these sliders. *)
Module SamplePage.

Definition parse (v : option string) : float :=
  match v with
  | Some "0.2"%string => lit 0.2
  | Some "20"%string => lit 20
  | Some "0.5"%string => lit 0.5
  | _ => PrimFloat.nan
  end.

Definition slider (v : string) : Element float :=
  {| el_value := Some v; el_textContent := None |}.

Definition display : Element float :=
  {| el_value := None; el_textContent := None |}.

Definition sliders : gmap string (Element float) :=
  {[ "springStrength"%string := slider "0.2";
     "maxSpeed"%string := slider "20";
     "scale"%string := slider "0.5" ]}.

Definition controls : gmap string (Element float) :=
  <["springValue"%string := display]>
    (<["speedValue"%string := display]>
       (<["scaleValue"%string := display]> sliders)).

Definition page (els : gmap string (Element float)) : Page float :=
  {| BirdCursor := Sample.fresh; assigned := true; loading := false;
     DOMContentLoaded := 0; elementsById := els |}.

End SamplePage.

(** * Properties *)

Module Binary64Facts.

Import FloatAxioms.

Lemma SFcompare_antisym x y :
  SFcompare y x = option_map CompOpp (SFcompare x y).
Proof.
  destruct x as [sx|sx| |sx mx ex], y as [sy|sy| |sy my ey];
    try destruct sx; try destruct sy; simpl; try reflexivity.
  all: rewrite (Z.compare_antisym ex ey);
    destruct (ex ?= ey)%Z; simpl; try reflexivity;
    rewrite (Pos.compare_cont_antisym mx my Eq); simpl;
    rewrite ?CompOpp_involutive; reflexivity.
Qed.

Lemma leb_not_ltb (a b : float) :
  PrimFloat.leb a b = true -> PrimFloat.ltb b a = false.
Proof.
  rewrite leb_spec, ltb_spec. unfold SFleb, SFltb.
  rewrite (SFcompare_antisym (Prim2SF a) (Prim2SF b)).
  destruct (SFcompare (Prim2SF a) (Prim2SF b)) as [[]|]; simpl; congruence.
Qed.

End Binary64Facts.

#[export] Instance binary64_laws : JSNumberLaws float.
Proof. split. intros a b. apply Binary64Facts.leb_not_ltb. Qed.

#[export] Instance ideal_laws : JSNumberLaws R.
Proof.
  split. intros a b. simpl.
  destruct (Rle_dec a b), (Rlt_dec b a); try reflexivity; try discriminate.
  lra.
Qed.

(** ** Flapping *)

Section Flapping.

Context {N : Type} `{JSNumberLaws N}.

Local Open Scope js_scope.

(** The state a due check leaves when it clears the flag. *)
Lemma flappingTimeout_clears (velocity : N) (w : World N) :
  (velocity <=? flappingThreshold (config (this w))) = true ->
  isFlapping (animationState (this (flappingTimeout velocity w))) = false
  /\ flapIntensity (animationState (this (flappingTimeout velocity w))) = lit 1.
Proof. intros Hle. unfold flappingTimeout. rewrite Hle. split; reflexivity. Qed.

Lemma flappingTimeout_config (velocity : N) (w : World N) :
  config (this (flappingTimeout velocity w)) = config (this w).
Proof. unfold flappingTimeout. destruct (_ <=? _); reflexivity. Qed.

Lemma flappingTimeout_host (velocity : N) (w : World N) :
  host (flappingTimeout velocity w) = host w.
Proof. unfold flappingTimeout. destruct (_ <=? _); reflexivity. Qed.

(** Once cleared, later checks of the same phase leave the flag cleared. *)
Lemma flappingTimeout_keeps_cleared (velocity : N) (w : World N) :
  isFlapping (animationState (this w)) = false ->
  flapIntensity (animationState (this w)) = lit 1 ->
  isFlapping (animationState (this (flappingTimeout velocity w))) = false
  /\ flapIntensity (animationState (this (flappingTimeout velocity w))) = lit 1.
Proof.
  intros Hf Hi. unfold flappingTimeout.
  destruct (_ <=? _); simpl; auto.
Qed.

Lemma runChecks_config due (w : World N) :
  config (this (runChecks due w)) = config (this w).
Proof.
  revert w. induction due as [|e due IH]; intros w; simpl; [reflexivity|].
  unfold runChecks in *. simpl. rewrite IH. apply flappingTimeout_config.
Qed.

Lemma runChecks_host due (w : World N) :
  host (runChecks due w) = host w.
Proof.
  revert w. induction due as [|e due IH]; intros w; simpl; [reflexivity|].
  unfold runChecks in *. simpl. rewrite IH. apply flappingTimeout_host.
Qed.

Lemma runChecks_keeps_cleared due (w : World N) :
  isFlapping (animationState (this w)) = false ->
  flapIntensity (animationState (this w)) = lit 1 ->
  isFlapping (animationState (this (runChecks due w))) = false
  /\ flapIntensity (animationState (this (runChecks due w))) = lit 1.
Proof.
  revert w. induction due as [|e due IH]; intros w Hf Hi; simpl; [auto|].
  unfold runChecks in *. simpl. apply IH;
    apply flappingTimeout_keeps_cleared; assumption.
Qed.

Lemma runChecks_clears due (e : Z * N) (w : World N) :
  e ∈ due ->
  (e.2 <=? flappingThreshold (config (this w))) = true ->
  isFlapping (animationState (this (runChecks due w))) = false
  /\ flapIntensity (animationState (this (runChecks due w))) = lit 1.
Proof.
  intros Hin Hle. apply list_elem_of_split in Hin as (l1 & l2 & ->).
  unfold runChecks. rewrite foldl_app. simpl.
  apply (runChecks_keeps_cleared l2);
    apply flappingTimeout_clears;
    fold (runChecks l1 w); rewrite runChecks_config; exact Hle.
Qed.

(** The timer phase leaves pending what is not yet due. *)
Lemma runTimeouts_pending (e : Z * N) (w : World N) :
  e ∈ timeouts (host w) -> (now (host w) < e.1)%Z ->
  e ∈ timeouts (host (runTimeouts w)).
Proof.
  intros Hin Hlt. unfold runTimeouts. rewrite runChecks_host. simpl.
  apply list_elem_of_filter. split; [lia | exact Hin].
Qed.

(** A due check that passes its test leaves the flag cleared, whatever
    else the world holds. *)
Lemma runTimeouts_clears (e : Z * N) (w : World N) :
  e ∈ timeouts (host w) -> (e.1 <= now (host w))%Z ->
  (e.2 <=? flappingThreshold (config (this w))) = true ->
  isFlapping (animationState (this (runTimeouts w))) = false
  /\ flapIntensity (animationState (this (runTimeouts w))) = lit 1.
Proof.
  intros Hin Hdue Hle. unfold runTimeouts.
  apply (runChecks_clears _ e).
  - apply list_elem_of_filter. split; assumption.
  - exact Hle.
Qed.

(** *** No method removes a pending check *)

Lemma timeouts_kept_refl (w : World N) : timeouts_kept w w.
Proof. exists []. symmetry. apply app_nil_r. Qed.

Lemma timeouts_kept_trans (w1 w2 w3 : World N) :
  timeouts_kept w1 w2 -> timeouts_kept w2 w3 -> timeouts_kept w1 w3.
Proof.
  intros [l1 H1] [l2 H2]. exists (l1 ++ l2).
  rewrite H2, H1. symmetry. apply app_assoc.
Qed.

Lemma timeouts_kept_same (w w' : World N) :
  timeouts (host w') = timeouts (host w) -> timeouts_kept w w'.
Proof. intros E. exists []. rewrite E. symmetry. apply app_nil_r. Qed.

Lemma updateFlapping_kept velocity (w : World N) : timeouts_kept w (updateFlapping velocity w).
Proof.
  unfold updateFlapping. destruct (_ >? _).
  - apply timeouts_kept_same. reflexivity.
  - eexists. reflexivity.
Qed.

Lemma updatePhysics_kept (w : World N) : timeouts_kept w (updatePhysics w).
Proof.
  unfold updatePhysics.
  match goal with
  | |- timeouts_kept _ (with_this _ (updateFlapping ?v ?w1)) =>
      destruct (updateFlapping_kept v w1) as [more E]
  end.
  exists more. exact E.
Qed.

Lemma updateAnimation_kept (w : World N) : timeouts_kept w (world_of (updateAnimation w)).
Proof.
  apply timeouts_kept_same. unfold updateAnimation.
  destruct (containerElement (this w)), (isFlapping (animationState (this w))),
    (birdElement (this w)); reflexivity.
Qed.

Lemma render_kept (w : World N) : timeouts_kept w (render w).
Proof.
  apply timeouts_kept_same. unfold render.
  destruct (birdElement (this w)), (containerElement (this w)); reflexivity.
Qed.

Lemma animate_kept (w : World N) : timeouts_kept w (world_of (animate w)).
Proof.
  unfold animate.
  pose proof (updatePhysics_kept w) as H1.
  pose proof (updateAnimation_kept (updatePhysics w)) as H2.
  destruct (updateAnimation (updatePhysics w)) as [w2|w2]; simpl in *.
  - eapply timeouts_kept_trans; [exact H1|].
    eapply timeouts_kept_trans; [exact H2|].
    eapply timeouts_kept_trans; [apply render_kept|].
    apply timeouts_kept_same. reflexivity.
  - eapply timeouts_kept_trans; eassumption.
Qed.

Lemma init_kept (w : World N) : timeouts_kept w (world_of (init w)).
Proof.
  unfold init. destruct (isInitialized (this w)); [apply timeouts_kept_refl|].
  destruct (hasBird (host w)), (hasContainer (host w)); simpl;
    try (apply timeouts_kept_same; reflexivity).
  unfold startAnimation.
  match goal with
  | |- context [animate ?w0] =>
      pose proof (animate_kept w0) as Ha; destruct (animate w0) as [w2|w2]
  end; simpl in *.
  - destruct Ha as [more E]. exists more. exact E.
  - destruct Ha as [more E]. exists more. exact E.
Qed.

Lemma setPreset_kept name (w : World N) : timeouts_kept w (setPreset name w).
Proof.
  apply timeouts_kept_same. unfold setPreset.
  destruct (getProperty presets name); reflexivity.
Qed.

Lemma setTheme_kept name (w : World N) : timeouts_kept w (setTheme name w).
Proof.
  apply timeouts_kept_same. unfold setTheme.
  destruct (containerElement (this w)); simpl; [|reflexivity].
  destruct (truthy _); reflexivity.
Qed.

Lemma destroy_kept (w : World N) : timeouts_kept w (destroy w).
Proof.
  apply timeouts_kept_same. unfold destroy.
  destruct (animationFrame (this w)); reflexivity.
Qed.

Lemma call_kept c (w : World N) : timeouts_kept w (call c w).
Proof.
  destruct c; simpl.
  - apply init_kept.
  - apply timeouts_kept_same. reflexivity.
  - apply animate_kept.
  - apply updatePhysics_kept.
  - apply updateFlapping_kept.
  - apply updateAnimation_kept.
  - apply render_kept.
  - apply setPreset_kept.
  - apply setTheme_kept.
  - apply timeouts_kept_same. reflexivity.
  - apply timeouts_kept_refl.
  - apply destroy_kept.
Qed.

Lemma calls_kept cs (w : World N) : timeouts_kept w (calls cs w).
Proof.
  revert w. induction cs as [|c cs IH]; intros w; simpl.
  - apply timeouts_kept_refl.
  - eapply timeouts_kept_trans; [apply call_kept|]. apply IH.
Qed.

Lemma timeouts_kept_elem (w w' : World N) e :
  timeouts_kept w w' -> e ∈ timeouts (host w) -> e ∈ timeouts (host w').
Proof. intros [more E] Hin. rewrite E. apply elem_of_app. left. exact Hin. Qed.

End Flapping.

(** C4. When the magnitude passed to [updateFlapping] exceeds
    [flappingThreshold], the same call sets [isFlapping] and sets
    [flapIntensity] to [Math.min(1.5, velocity / flappingThreshold)];
    nothing is deferred: the host, and with it the timer queue, is as
    before. *)
Theorem updateFlapping_above_threshold
    {N : Type} `{JSNumber N} (velocity : N) (w : World N) :
  (velocity >? flappingThreshold (config (this w)))%js = true ->
  isFlapping (animationState (this (updateFlapping velocity w))) = true
  /\ flapIntensity (animationState (this (updateFlapping velocity w)))
     = Math_min (lit 1.5) (velocity / flappingThreshold (config (this w)))%js
  /\ host (updateFlapping velocity w) = host w.
Proof.
  intros Hgt. unfold updateFlapping. rewrite Hgt. repeat split.
Qed.

Lemma updateFlapping_above_threshold_witness :
  (3%float >? flappingThreshold (config (this Sample.fresh)))%js = true
  /\ isFlapping (animationState (this (updateFlapping 3%float Sample.fresh))) = true
  /\ flapIntensity (animationState (this (updateFlapping 3%float Sample.fresh)))
     = 1.5%float.
Proof.
  split; [vm_compute; reflexivity|].
  destruct (updateFlapping_above_threshold 3%float Sample.fresh) as (Hf & Hi & _).
  - vm_compute; reflexivity.
  - split; [exact Hf|]. rewrite Hi. vm_compute. reflexivity.
Defined.



(** ** Direction *)

(** What one step writes to [direction], in terms of the velocity it
    leaves. *)
Lemma updatePhysics_direction {N : Type} `{JSNumber N} (w : World N) :
  direction (animationState (this (updatePhysics w)))
  = (if Math_abs (Vector2.x (velocity (this (updatePhysics w)))) >? lit 0.1
     then if Vector2.x (velocity (this (updatePhysics w))) >? lit 0
          then lit 1 else lit (-1)
     else direction (animationState (this w)))%js.
Proof.
  unfold updatePhysics, updateFlapping.
  match goal with
  | |- context [if (?a >? ?b)%js then with_this _ _ else setTimeout _ _ _] =>
      destruct (a >? b)%js
  end; reflexivity.
Qed.

Module DeadZone.

Import FloatAxioms.

(** Strictly between [-c] and [c] means the absolute value is not above
    [c], also for doubles. *)
Lemma SF_abs_not_above (mc : positive) (ec : Z) (x : spec_float) :
  SFltb (S754_finite true mc ec) x = true ->
  SFltb x (S754_finite false mc ec) = true ->
  SFltb (S754_finite false mc ec) (SFabs x) = false.
Proof.
  unfold SFltb.
  destruct x as [s|s| |s m e]; try destruct s; simpl; try congruence.
  - destruct (ec ?= e)%Z; try congruence.
    destruct (Pos.compare_cont Eq mc m); simpl; congruence.
  - rewrite (Z.compare_antisym ec e).
    destruct (ec ?= e)%Z; simpl; try congruence.
    change (PosDef.Pos.compare_cont Eq m mc)
      with (Pos.compare_cont (CompOpp Eq) m mc).
    rewrite <- (Pos.compare_cont_antisym mc m Eq).
    destruct (Pos.compare_cont Eq mc m); simpl; congruence.
Qed.

Lemma binary64_abs_not_above (x : float) :
  PrimFloat.ltb (lit (-0.1)) x = true ->
  PrimFloat.ltb x (lit 0.1) = true ->
  PrimFloat.ltb (lit 0.1) (PrimFloat.abs x) = false.
Proof.
  rewrite !ltb_spec, abs_spec.
  change (Prim2SF (lit 0.1))
    with (S754_finite false 7205759403792794 (-56)).
  change (Prim2SF (lit (-0.1)))
    with (S754_finite true 7205759403792794 (-56)).
  apply SF_abs_not_above.
Qed.

End DeadZone.

(** C6. One physics step sets [direction] from the horizontal velocity it
    has just computed: to 1 or -1, the sign of [velocity.x], when
    [Math.abs(velocity.x) > 0.1], and not at all otherwise.  So a horizontal
    velocity strictly between -0.1 and 0.1 keeps the previous direction, in
    real and in double arithmetic. *)
Theorem direction_dead_zone :
  (forall (N : Type) (I : JSNumber N) (w : World N),
     direction (animationState (this (updatePhysics w)))
     = (if Math_abs (Vector2.x (velocity (this (updatePhysics w)))) >? lit 0.1
        then if Vector2.x (velocity (this (updatePhysics w))) >? lit 0
             then lit 1 else lit (-1)
        else direction (animationState (this w)))%js)
  /\ (forall w : World R,
        let vx := Vector2.x (velocity (this (updatePhysics w))) in
        ((-0.1 < vx < 0.1)%R ->
           direction (animationState (this (updatePhysics w)))
           = direction (animationState (this w)))
        /\ ((0.1 < vx)%R ->
              direction (animationState (this (updatePhysics w))) = 1%R)
        /\ ((vx < -0.1)%R ->
              direction (animationState (this (updatePhysics w))) = (-1)%R))
  /\ (forall w : World float,
        let vx := Vector2.x (velocity (this (updatePhysics w))) in
        PrimFloat.ltb (lit (-0.1)) vx = true ->
        PrimFloat.ltb vx (lit 0.1) = true ->
        direction (animationState (this (updatePhysics w)))
        = direction (animationState (this w))).
Proof.
  split; [|split].
  - intros N I w. apply updatePhysics_direction.
  - intros w vx. rewrite updatePhysics_direction. fold vx. simpl.
    assert (Q01 : Q2R 0.1 = 0.1%R) by (unfold Q2R; simpl; lra).
    assert (Q0 : Q2R 0 = 0%R) by (unfold Q2R; simpl; lra).
    assert (Q1 : Q2R 1 = 1%R) by (unfold Q2R; simpl; lra).
    assert (Qm1 : Q2R (-1) = (-1)%R) by (unfold Q2R; simpl; lra).
    rewrite ?Q01, ?Q0, ?Q1, ?Qm1.
    repeat split; intros Hv.
    + destruct (Rlt_dec 0.1 (Rabs vx)) as [Habs|_]; [|reflexivity].
      exfalso. unfold Rabs in Habs. destruct (Rcase_abs vx); lra.
    + destruct (Rlt_dec 0.1 (Rabs vx)) as [_|Habs].
      * destruct (Rlt_dec 0 vx); [reflexivity | lra].
      * exfalso. apply Habs. unfold Rabs. destruct (Rcase_abs vx); lra.
    + destruct (Rlt_dec 0.1 (Rabs vx)) as [_|Habs].
      * destruct (Rlt_dec 0 vx); [lra | reflexivity].
      * exfalso. apply Habs. unfold Rabs. destruct (Rcase_abs vx); lra.
  - intros w vx Hlo Hhi. rewrite updatePhysics_direction. fold vx.
    change (Math_abs vx >? lit 0.1)%js
      with (PrimFloat.ltb (lit 0.1) (PrimFloat.abs vx)).
    rewrite DeadZone.binary64_abs_not_above; [reflexivity| |].
    + exact Hlo.
    + exact Hhi.
Qed.

Lemma direction_dead_zone_witness :
  let w : World float := Sample.fresh in
  PrimFloat.ltb (lit (-0.1)) (Vector2.x (velocity (this (updatePhysics w)))) = true
  /\ PrimFloat.ltb (Vector2.x (velocity (this (updatePhysics w)))) (lit 0.1) = true
  /\ direction (animationState (this (updatePhysics w)))
     = direction (animationState (this w)).
Proof.
  intros w.
  assert (Hlo : PrimFloat.ltb (lit (-0.1))
                  (Vector2.x (velocity (this (updatePhysics w)))) = true)
    by (vm_compute; reflexivity).
  assert (Hhi : PrimFloat.ltb (Vector2.x (velocity (this (updatePhysics w))))
                  (lit 0.1) = true)
    by (vm_compute; reflexivity).
  split; [exact Hlo|]. split; [exact Hhi|].
  destruct direction_dead_zone as (_ & _ & Hdouble).
  apply Hdouble; assumption.
Defined.

(** ** Configuration *)

Section Configuration.

Context {N : Type} `{JSNumber N}.

Lemma not_configProps (k : string) :
  k ≠ "springStrength"%string -> k ≠ "dampening"%string ->
  k ≠ "maxSpeed"%string -> k ≠ "accelerationRate"%string ->
  k ≠ "flappingThreshold"%string -> k ≠ "baseScale"%string ->
  k ∉ configProps.
Proof.
  intros H1 H2 H3 H4 H5 H6 Hin. unfold configProps in Hin.
  repeat (apply elem_of_cons in Hin as [->|Hin]; [congruence|]).
  apply elem_of_nil in Hin. exact Hin.
Qed.

(** [Object.assign] writes the properties of its source and no other. *)
Lemma Object_assign_getField (c : PhysicsConfig N) (source : gmap string N)
    (k : string) :
  getField (Object_assign c source) k
  = match source !! k with
    | Some v => Some v
    | None => getField c k
    end.
Proof.
  unfold getField.
  repeat (destruct (decide (k = _)) as [->|?];
          [simpl; destruct (source !! _); reflexivity|]).
  simpl. rewrite lookup_union, map_lookup_filter.
  destruct (source !! k) as [v|] eqn:E; simpl.
  - rewrite option_guard_True by (simpl; apply not_configProps; assumption).
    simpl. destruct (otherProps c !! k); reflexivity.
  - destruct (otherProps c !! k); reflexivity.
Qed.

Lemma setPreset_config (presetName : string) (w : World N) :
  config (this (setPreset presetName w))
  = match presets !! presetName with
    | Some preset => Object_assign (config (this w)) preset
    | None => config (this w)
    end.
Proof.
  unfold setPreset, getProperty.
  destruct (presets !! presetName); [reflexivity|].
  destruct (bool_decide _); reflexivity.
Qed.

End Configuration.


(** ** Themes *)

(** C8, as stated, fails.  On a page that holds both elements, after
    [init()] and [setTheme('robin')], the call [setTheme('parrot')] warns
    but the container no longer carries the class [robin].  On an instance
    without container element, [setTheme('parrot')] returns at its guard and
    leaves the console as it was.  And [setTheme('toString')], a name that is
    no theme, finds the method every object inherits: it reports the theme as
    applied and adds the class. *)
Lemma setTheme_unknown_counterexample :
  themes !! "parrot"%string = None
  /\ themes !! "toString"%string = None
  /\ (let w : World float := setTheme "robin" (world_of (init Sample.fresh)) in
      "robin"%string ∈ classList (containerNode (host w))
      /\ "robin"%string ∉ classList (containerNode (host (setTheme "parrot" w))))
  /\ console (host (setTheme "parrot" (Sample.bare (N:=float)))) = []
  /\ (let w : World float := setTheme "toString" (world_of (init Sample.fresh)) in
      console (host w)
      = [(LogInfo, "Bird cursor system initialized"%string);
         (LogInfo, "Applied theme: toString"%string)]
      /\ "toString"%string ∈ classList (containerNode (host w))).
Proof.
  split; [reflexivity|]. split; [reflexivity|].
  split; [|split; [reflexivity|]].
  - split.
    + vm_compute. reflexivity.
    + vm_compute. intros E. discriminate E.
  - split.
    + vm_compute. reflexivity.
    + vm_compute. reflexivity.
Qed.

(** C8, amended.  Let the name be neither a theme nor a property that every
    object inherits.  If the instance has its container element,
    [setTheme(name)] appends the warning to the console, adds no class to
    the container and changes nothing else; if it has none, the call
    changes nothing at all. *)
Theorem setTheme_unknown
    {N : Type} `{JSNumber N} (themeName : string) (w : World N) :
  themes !! themeName = None ->
  themeName ∉ Object_prototype ->
  (containerElement (this w) = true ->
     console (host (setTheme themeName w))
     = console (host w) ++ [(LogWarn, "Theme '" +:+ themeName +:+ "' not found")]
     /\ classList (containerNode (host (setTheme themeName w)))
        ⊆ classList (containerNode (host w))
     /\ exists classes,
          setTheme themeName w
          = console_emit LogWarn ("Theme '" +:+ themeName +:+ "' not found")
              (with_host (fun h =>
                 set_nodes (birdNode h)
                   {| classList := classes;
                      container_transform := container_transform (containerNode h) |}
                   h) w))
  /\ (containerElement (this w) = false -> setTheme themeName w = w).
Proof.
  intros Hnone Hproto.
  assert (Hp : truthy (getProperty themes themeName) = false).
  { unfold getProperty. rewrite Hnone.
    rewrite bool_decide_eq_false_2 by exact Hproto. reflexivity. }
  split; intros Hc; unfold setTheme; rewrite Hc; simpl; [|reflexivity].
  rewrite Hp. simpl. split; [reflexivity|]. split.
  - apply subseteq_difference_l. reflexivity.
  - eexists. reflexivity.
Qed.

Lemma setTheme_unknown_witness :
  themes !! "parrot"%string = None
  /\ ("parrot"%string ∉ Object_prototype)
  /\ console (host (setTheme "parrot" (world_of (init (Sample.fresh (N:=float))))))
     = [(LogInfo, "Bird cursor system initialized"%string);
        (LogWarn, "Theme 'parrot' not found"%string)]
  /\ setTheme "parrot" (Sample.bare (N:=float)) = Sample.bare.
Proof.
  assert (H1 : themes !! "parrot"%string = None) by reflexivity.
  assert (H2 : "parrot"%string ∉ Object_prototype).
  { unfold Object_prototype. rewrite !elem_of_cons, elem_of_nil.
    intros Hin. repeat (destruct Hin as [Hin|Hin]; [discriminate Hin|]).
    exact Hin. }
  split; [exact H1|]. split; [exact H2|].
  destruct (setTheme_unknown "parrot" (world_of (init (Sample.fresh (N:=float)))) H1 H2)
    as [Hwith _].
  destruct (setTheme_unknown "parrot" (Sample.bare (N:=float)) H1 H2)
    as [_ Hwithout].
  split.
  - destruct (Hwith eq_refl) as (Hlog & _). rewrite Hlog. reflexivity.
  - apply Hwithout. reflexivity.
Defined.

(** ** Initialisation *)

(** C9, as stated, fails.  On a page without the elements [init()] fails,
    and afterwards [updatePhysicsConfig({maxSpeed: 20})] and
    [setPreset('energetic')] still change the configuration. *)
Lemma uninitialized_config_counterexample :
  let w : World float := world_of (init Sample.bare) in
  isInitialized (this w) = false
  /\ maxSpeed (config (this w)) = 15%float
  /\ maxSpeed (config (this (updatePhysicsConfig {[ "maxSpeed"%string := 20%float ]} w)))
     = 20%float
  /\ maxSpeed (config (this (setPreset "energetic" w))) = 20%float
  /\ updatePhysicsConfig {[ "maxSpeed"%string := 20%float ]} w <> w
  /\ setPreset "energetic" w <> w.
Proof.
  intros w. split; [reflexivity|]. split; [reflexivity|].
  split; [reflexivity|]. split; [reflexivity|].
  split; intros E; apply (f_equal (fun w => maxSpeed (config (this w)))) in E;
    vm_compute in E.
  - apply (f_equal Prim2SF) in E. vm_compute in E. discriminate E.
  - apply (f_equal Prim2SF) in E. vm_compute in E. discriminate E.
Qed.

(** C9, amended.  When [init()] runs on an instance that is not
    initialised and the page lacks the bird element or its container, it
    returns normally, having changed only the two element references and the
    console, to which it appends the error; [isInitialized] stays [false]
    and the container reference is null.  With a null container reference,
    [render] and [setTheme] change nothing.  [updatePhysicsConfig] and
    [setPreset] are not gated: they merge into the configuration as they
    always do. *)
Theorem init_without_elements {N : Type} `{JSNumber N} (w : World N) :
  isInitialized (this w) = false ->
  hasBird (host w) && hasContainer (host w) = false ->
  init w
  = Normal (console_emit LogError "Bird cursor elements not found"
              (with_this (set_elements (hasBird (host w)) false) w))
  /\ isInitialized (this (world_of (init w))) = false
  /\ containerElement (this (world_of (init w))) = false
  /\ (forall w' : World N,
        containerElement (this w') = false ->
        render w' = w' /\ forall themeName, setTheme themeName w' = w')
  /\ (forall newConfig : gmap string N,
        config (this (updatePhysicsConfig newConfig (world_of (init w))))
        = Object_assign (config (this w)) newConfig)
  /\ (forall (presetName : string) (preset : gmap string N),
        presets !! presetName = Some preset ->
        config (this (setPreset presetName (world_of (init w))))
        = Object_assign (config (this w)) preset).
Proof.
  intros Hinit Hpage.
  assert (E : init w
              = Normal (console_emit LogError "Bird cursor elements not found"
                          (with_this (set_elements (hasBird (host w)) false) w))).
  { unfold init. rewrite Hinit, Hpage.
    destruct (hasBird (host w)); reflexivity. }
  split; [exact E|]. rewrite E. simpl.
  split; [exact Hinit|]. split; [reflexivity|]. split; [|split].
  - intros w' Hc. split.
    + unfold render. rewrite Hc, orb_true_r. reflexivity.
    + intros themeName. unfold setTheme. rewrite Hc. reflexivity.
  - intros newConfig. reflexivity.
  - intros presetName preset Hp. rewrite setPreset_config, Hp. reflexivity.
Qed.

Lemma init_without_elements_witness :
  isInitialized (this (Sample.bare (N:=float))) = false
  /\ isInitialized (this (world_of (init (Sample.bare (N:=float))))) = false
  /\ console (host (world_of (init (Sample.bare (N:=float)))))
     = [(LogError, "Bird cursor elements not found"%string)].
Proof.
  split; [reflexivity|].
  destruct (init_without_elements (Sample.bare (N:=float)) eq_refl eq_refl)
    as (E & Hi & _).
  split; [exact Hi|]. rewrite E. reflexivity.
Defined.

(** ** The physics step *)

(** What one step leaves in [acceleration], [velocity] and [position]. *)
Lemma updatePhysics_motion {N : Type} `{JSNumber N} (w : World N) :
  acceleration (this (updatePhysics w)) = adjustedAcceleration (this w)
  /\ velocity (this (updatePhysics w))
     = limitMaximumSpeed (maxSpeed (config (this w))) (dampenedVelocity (this w))
  /\ position (this (updatePhysics w))
     = Vector2.mk
         (Vector2.x (position (this w))
          + Vector2.x (velocity (this (updatePhysics w))))%js
         (Vector2.y (position (this w))
          + Vector2.y (velocity (this (updatePhysics w))))%js
  /\ target (this (updatePhysics w)) = target (this w)
  /\ config (this (updatePhysics w)) = config (this w).
Proof.
  unfold updatePhysics, updateFlapping.
  match goal with
  | |- context [if (?a >? ?b)%js then with_this _ _ else setTimeout _ _ _] =>
      destruct (a >? b)%js
  end; repeat split.
Qed.

(** *** Real arithmetic *)

Module Ideal.

Local Open Scope R_scope.

Lemma magnitude_eq (v : Vector2 R) :
  magnitude v = sqrt (Vector2.x v * Vector2.x v + Vector2.y v * Vector2.y v).
Proof. reflexivity. Qed.

Lemma magnitude_nonneg (v : Vector2 R) : 0 <= magnitude v.
Proof. rewrite magnitude_eq. apply sqrt_pos. Qed.

Lemma magnitude_sqr (v : Vector2 R) :
  magnitude v * magnitude v
  = Vector2.x v * Vector2.x v + Vector2.y v * Vector2.y v.
Proof. rewrite magnitude_eq. apply sqrt_sqrt. nra. Qed.

Lemma magnitude_le (M : R) (v : Vector2 R) :
  0 <= M ->
  Vector2.x v * Vector2.x v + Vector2.y v * Vector2.y v <= M * M ->
  magnitude v <= M.
Proof.
  intros HM Hle. rewrite magnitude_eq.
  rewrite <- (sqrt_square M) by exact HM.
  apply sqrt_le_1_alt. exact Hle.
Qed.

Lemma magnitude_scale (k : R) (v : Vector2 R) :
  0 <= k ->
  magnitude (Vector2.mk (Vector2.x v * k) (Vector2.y v * k)) = k * magnitude v.
Proof.
  intros Hk. rewrite !magnitude_eq. simpl.
  replace (Vector2.x v * k * (Vector2.x v * k) + Vector2.y v * k * (Vector2.y v * k))
    with ((k * k) * (Vector2.x v * Vector2.x v + Vector2.y v * Vector2.y v))
    by ring.
  rewrite sqrt_mult_alt by nra. rewrite sqrt_square by exact Hk. reflexivity.
Qed.

(** The two branches of the speed limit. *)
Lemma limit_inactive (M : R) (v : Vector2 R) :
  magnitude v <= M -> limitMaximumSpeed M v = v.
Proof.
  intros Hle. unfold limitMaximumSpeed. simpl. rewrite <- !magnitude_eq.
  destruct (Rlt_dec M (magnitude v)); [lra | reflexivity].
Qed.

Lemma limit_active (M : R) (v : Vector2 R) :
  M < magnitude v ->
  limitMaximumSpeed M v
  = Vector2.mk (Vector2.x v * (M / magnitude v)) (Vector2.y v * (M / magnitude v)).
Proof.
  intros Hlt. unfold limitMaximumSpeed. simpl. rewrite <- !magnitude_eq.
  destruct (Rlt_dec M (magnitude v)); [reflexivity | lra].
Qed.

Lemma limit_active_magnitude (M : R) (v : Vector2 R) :
  0 <= M -> M < magnitude v -> magnitude (limitMaximumSpeed M v) = M.
Proof.
  intros HM Hlt. rewrite limit_active by exact Hlt.
  rewrite magnitude_scale.
  - field. lra.
  - apply Rle_mult_inv_pos; lra.
Qed.

Lemma limit_bound (M : R) (v : Vector2 R) :
  0 <= M -> magnitude (limitMaximumSpeed M v) <= M.
Proof.
  intros HM. destruct (Rlt_dec M (magnitude v)) as [Hlt|Hge].
  - rewrite limit_active_magnitude by assumption. lra.
  - rewrite limit_inactive by lra. lra.
Qed.

End Ideal.

(** C2. From the constructor's configuration, position (0,0), target
    (100,0) and zero velocity and acceleration, one physics step leaves
    [acceleration.x = 0.1 * (100 * 0.2) = 2], [velocity.x = 2 * 0.12 * 0.85 =
    0.204] and [position.x = 0.204]: exactly so over the reals, and in double
    arithmetic with 0.204 read as the double nearest to it. *)
Theorem first_tick_scenario :
  (let w : World R :=
     updatePhysics (Sample.along defaultConfig (lit 0) (lit 100) (lit 0) (lit 0)) in
   Vector2.x (acceleration (this w)) = (0.1 * (100 * 0.2))%R
   /\ Vector2.x (acceleration (this w)) = 2%R
   /\ Vector2.x (velocity (this w)) = (2 * 0.12 * 0.85)%R
   /\ Vector2.x (velocity (this w)) = 0.204%R
   /\ Vector2.x (position (this w)) = 0.204%R)
  /\ (let w : World float :=
        updatePhysics (Sample.along defaultConfig (lit 0) (lit 100) (lit 0) (lit 0)) in
      Vector2.x (acceleration (this w)) = (lit 0.1 * (lit 100 * lit 0.2))%js
      /\ Vector2.x (acceleration (this w)) = lit 2
      /\ Vector2.x (velocity (this w)) = (lit 2 * lit 0.12 * lit 0.85)%js
      /\ Vector2.x (velocity (this w)) = lit 0.204
      /\ Vector2.x (position (this w)) = lit 0.204).
Proof.
  split.
  - intros w. subst w.
    destruct (updatePhysics_motion
                (Sample.along (N:=R) defaultConfig (lit 0) (lit 100) (lit 0) (lit 0)))
      as (Ha & Hv & Hp & _).
    assert (Ea : adjustedAcceleration
                   (this (Sample.along (N:=R) defaultConfig
                            (lit 0) (lit 100) (lit 0) (lit 0)))
                 = Vector2.mk 2%R 0%R).
    { unfold adjustedAcceleration. simpl. unfold Q2R. simpl. f_equal; lra. }
    assert (Ed : dampenedVelocity
                   (this (Sample.along (N:=R) defaultConfig
                            (lit 0) (lit 100) (lit 0) (lit 0)))
                 = Vector2.mk 0.204%R 0%R).
    { unfold dampenedVelocity. rewrite Ea. simpl. unfold Q2R. simpl.
      f_equal; lra. }
    assert (Ev : velocity
                   (this (updatePhysics
                            (Sample.along (N:=R) defaultConfig
                               (lit 0) (lit 100) (lit 0) (lit 0))))
                 = Vector2.mk 0.204%R 0%R).
    { rewrite Hv, Ed. apply Ideal.limit_inactive.
      apply Ideal.magnitude_le; simpl; unfold Q2R; simpl; lra. }
    rewrite Hp, Ev, Ha, Ea. simpl. unfold Q2R. simpl.
    repeat split; lra.
  - vm_compute. repeat split.
Qed.





(** *** Double arithmetic at rest

    What the operations of the step do to zeros. *)

Module Rest64.

Import FloatAxioms.
Import Binary64.

Lemma isFinite_SFfinite (x : float) : isFinite x = true -> SFfinite (Prim2SF x).
Proof.
  unfold isFinite, Prim2SF. intros Hf.
  apply andb_true_iff in Hf as [Hn Hi].
  apply negb_true_iff in Hn. apply negb_true_iff in Hi.
  rewrite Hn, Hi. destruct (is_zero x); [exact I|].
  destruct (Z.frexp x) as [r e].
  destruct (shr_fexp _ _ _ _ _) as [shr e'].
  destruct (shr_m shr); exact I.
Qed.

Lemma SFzero_finite x : SFzero x -> SFfinite x.
Proof. intros [s ->]. exact I. Qed.

Lemma SFmul_zero_l x y : SFzero x -> SFfinite y -> SFzero (SF64mul x y).
Proof.
  intros [s ->] Hy. destruct y; try contradiction; simpl; eexists; reflexivity.
Qed.

Lemma SFadd_zero x y : SFzero x -> SFzero y -> SFzero (SF64add x y).
Proof.
  intros [s ->] [t ->]. destruct s, t; simpl; eexists; reflexivity.
Qed.

Lemma SFsub_zero x y : SFzero x -> SFzero y -> SFzero (SF64sub x y).
Proof.
  intros [s ->] [t ->]. destruct s, t; simpl; eexists; reflexivity.
Qed.

Lemma SFsqrt_zero x : SFzero x -> SFzero (SF64sqrt x).
Proof. intros [s ->]. simpl. eexists; reflexivity. Qed.

Lemma SFcompare_Eq_finite s1 m1 e1 s2 m2 e2 :
  SFcompare (S754_finite s1 m1 e1) (S754_finite s2 m2 e2) = Some Eq ->
  s1 = s2 /\ m1 = m2 /\ e1 = e2.
Proof.
  simpl. destruct s1, s2; try discriminate.
  - destruct (e1 ?= e2)%Z eqn:E; try discriminate.
    intros Hc. apply Z.compare_eq in E.
    injection Hc as Hc.
    destruct (Pos.compare_cont Eq m1 m2) eqn:Em; try discriminate.
    apply Pos.compare_eq in Em. auto.
  - destruct (e1 ?= e2)%Z eqn:E; try discriminate.
    intros Hc. apply Z.compare_eq in E.
    injection Hc as Hc.
    apply Pos.compare_eq in Hc. auto.
Qed.

Lemma SFsub_eqb x y :
  SFfinite y -> SFeqb x y = true -> SFzero (SF64sub x y).
Proof.
  unfold SFeqb. intros Hy Heq.
  destruct y as [sy|sy| |sy my ey]; try contradiction;
    destruct x as [sx|sx| |sx mx ex];
    try (simpl in Heq; discriminate Heq);
    try (simpl in Heq; destruct sx; discriminate Heq);
    try (simpl in Heq; destruct sy; discriminate Heq).
  - apply SFsub_zero; eexists; reflexivity.
  - destruct (SFcompare (S754_finite sx mx ex) (S754_finite sy my ey))
      as [[]|] eqn:E; try discriminate Heq.
    apply SFcompare_Eq_finite in E as (-> & -> & ->).
    unfold SF64sub, SFsub. rewrite Z.sub_diag. simpl. eexists; reflexivity.
Qed.

Lemma SFcompare_refl_finite s m e :
  SFcompare (S754_finite s m e) (S754_finite s m e) = Some Eq.
Proof.
  simpl. rewrite Z.compare_refl.
  change (PosDef.Pos.compare_cont Eq m m) with (Pos.compare m m).
  rewrite Pos.compare_refl. destruct s; reflexivity.
Qed.

Lemma SFadd_zero_r_eqb x y :
  SFfinite x -> SFzero y -> SFeqb (SF64add x y) x = true.
Proof.
  unfold SFeqb. intros Hx [t ->].
  destruct x as [sx|sx| |sx mx ex]; try contradiction.
  - destruct sx, t; reflexivity.
  - unfold SF64add, SFadd. rewrite SFcompare_refl_finite. reflexivity.
Qed.

Lemma SFeqb_zero x : SFzero x <-> SFeqb x (S754_zero false) = true.
Proof.
  unfold SFeqb. split.
  - intros [s ->]. reflexivity.
  - destruct x as [s|s| |s m e]; simpl; try discriminate.
    + eexists; reflexivity.
    + destruct s; discriminate.
    + destruct s; discriminate.
Qed.

Lemma SFltb_zero M x : SFzero x -> SFltb M x = SFltb M (S754_zero false).
Proof. intros [s ->]. unfold SFltb. destruct M as [?|?| |? ? ?]; reflexivity. Qed.

(** The same facts for doubles. *)

Lemma Zero_finite (x : float) : Zero x -> SFfinite (Prim2SF x).
Proof. apply SFzero_finite. Qed.

Lemma Zero_eqb (x : float) : Zero x <-> PrimFloat.eqb x (lit 0) = true.
Proof. unfold Zero. rewrite eqb_spec. apply SFeqb_zero. Qed.

Lemma Zero_eqb_Zero (x y : float) : Zero x -> Zero y -> PrimFloat.eqb x y = true.
Proof. intros [s Hx] [t Hy]. rewrite eqb_spec, Hx, Hy. reflexivity. Qed.

Lemma Zero_mul_l (x y : float) :
  Zero x -> isFinite y = true -> Zero (PrimFloat.mul x y).
Proof.
  intros Hx Hy. unfold Zero. rewrite mul_spec.
  apply SFmul_zero_l; [exact Hx | apply isFinite_SFfinite; exact Hy].
Qed.

Lemma Zero_mul (x y : float) : Zero x -> Zero y -> Zero (PrimFloat.mul x y).
Proof.
  intros Hx Hy. unfold Zero. rewrite mul_spec.
  apply SFmul_zero_l; [exact Hx | apply Zero_finite; exact Hy].
Qed.

Lemma Zero_add (x y : float) : Zero x -> Zero y -> Zero (PrimFloat.add x y).
Proof. intros Hx Hy. unfold Zero. rewrite add_spec. apply SFadd_zero; assumption. Qed.

Lemma Zero_sub (x y : float) : Zero x -> Zero y -> Zero (PrimFloat.sub x y).
Proof. intros Hx Hy. unfold Zero. rewrite sub_spec. apply SFsub_zero; assumption. Qed.

Lemma Zero_sqrt (x : float) : Zero x -> Zero (PrimFloat.sqrt x).
Proof. intros Hx. unfold Zero. rewrite sqrt_spec. apply SFsqrt_zero; assumption. Qed.

Lemma Zero_sub_eqb (x y : float) :
  isFinite y = true -> PrimFloat.eqb x y = true -> Zero (PrimFloat.sub x y).
Proof.
  intros Hy Heq. unfold Zero. rewrite sub_spec. rewrite eqb_spec in Heq.
  apply SFsub_eqb; [apply isFinite_SFfinite; exact Hy | exact Heq].
Qed.

Lemma add_Zero_eqb (x y : float) :
  isFinite x = true -> Zero y -> PrimFloat.eqb (PrimFloat.add x y) x = true.
Proof.
  intros Hx Hy. rewrite eqb_spec, add_spec.
  apply SFadd_zero_r_eqb; [apply isFinite_SFfinite; exact Hx | exact Hy].
Qed.

Lemma ltb_Zero (m x : float) :
  Zero x -> PrimFloat.ltb m x = PrimFloat.ltb m (lit 0).
Proof. intros Hx. rewrite !ltb_spec. apply SFltb_zero. exact Hx. Qed.

Lemma isFinite_tenth : isFinite (lit 0.1) = true.
Proof. reflexivity. Qed.

End Rest64.

(** The rest state under real arithmetic. *)
Lemma rest_ideal (w : World R) :
  (0 <= maxSpeed (config (this w)))%R ->
  position (this w) = target (this w) ->
  velocity (this w) = Vector2.mk 0%R 0%R ->
  acceleration (this w) = Vector2.mk 0%R 0%R ->
  position (this (updatePhysics w)) = position (this w)
  /\ velocity (this (updatePhysics w)) = velocity (this w)
  /\ acceleration (this (updatePhysics w)) = acceleration (this w).
Proof.
  intros HM Hp Hv Ha.
  destruct (updatePhysics_motion w) as (Ea & Ev & Ep & _).
  assert (Ea0 : adjustedAcceleration (this w) = Vector2.mk 0%R 0%R).
  { unfold adjustedAcceleration. rewrite Hp, Ha. simpl. f_equal; ring. }
  assert (Ed0 : dampenedVelocity (this w) = Vector2.mk 0%R 0%R).
  { unfold dampenedVelocity. rewrite Ea0, Hv. simpl. f_equal; ring. }
  assert (Ev0 : velocity (this (updatePhysics w)) = Vector2.mk 0%R 0%R).
  { rewrite Ev, Ed0. apply Ideal.limit_inactive.
    apply Ideal.magnitude_le; [exact HM|]. simpl. nra. }
  rewrite Ep, Ev0, Ea, Ea0, Hv, Ha. simpl.
  repeat split. destruct (position (this w)) as [px py]. simpl. f_equal; ring.
Qed.

(** The rest state under double arithmetic; equality is [===]. *)
Lemma rest_binary64 (w : World float) :
  Binary64.isFinite (accelerationRate (config (this w))) = true ->
  Binary64.isFinite (springStrength (config (this w))) = true ->
  Binary64.isFinite (dampening (config (this w))) = true ->
  (lit 0 <=? maxSpeed (config (this w)))%js = true ->
  Binary64.isFinite (Vector2.x (position (this w))) = true ->
  Binary64.isFinite (Vector2.y (position (this w))) = true ->
  PrimFloat.eqb (Vector2.x (target (this w))) (Vector2.x (position (this w))) = true ->
  PrimFloat.eqb (Vector2.y (target (this w))) (Vector2.y (position (this w))) = true ->
  Binary64.Zero (Vector2.x (velocity (this w))) ->
  Binary64.Zero (Vector2.y (velocity (this w))) ->
  Binary64.Zero (Vector2.x (acceleration (this w))) ->
  Binary64.Zero (Vector2.y (acceleration (this w))) ->
  let w' := updatePhysics w in
  PrimFloat.eqb (Vector2.x (position (this w'))) (Vector2.x (position (this w))) = true
  /\ PrimFloat.eqb (Vector2.y (position (this w'))) (Vector2.y (position (this w))) = true
  /\ PrimFloat.eqb (Vector2.x (velocity (this w'))) (Vector2.x (velocity (this w))) = true
  /\ PrimFloat.eqb (Vector2.y (velocity (this w'))) (Vector2.y (velocity (this w))) = true
  /\ PrimFloat.eqb (Vector2.x (acceleration (this w')))
       (Vector2.x (acceleration (this w))) = true
  /\ PrimFloat.eqb (Vector2.y (acceleration (this w')))
       (Vector2.y (acceleration (this w))) = true.
Proof.
  intros Hk Hs Hd HM Hpx Hpy Htx Hty Hvx Hvy Hax Hay w'.
  destruct (updatePhysics_motion w) as (Ea & Ev & Ep & _).
  fold w' in Ea, Ev, Ep.
  assert (Zax : Binary64.Zero (Vector2.x (adjustedAcceleration (this w)))).
  { unfold adjustedAcceleration. cbn [Vector2.x].
    apply Rest64.Zero_add; [exact Hax|].
    apply Rest64.Zero_mul_l; [|apply Rest64.isFinite_tenth].
    apply Rest64.Zero_sub; [|exact Hax].
    apply Rest64.Zero_mul_l; [|exact Hk].
    apply Rest64.Zero_sub_eqb; assumption. }
  assert (Zay : Binary64.Zero (Vector2.y (adjustedAcceleration (this w)))).
  { unfold adjustedAcceleration. cbn [Vector2.y].
    apply Rest64.Zero_add; [exact Hay|].
    apply Rest64.Zero_mul_l; [|apply Rest64.isFinite_tenth].
    apply Rest64.Zero_sub; [|exact Hay].
    apply Rest64.Zero_mul_l; [|exact Hk].
    apply Rest64.Zero_sub_eqb; assumption. }
  assert (Zdx : Binary64.Zero (Vector2.x (dampenedVelocity (this w)))).
  { unfold dampenedVelocity. cbn [Vector2.x].
    apply Rest64.Zero_mul_l; [|exact Hd].
    apply Rest64.Zero_add; [exact Hvx|].
    apply Rest64.Zero_mul_l; [exact Zax | exact Hs]. }
  assert (Zdy : Binary64.Zero (Vector2.y (dampenedVelocity (this w)))).
  { unfold dampenedVelocity. cbn [Vector2.y].
    apply Rest64.Zero_mul_l; [|exact Hd].
    apply Rest64.Zero_add; [exact Hvy|].
    apply Rest64.Zero_mul_l; [exact Zay | exact Hs]. }
  assert (Ev' : velocity (this w') = dampenedVelocity (this w)).
  { rewrite Ev. unfold limitMaximumSpeed, pow2.
    set (speed := Math_sqrt _).
    assert (Zs : Binary64.Zero speed).
    { apply Rest64.Zero_sqrt. apply Rest64.Zero_add; apply Rest64.Zero_mul; assumption. }
    change (speed >? maxSpeed (config (this w)))%js
      with (PrimFloat.ltb (maxSpeed (config (this w))) speed).
    rewrite (Rest64.ltb_Zero _ _ Zs).
    rewrite (Binary64Facts.leb_not_ltb _ _ HM). reflexivity. }
  rewrite Ep, Ev', Ea. cbn [Vector2.x Vector2.y].
  repeat split;
    first [ apply Rest64.add_Zero_eqb; assumption
          | apply Rest64.Zero_eqb_Zero; assumption ].
Qed.

(** C10, as stated, fails when [maxSpeed] is negative.  At rest on the
    target the speed 0 exceeds [maxSpeed = -1], so the step scales the zero
    velocity by [-1 / 0]: in double arithmetic that is [0 * -Infinity], and
    velocity and position become NaN. *)
Lemma rest_negative_maxSpeed_counterexample :
  let w : World float :=
    Sample.along (Sample.tuned (lit 0.85) (lit (-1))) (lit 0) (lit 0) (lit 0) (lit 0) in
  position (this w) = target (this w)
  /\ velocity (this w) = Vector2.mk (lit 0) (lit 0)
  /\ acceleration (this w) = Vector2.mk (lit 0) (lit 0)
  /\ PrimFloat.is_nan (Vector2.x (velocity (this (updatePhysics w)))) = true
  /\ PrimFloat.is_nan (Vector2.x (position (this (updatePhysics w)))) = true
  /\ PrimFloat.eqb (Vector2.x (position (this (updatePhysics w))))
       (Vector2.x (position (this w))) = false.
Proof. vm_compute. repeat split. Qed.

(** C10, amended.  Let [maxSpeed] be at least 0.  If the position equals the
    target and velocity and acceleration are zero, one physics step leaves
    position, velocity and acceleration equal to what they were: over the
    reals for every such configuration, and in double arithmetic, with
    equality read as [===], whenever [accelerationRate], [springStrength],
    [dampening] and the position are finite. *)
Theorem rest_is_fixed_point :
  (forall w : World R,
     (0 <= maxSpeed (config (this w)))%R ->
     position (this w) = target (this w) ->
     velocity (this w) = Vector2.mk 0%R 0%R ->
     acceleration (this w) = Vector2.mk 0%R 0%R ->
     position (this (updatePhysics w)) = position (this w)
     /\ velocity (this (updatePhysics w)) = velocity (this w)
     /\ acceleration (this (updatePhysics w)) = acceleration (this w))
  /\ (forall w : World float,
        (lit 0 <=? maxSpeed (config (this w)))%js = true ->
        Binary64.isFinite (accelerationRate (config (this w))) = true ->
        Binary64.isFinite (springStrength (config (this w))) = true ->
        Binary64.isFinite (dampening (config (this w))) = true ->
        Binary64.isFinite (Vector2.x (position (this w))) = true ->
        Binary64.isFinite (Vector2.y (position (this w))) = true ->
        PrimFloat.eqb (Vector2.x (position (this w))) (Vector2.x (target (this w))) = true ->
        PrimFloat.eqb (Vector2.y (position (this w))) (Vector2.y (target (this w))) = true ->
        PrimFloat.eqb (Vector2.x (velocity (this w))) (lit 0) = true ->
        PrimFloat.eqb (Vector2.y (velocity (this w))) (lit 0) = true ->
        PrimFloat.eqb (Vector2.x (acceleration (this w))) (lit 0) = true ->
        PrimFloat.eqb (Vector2.y (acceleration (this w))) (lit 0) = true ->
        PrimFloat.eqb (Vector2.x (position (this (updatePhysics w))))
          (Vector2.x (position (this w))) = true
        /\ PrimFloat.eqb (Vector2.y (position (this (updatePhysics w))))
             (Vector2.y (position (this w))) = true
        /\ PrimFloat.eqb (Vector2.x (velocity (this (updatePhysics w))))
             (Vector2.x (velocity (this w))) = true
        /\ PrimFloat.eqb (Vector2.y (velocity (this (updatePhysics w))))
             (Vector2.y (velocity (this w))) = true
        /\ PrimFloat.eqb (Vector2.x (acceleration (this (updatePhysics w))))
             (Vector2.x (acceleration (this w))) = true
        /\ PrimFloat.eqb (Vector2.y (acceleration (this (updatePhysics w))))
             (Vector2.y (acceleration (this w))) = true).
Proof.
  split.
  - exact rest_ideal.
  - intros w HM Hk Hs Hd Hpx Hpy Htx Hty Hvx Hvy Hax Hay.
    assert (Hsym : forall a b : float,
               PrimFloat.eqb a b = true -> PrimFloat.eqb b a = true).
    { intros a b. rewrite !FloatAxioms.eqb_spec. unfold SFeqb.
      rewrite (Binary64Facts.SFcompare_antisym (Prim2SF a) (Prim2SF b)).
      destruct (SFcompare (Prim2SF a) (Prim2SF b)) as [[]|]; simpl; congruence. }
    apply rest_binary64; try assumption;
      try (apply Hsym; assumption);
      apply Rest64.Zero_eqb; assumption.
Qed.

Lemma rest_is_fixed_point_witness :
  (let w : World R := Sample.fresh in
   position (this (updatePhysics w)) = position (this w)
   /\ velocity (this (updatePhysics w)) = velocity (this w)
   /\ acceleration (this (updatePhysics w)) = acceleration (this w))
  /\ (let w : World float := Sample.fresh in
      PrimFloat.eqb (Vector2.x (position (this (updatePhysics w))))
        (Vector2.x (position (this w))) = true
      /\ PrimFloat.eqb (Vector2.x (velocity (this (updatePhysics w))))
           (Vector2.x (velocity (this w))) = true).
Proof.
  destruct rest_is_fixed_point as [Hreal Hdouble].
  split.
  - apply Hreal.
    + simpl. unfold Q2R. simpl. lra.
    + reflexivity.
    + simpl. unfold Q2R. simpl. f_equal; lra.
    + simpl. unfold Q2R. simpl. f_equal; lra.
  - intros w.
    destruct (Hdouble w) as (Hx & _ & Hv & _); try reflexivity.
    split; assumption.
Defined.

(** ** Iterating the step *)

Lemma ticks_S {N : Type} `{JSNumber N} (n : nat) (w : World N) :
  ticks (S n) w = updatePhysics (ticks n w).
Proof. reflexivity. Qed.

Lemma ticks_config_target {N : Type} `{JSNumber N} (n : nat) (w : World N) :
  config (this (ticks n w)) = config (this w)
  /\ target (this (ticks n w)) = target (this w).
Proof.
  induction n as [|n [IHc IHt]]; [split; reflexivity|].
  rewrite ticks_S.
  destruct (updatePhysics_motion (ticks n w)) as (_ & _ & _ & Ht & Hc).
  rewrite Hc, Ht. split; assumption.
Qed.

(** *** The orbit of period two *)

Module OrbitFacts.

Lemma start_east {N : Type} `{JSNumber N} : Orbit.east (Orbit.start (N:=N)).
Proof. repeat split. Qed.

(** Double arithmetic. *)

Lemma east_west_binary64 (w : World float) :
  Orbit.east w -> Orbit.west (updatePhysics w).
Proof.
  intros (Hc & Hp & Hv & Ha & Ht).
  destruct (updatePhysics_motion w) as (Ea & Ev & Ep & Et & Ec).
  assert (Ev' : velocity (this (updatePhysics w)) = Vector2.mk (lit (-2)) (lit 0)).
  { rewrite Ev. unfold dampenedVelocity, adjustedAcceleration.
    rewrite Hc, Hp, Hv, Ha, Ht. vm_compute. reflexivity. }
  unfold Orbit.west, motionIs. rewrite Ec, Et, Ep, Ev', Ea.
  unfold adjustedAcceleration. rewrite Hc, Hp, Ha, Ht.
  repeat split; vm_compute; reflexivity.
Qed.

Lemma west_east_binary64 (w : World float) :
  Orbit.west w -> Orbit.east (updatePhysics w).
Proof.
  intros (Hc & Hp & Hv & Ha & Ht).
  destruct (updatePhysics_motion w) as (Ea & Ev & Ep & Et & Ec).
  assert (Ev' : velocity (this (updatePhysics w)) = Vector2.mk (lit 2) (lit 0)).
  { rewrite Ev. unfold dampenedVelocity, adjustedAcceleration.
    rewrite Hc, Hp, Hv, Ha, Ht. vm_compute. reflexivity. }
  unfold Orbit.east, motionIs. rewrite Ec, Et, Ep, Ev', Ea.
  unfold adjustedAcceleration. rewrite Hc, Hp, Ha, Ht.
  repeat split; vm_compute; reflexivity.
Qed.

(** Real arithmetic. *)

Lemma magnitude_horizontal (a : R) :
  magnitude (Vector2.mk a 0%R) = Rabs a.
Proof.
  rewrite Ideal.magnitude_eq. simpl.
  replace (a * a + 0 * 0)%R with (Rsqr a) by (unfold Rsqr; ring).
  apply sqrt_Rsqr_abs.
Qed.

Lemma Rabs_minus_4 : Rabs (-4) = 4%R.
Proof. unfold Rabs. destruct (Rcase_abs (-4)); lra. Qed.

Lemma Rabs_4 : Rabs 4 = 4%R.
Proof. unfold Rabs. destruct (Rcase_abs 4); lra. Qed.

Lemma east_west_ideal (w : World R) :
  Orbit.east w -> Orbit.west (updatePhysics w).
Proof.
  intros (Hc & Hp & Hv & Ha & Ht).
  destruct (updatePhysics_motion w) as (Ea & Ev & Ep & Et & Ec).
  assert (Ea' : adjustedAcceleration (this w) = Vector2.mk (-20)%R 0%R).
  { unfold adjustedAcceleration. rewrite Hc, Hp, Ha, Ht. simpl.
    unfold Q2R. simpl. f_equal; lra. }
  assert (Ed : dampenedVelocity (this w) = Vector2.mk (-4)%R 0%R).
  { unfold dampenedVelocity. rewrite Ea', Hc, Hv. simpl.
    unfold Q2R. simpl. f_equal; lra. }
  assert (EM : maxSpeed (config (this w)) = 2%R).
  { rewrite Hc. simpl. unfold Q2R. simpl. lra. }
  assert (Ev' : velocity (this (updatePhysics w)) = Vector2.mk (-2)%R 0%R).
  { rewrite Ev, Ed, EM.
    rewrite Ideal.limit_active
      by (rewrite magnitude_horizontal, Rabs_minus_4; lra).
    rewrite magnitude_horizontal, Rabs_minus_4. simpl. f_equal; lra. }
  unfold Orbit.west, motionIs. rewrite Ec, Et, Ep, Ev', Ea, Ea', Hp, Hc, Ht.
  simpl. unfold Q2R. simpl. repeat split; f_equal; lra.
Qed.

Lemma west_east_ideal (w : World R) :
  Orbit.west w -> Orbit.east (updatePhysics w).
Proof.
  intros (Hc & Hp & Hv & Ha & Ht).
  destruct (updatePhysics_motion w) as (Ea & Ev & Ep & Et & Ec).
  assert (Ea' : adjustedAcceleration (this w) = Vector2.mk 20%R 0%R).
  { unfold adjustedAcceleration. rewrite Hc, Hp, Ha, Ht. simpl.
    unfold Q2R. simpl. f_equal; lra. }
  assert (Ed : dampenedVelocity (this w) = Vector2.mk 4%R 0%R).
  { unfold dampenedVelocity. rewrite Ea', Hc, Hv. simpl.
    unfold Q2R. simpl. f_equal; lra. }
  assert (EM : maxSpeed (config (this w)) = 2%R).
  { rewrite Hc. simpl. unfold Q2R. simpl. lra. }
  assert (Ev' : velocity (this (updatePhysics w)) = Vector2.mk 2%R 0%R).
  { rewrite Ev, Ed, EM.
    rewrite Ideal.limit_active
      by (rewrite magnitude_horizontal, Rabs_4; lra).
    rewrite magnitude_horizontal, Rabs_4. simpl. f_equal; lra. }
  unfold Orbit.east, motionIs. rewrite Ec, Et, Ep, Ev', Ea, Ea', Hp, Hc, Ht.
  simpl. unfold Q2R. simpl. repeat split; f_equal; lra.
Qed.

(** The orbit alternates for ever. *)
Lemma alternates {N : Type} `{JSNumber N}
    (Hew : forall w : World N, Orbit.east w -> Orbit.west (updatePhysics w))
    (Hwe : forall w : World N, Orbit.west w -> Orbit.east (updatePhysics w))
    (n : nat) :
  Orbit.east (ticks (2 * n) Orbit.start)
  /\ Orbit.west (ticks (S (2 * n)) Orbit.start).
Proof.
  induction n as [|n [IHe IHw]].
  - split; [apply start_east|]. apply Hew. apply start_east.
  - replace (2 * S n)%nat with (S (S (2 * n))) by lia.
    assert (He : Orbit.east (ticks (S (S (2 * n))) Orbit.start))
      by (rewrite ticks_S; apply Hwe; exact IHw).
    split; [exact He|]. rewrite ticks_S. apply Hew. exact He.
Qed.

End OrbitFacts.


(** ** Limits of the iteration *)

Module Limits.

Local Open Scope R_scope.

Lemma cv_succ (f : nat -> R) (l : R) :
  Un_cv f l -> Un_cv (fun n => f (S n)) l.
Proof.
  intros Hf. apply (Un_cv_ext (fun n => f (n + 1)%nat)).
  - intros n. f_equal. lia.
  - apply CV_shift'. exact Hf.
Qed.

Lemma cv_pred (f : nat -> R) (l : R) :
  Un_cv (fun n => f (S n)) l -> Un_cv f l.
Proof.
  intros Hf. apply (CV_shift f 1).
  apply (Un_cv_ext (fun n => f (S n))); [|exact Hf].
  intros n. f_equal. lia.
Qed.

Lemma cv_eventually (f g : nat -> R) (l : R) (n0 : nat) :
  (forall n, (n0 <= n)%nat -> f n = g n) -> Un_cv g l -> Un_cv f l.
Proof.
  intros Heq Hg eps Heps. destruct (Hg eps Heps) as [n1 Hn1].
  exists (Nat.max n0 n1). intros n Hn.
  rewrite Heq by lia. apply Hn1. lia.
Qed.

Lemma cv_const (c : R) : Un_cv (fun _ => c) c.
Proof.
  intros eps Heps. exists 0%nat. intros n _.
  unfold Rdist. replace (c - c) with 0 by ring. rewrite Rabs_R0. exact Heps.
Qed.

(** A combination of two sequences that tend to zero tends to zero. *)
Lemma cv_combination (f g : nat -> R) (a b : R) :
  Un_cv f 0 -> Un_cv g 0 -> Un_cv (fun n => a * f n + b * g n) 0.
Proof.
  intros Hf Hg.
  assert (H0 : Un_cv (fun n => a * f n + b * g n) (a * 0 + b * 0)).
  { apply (CV_plus (fun n => a * f n) (fun n => b * g n)).
    - apply (CV_mult (fun _ => a) f); [apply cv_const | exact Hf].
    - apply (CV_mult (fun _ => b) g); [apply cv_const | exact Hg]. }
  replace (a * 0 + b * 0) with 0 in H0 by ring. exact H0.
Qed.

(** The analysis behind the only possible limit, on the coordinate
    sequences of the iteration. *)
Section Sequences.

Variables px py vx vy ax ay ux uy : nat -> R.
Variables tx ty k s d M : R.

Hypothesis Hd : d <> 0.
Hypothesis Hs : s <> 0.
Hypothesis Hk : k <> 0.
Hypothesis HM : 0 < M.

Hypothesis Hax : forall n, ax (S n) = ax n + ((tx - px n) * k - ax n) * (1 / 10).
Hypothesis Hay : forall n, ay (S n) = ay n + ((ty - py n) * k - ay n) * (1 / 10).
Hypothesis Hux : forall n, ux n = (vx n + ax (S n) * s) * d.
Hypothesis Huy : forall n, uy n = (vy n + ay (S n) * s) * d.
Hypothesis Hv : forall n,
  Vector2.mk (vx (S n)) (vy (S n)) = limitMaximumSpeed M (Vector2.mk (ux n) (uy n)).
Hypothesis Hpx : forall n, px (S n) = px n + vx (S n).
Hypothesis Hpy : forall n, py (S n) = py n + vy (S n).

Lemma velocity_vanishes (p v : nat -> R) (l : R) :
  (forall n, p (S n) = p n + v (S n)) ->
  Un_cv p l -> Un_cv (fun n => v (S n)) 0.
Proof.
  intros Hp Hcv.
  assert (H0 : Un_cv (fun n => p (S n) - p n) (l - l))
    by (apply CV_minus; [apply cv_succ|]; exact Hcv).
  replace (l - l) with 0 in H0 by ring.
  apply (Un_cv_ext (fun n => p (S n) - p n)); [|exact H0].
  intros n. rewrite Hp. ring.
Qed.

Lemma limit_eventually_inactive (lx ly : R) :
  Un_cv px lx -> Un_cv py ly ->
  exists n0, forall n, (n0 <= n)%nat -> vx (S n) = ux n /\ vy (S n) = uy n.
Proof.
  intros Hcx Hcy.
  destruct (velocity_vanishes px vx lx Hpx Hcx (M / 2) ltac:(lra)) as [n1 Hn1].
  destruct (velocity_vanishes py vy ly Hpy Hcy (M / 2) ltac:(lra)) as [n2 Hn2].
  exists (Nat.max n1 n2). intros n Hn.
  specialize (Hn1 n ltac:(lia)). specialize (Hn2 n ltac:(lia)).
  unfold Rdist in Hn1, Hn2. rewrite Rminus_0_r in Hn1, Hn2.
  assert (Hsmall : vx (S n) * vx (S n) + vy (S n) * vy (S n) < M * M).
  { assert (Hx2 : vx (S n) * vx (S n) < (M / 2) * (M / 2)).
    { apply Rabs_def2 in Hn1. nra. }
    assert (Hy2 : vy (S n) * vy (S n) < (M / 2) * (M / 2)).
    { apply Rabs_def2 in Hn2. nra. }
    nra. }
  destruct (Rlt_dec M (magnitude (Vector2.mk (ux n) (uy n)))) as [Hact|Hin].
  - exfalso.
    pose proof (Ideal.limit_active_magnitude M _ ltac:(lra) Hact) as Hmag.
    rewrite <- Hv in Hmag.
    pose proof (Ideal.magnitude_sqr (Vector2.mk (vx (S n)) (vy (S n)))) as Hsq.
    rewrite Hmag in Hsq. simpl in Hsq. lra.
  - pose proof (Hv n) as E. rewrite Ideal.limit_inactive in E by lra.
    injection E as E1 E2. split; assumption.
Qed.

Lemma only_limit (lx ly : R) :
  Un_cv px lx -> Un_cv py ly -> lx = tx /\ ly = ty.
Proof.
  intros Hcx Hcy.
  destruct (limit_eventually_inactive lx ly Hcx Hcy) as [n0 Hn0].
  assert (Hvx : Un_cv (fun n => vx (S n)) 0) by (eapply velocity_vanishes; eassumption).
  assert (Hvy : Un_cv (fun n => vy (S n)) 0) by (eapply velocity_vanishes; eassumption).
  assert (Hvx0 : Un_cv vx 0) by (apply cv_pred; exact Hvx).
  assert (Hvy0 : Un_cv vy 0) by (apply cv_pred; exact Hvy).
  assert (Hax0 : Un_cv ax 0).
  { apply cv_pred.
    apply (cv_eventually _ (fun n => (/ (d * s)) * vx (S n) + (- / s) * vx n) _ n0).
    - intros n Hn. destruct (Hn0 n Hn) as [E _]. rewrite Hux in E.
      rewrite E at 1. field. split; assumption.
    - apply cv_combination; assumption. }
  assert (Hay0 : Un_cv ay 0).
  { apply cv_pred.
    apply (cv_eventually _ (fun n => (/ (d * s)) * vy (S n) + (- / s) * vy n) _ n0).
    - intros n Hn. destruct (Hn0 n Hn) as [_ E]. rewrite Huy in E.
      rewrite E at 1. field. split; assumption.
    - apply cv_combination; assumption. }
  assert (Hex : Un_cv (fun n => tx - px n) 0).
  { apply (Un_cv_ext (fun n => (10 / k) * ax (S n) + (- 9 / k) * ax n)).
    - intros n. rewrite Hax. field. exact Hk.
    - apply cv_combination; [apply cv_succ|]; assumption. }
  assert (Hey : Un_cv (fun n => ty - py n) 0).
  { apply (Un_cv_ext (fun n => (10 / k) * ay (S n) + (- 9 / k) * ay n)).
    - intros n. rewrite Hay. field. exact Hk.
    - apply cv_combination; [apply cv_succ|]; assumption. }
  assert (Hpx' : Un_cv px tx).
  { apply (Un_cv_ext (fun n => tx - (tx - px n))); [intros n; ring|].
    assert (H0 : Un_cv (fun n => tx - (tx - px n)) (tx - 0))
      by (apply (CV_minus (fun _ => tx) (fun n => tx - px n));
          [apply cv_const | exact Hex]).
    replace (tx - 0) with tx in H0 by ring. exact H0. }
  assert (Hpy' : Un_cv py ty).
  { apply (Un_cv_ext (fun n => ty - (ty - py n))); [intros n; ring|].
    assert (H0 : Un_cv (fun n => ty - (ty - py n)) (ty - 0))
      by (apply (CV_minus (fun _ => ty) (fun n => ty - py n));
          [apply cv_const | exact Hey]).
    replace (ty - 0) with ty in H0 by ring. exact H0. }
  split; eapply UL_sequence; eassumption.
Qed.

End Sequences.

End Limits.
Lemma vector_eta {N : Type} (v : Vector2 N) :
  Vector2.mk (Vector2.x v) (Vector2.y v) = v.
Proof. destruct v. reflexivity. Qed.

(** With [dampening], [springStrength] and [accelerationRate] different
    from 0 and [maxSpeed] positive, the only point the position can converge
    to is the target. *)
Lemma only_limit_is_target (w : World R) (l : Vector2 R) :
  (0 < dampening (config (this w)) < 1)%R ->
  springStrength (config (this w)) <> 0%R ->
  accelerationRate (config (this w)) <> 0%R ->
  (0 < maxSpeed (config (this w)))%R ->
  positionConverges w l ->
  l = target (this w).
Proof.
  intros Hd Hs Hk HM [Hcx Hcy].
  assert (Hstep : forall n,
    acceleration (this (ticks (S n) w)) = adjustedAcceleration (this (ticks n w))
    /\ velocity (this (ticks (S n) w))
       = limitMaximumSpeed (maxSpeed (config (this w)))
           (dampenedVelocity (this (ticks n w)))
    /\ position (this (ticks (S n) w))
       = Vector2.mk
           (Vector2.x (position (this (ticks n w)))
            + Vector2.x (velocity (this (ticks (S n) w))))%R
           (Vector2.y (position (this (ticks n w)))
            + Vector2.y (velocity (this (ticks (S n) w))))%R).
  { intros n. rewrite ticks_S.
    destruct (updatePhysics_motion (ticks n w)) as (Ea & Ev & Ep & _).
    destruct (ticks_config_target n w) as [Hc _].
    rewrite Hc in Ev. repeat split; assumption. }
  assert (Q01 : Q2R 0.1 = (1 / 10)%R) by (unfold Q2R; simpl; lra).
  destruct (Limits.only_limit
    (fun n => Vector2.x (position (this (ticks n w))))
    (fun n => Vector2.y (position (this (ticks n w))))
    (fun n => Vector2.x (velocity (this (ticks n w))))
    (fun n => Vector2.y (velocity (this (ticks n w))))
    (fun n => Vector2.x (acceleration (this (ticks n w))))
    (fun n => Vector2.y (acceleration (this (ticks n w))))
    (fun n => Vector2.x (dampenedVelocity (this (ticks n w))))
    (fun n => Vector2.y (dampenedVelocity (this (ticks n w))))
    (Vector2.x (target (this w))) (Vector2.y (target (this w)))
    (accelerationRate (config (this w))) (springStrength (config (this w)))
    (dampening (config (this w))) (maxSpeed (config (this w)))
    ltac:(lra) Hs Hk HM) with (lx := Vector2.x l) (ly := Vector2.y l)
    as [Ex Ey]; try assumption.
  - intros n. destruct (Hstep n) as (Ea & _). rewrite Ea.
    destruct (ticks_config_target n w) as [Hc Ht].
    unfold adjustedAcceleration. rewrite Hc, Ht. simpl. rewrite Q01. reflexivity.
  - intros n. destruct (Hstep n) as (Ea & _). rewrite Ea.
    destruct (ticks_config_target n w) as [Hc Ht].
    unfold adjustedAcceleration. rewrite Hc, Ht. simpl. rewrite Q01. reflexivity.
  - intros n. destruct (Hstep n) as (Ea & _). rewrite Ea.
    destruct (ticks_config_target n w) as [Hc Ht].
    unfold dampenedVelocity. rewrite Hc. reflexivity.
  - intros n. destruct (Hstep n) as (Ea & _). rewrite Ea.
    destruct (ticks_config_target n w) as [Hc Ht].
    unfold dampenedVelocity. rewrite Hc. reflexivity.
  - intros n. destruct (Hstep n) as (_ & Ev & _).
    rewrite !vector_eta. exact Ev.
  - intros n. destruct (Hstep n) as (_ & _ & Ep). rewrite Ep. reflexivity.
  - intros n. destruct (Hstep n) as (_ & _ & Ep). rewrite Ep. reflexivity.
  - destruct l as [lx ly], (target (this w)) as [tx ty]. simpl in *.
    congruence.
Qed.

(** At rest on the target the iteration stays where it is. *)
Lemma rest_forever (w : World R) (n : nat) :
  (0 <= maxSpeed (config (this w)))%R ->
  position (this w) = target (this w) ->
  velocity (this w) = Vector2.mk 0%R 0%R ->
  acceleration (this w) = Vector2.mk 0%R 0%R ->
  position (this (ticks n w)) = position (this w)
  /\ velocity (this (ticks n w)) = velocity (this w)
  /\ acceleration (this (ticks n w)) = acceleration (this w).
Proof.
  intros HM Hp Hv Ha. induction n as [|n (IHp & IHv & IHa)].
  - repeat split.
  - rewrite ticks_S.
    destruct (ticks_config_target n w) as [Hc Ht].
    destruct (rest_ideal (ticks n w)) as (Ep & Ev & Ea).
    + rewrite Hc. exact HM.
    + rewrite IHp, Ht. exact Hp.
    + rewrite IHv. exact Hv.
    + rewrite IHa. exact Ha.
    + rewrite Ep, Ev, Ea. repeat split; assumption.
Qed.


(** ** Convergence under the constructor's configuration *)

Module Lyapunov.

Local Open Scope R_scope.

Lemma energy1_step (e v a a' v' : R) :
  a' = a + (e * (1 / 5) - a) * (1 / 10) ->
  v' = (v + a' * (3 / 25)) * (17 / 20) ->
  energy1 (e - v') v' a' <= 499 / 500 * energy1 e v a.
Proof.
  intros -> ->.
  assert (E : 499 / 500 * energy1 e v a
              - energy1 (e - (v + (a + (e * (1 / 5) - a) * (1 / 10)) * (3 / 25)) * (17 / 20))
                  ((v + (a + (e * (1 / 5) - a) * (1 / 10)) * (3 / 25)) * (17 / 20))
                  (a + (e * (1 / 5) - a) * (1 / 10))
              = 31441063 / 625000000
                  * Rsqr (e - 94973750 / 31441063 * v + 3472835 / 31441063 * a)
                + 1553070321621 / 15720531500
                  * Rsqr (v - 1687212634 / 1553070321621 * a)
                + 475483175938499 / 776535160810500 * Rsqr a).
  { unfold energy1, Rsqr. field. }
  assert (H1 := Rle_0_sqr (e - 94973750 / 31441063 * v + 3472835 / 31441063 * a)).
  assert (H2 := Rle_0_sqr (v - 1687212634 / 1553070321621 * a)).
  assert (H3 := Rle_0_sqr a).
  nra.
Qed.

Lemma energy1_velocity (e v a : R) : 224 * (v * v) <= energy1 e v a.
Proof.
  assert (E : energy1 e v a - 224 * (v * v)
              = 14 * Rsqr (e - 45 / 14 * v + 1 / 14 * a)
                + 3701 / 14 * Rsqr (v + 3447 / 3701 * a)
                + 72584 / 3701 * Rsqr a).
  { unfold energy1, Rsqr. field. }
  assert (H1 := Rle_0_sqr (e - 45 / 14 * v + 1 / 14 * a)).
  assert (H2 := Rle_0_sqr (v + 3447 / 3701 * a)).
  assert (H3 := Rle_0_sqr a).
  nra.
Qed.

Lemma energy1_offset (e v a : R) : 8 * (e * e) <= energy1 e v a.
Proof.
  assert (E : energy1 e v a - 8 * (e * e)
              = 6 * Rsqr (e - 15 / 2 * v + 1 / 6 * a)
                + 591 / 2 * Rsqr (v + 167 / 197 * a)
                + 21560 / 591 * Rsqr a).
  { unfold energy1, Rsqr. field. }
  assert (H1 := Rle_0_sqr (e - 15 / 2 * v + 1 / 6 * a)).
  assert (H2 := Rle_0_sqr (v + 167 / 197 * a)).
  assert (H3 := Rle_0_sqr a).
  nra.
Qed.

Lemma energy1_nonneg (e v a : R) : 0 <= energy1 e v a.
Proof. pose proof (energy1_offset e v a). nra. Qed.

Lemma energy_nonneg (s : BirdCursorSystem R) : 0 <= energy s.
Proof.
  unfold energy.
  apply Rplus_le_le_0_compat; apply energy1_nonneg.
Qed.

Lemma default_values :
  accelerationRate (defaultConfig (N:=R)) = 1 / 5
  /\ springStrength (defaultConfig (N:=R)) = 3 / 25
  /\ dampening (defaultConfig (N:=R)) = 17 / 20
  /\ maxSpeed (defaultConfig (N:=R)) = 15
  /\ Q2R 0.1 = 1 / 10.
Proof. simpl. unfold Q2R. simpl. repeat split; lra. Qed.

(** Below the level 50400 the speed limit stays idle and the energy
    shrinks. *)
Lemma default_step (w : World R) :
  config (this w) = defaultConfig ->
  energy (this w) <= 50400 ->
  velocity (this (updatePhysics w)) = dampenedVelocity (this w)
  /\ energy (this (updatePhysics w)) <= 499 / 500 * energy (this w).
Proof.
  intros Hc HE.
  destruct default_values as (Ek & Es & Ed & EM & E01).
  destruct (updatePhysics_motion w) as (Ea & Ev & Ep & Et & _).
  set (ex := Vector2.x (target (this w)) - Vector2.x (position (this w))) in *.
  set (ey := Vector2.y (target (this w)) - Vector2.y (position (this w))) in *.
  pose (ax' := Vector2.x (adjustedAcceleration (this w))).
  pose (ay' := Vector2.y (adjustedAcceleration (this w))).
  pose (ux := Vector2.x (dampenedVelocity (this w))).
  pose (uy := Vector2.y (dampenedVelocity (this w))).
  assert (Hax : ax' = Vector2.x (acceleration (this w))
                      + (ex * (1 / 5) - Vector2.x (acceleration (this w))) * (1 / 10)).
  { unfold ax', adjustedAcceleration. rewrite Hc. cbn [Vector2.x].
    rewrite Ek. simpl. rewrite E01. reflexivity. }
  assert (Hay : ay' = Vector2.y (acceleration (this w))
                      + (ey * (1 / 5) - Vector2.y (acceleration (this w))) * (1 / 10)).
  { unfold ay', adjustedAcceleration. rewrite Hc. cbn [Vector2.y].
    rewrite Ek. simpl. rewrite E01. reflexivity. }
  assert (Hux : ux = (Vector2.x (velocity (this w)) + ax' * (3 / 25)) * (17 / 20)).
  { unfold ux, ax', dampenedVelocity. rewrite Hc. cbn [Vector2.x].
    rewrite Es, Ed. reflexivity. }
  assert (Huy : uy = (Vector2.y (velocity (this w)) + ay' * (3 / 25)) * (17 / 20)).
  { unfold uy, ay', dampenedVelocity. rewrite Hc. cbn [Vector2.y].
    rewrite Es, Ed. reflexivity. }
  pose proof (energy1_step ex _ _ ax' ux Hax Hux) as Hsx.
  pose proof (energy1_step ey _ _ ay' uy Hay Huy) as Hsy.
  assert (Hidle : velocity (this (updatePhysics w)) = dampenedVelocity (this w)).
  { rewrite Ev. apply Ideal.limit_inactive.
    rewrite Hc, EM. apply Ideal.magnitude_le; [lra|].
    fold ux uy.
    pose proof (energy1_velocity (ex - ux) ux ax').
    pose proof (energy1_velocity (ey - uy) uy ay').
    unfold energy in HE. fold ex ey in HE.
    clearbody ux uy ax' ay' ex ey. nra. }
  split; [exact Hidle|].
  unfold energy at 1. rewrite Et, Ep, Hidle, Ea.
  cbn [Vector2.x Vector2.y add ideal]. fold ex ey ux uy ax' ay'.
  replace (Vector2.x (target (this w)) - (Vector2.x (position (this w)) + ux))
    with (ex - ux) by (unfold ex; ring).
  replace (Vector2.y (target (this w)) - (Vector2.y (position (this w)) + uy))
    with (ey - uy) by (unfold ey; ring).
  unfold energy. fold ex ey. lra.
Qed.

Lemma default_ticks (w : World R) (n : nat) :
  config (this w) = defaultConfig ->
  energy (this w) <= 50400 ->
  energy (this (ticks n w)) <= (499 / 500) ^ n * energy (this w)
  /\ energy (this (ticks n w)) <= 50400.
Proof.
  intros Hc HE. induction n as [|n [IH1 IH2]].
  - simpl. split; lra.
  - rewrite ticks_S.
    destruct (ticks_config_target n w) as [Hcn _].
    destruct (default_step (ticks n w)) as [_ Hstep];
      [rewrite Hcn; exact Hc | exact IH2 |].
    pose proof (energy_nonneg (this (ticks n w))) as H0.
    split; [|lra].
    simpl. eapply Rle_trans; [exact Hstep|].
    rewrite Rmult_assoc. apply Rmult_le_compat_l; lra.
Qed.

Lemma small_square (x eps : R) : 0 < eps -> x * x < eps * eps -> Rabs x < eps.
Proof.
  intros Heps Hsq. unfold Rabs. destruct (Rcase_abs x); nra.
Qed.

Lemma default_converges (w : World R) :
  config (this w) = defaultConfig ->
  energy (this w) <= 50400 ->
  positionConverges w (target (this w)).
Proof.
  intros Hc HE.
  assert (Hcv : forall eps, 0 < eps ->
            exists n0, forall n, (n0 <= n)%nat ->
              energy (this (ticks n w)) < 8 * (eps * eps)).
  { intros eps Heps.
    destruct (pow_lt_1_zero (499 / 500)
                ltac:(unfold Rabs; destruct (Rcase_abs _); lra)
                (8 * (eps * eps) / 50401) ltac:(nra)) as [n0 Hn0].
    exists n0. intros n Hn.
    destruct (default_ticks w n Hc HE) as [Hle _].
    specialize (Hn0 n Hn).
    rewrite Rabs_pos_eq in Hn0 by (apply pow_le; lra).
    pose proof (energy_nonneg (this w)) as H0.
    assert (Hp : 0 <= (499 / 500) ^ n) by (apply pow_le; lra).
    assert ((499 / 500) ^ n * energy (this w) <= (499 / 500) ^ n * 50400)
      by (apply Rmult_le_compat_l; lra).
    assert ((499 / 500) ^ n * 50401 < 8 * (eps * eps)).
    { apply (Rmult_lt_compat_r 50401) in Hn0; [|lra].
      replace (8 * (eps * eps) / 50401 * 50401) with (8 * (eps * eps)) in Hn0
        by (field). lra. }
    nra. }
  split; intros eps Heps; destruct (Hcv eps Heps) as [n0 Hn0];
    exists n0; intros n Hn; specialize (Hn0 n Hn);
    destruct (ticks_config_target n w) as [_ Ht];
    unfold energy in Hn0; rewrite Ht in Hn0;
    unfold Rdist; apply small_square; try exact Heps.
  - pose proof (energy1_offset
        (Vector2.x (target (this w)) - Vector2.x (position (this (ticks n w))))
        (Vector2.x (velocity (this (ticks n w))))
        (Vector2.x (acceleration (this (ticks n w))))).
    pose proof (energy1_nonneg
        (Vector2.y (target (this w)) - Vector2.y (position (this (ticks n w))))
        (Vector2.y (velocity (this (ticks n w))))
        (Vector2.y (acceleration (this (ticks n w))))).
    nra.
  - pose proof (energy1_offset
        (Vector2.y (target (this w)) - Vector2.y (position (this (ticks n w))))
        (Vector2.y (velocity (this (ticks n w))))
        (Vector2.y (acceleration (this (ticks n w))))).
    pose proof (energy1_nonneg
        (Vector2.x (target (this w)) - Vector2.x (position (this (ticks n w))))
        (Vector2.x (velocity (this (ticks n w))))
        (Vector2.x (acceleration (this (ticks n w))))).
    nra.
Qed.

(** At rest within 60 pixels of the target the energy is below the
    level. *)
Lemma energy_at_rest (s : BirdCursorSystem R) :
  velocity s = Vector2.mk 0 0 ->
  acceleration s = Vector2.mk 0 0 ->
  (Vector2.x (target s) - Vector2.x (position s))
  * (Vector2.x (target s) - Vector2.x (position s))
  + (Vector2.y (target s) - Vector2.y (position s))
    * (Vector2.y (target s) - Vector2.y (position s)) <= 60 * 60 ->
  energy s <= 50400.
Proof.
  intros Hv Ha Hd. unfold energy, energy1. rewrite Hv, Ha. simpl. nra.
Qed.

End Lyapunov.



(** * Further properties of the class *)

Arguments updatePhysics : simpl never.
Arguments updateAnimation : simpl never.
Arguments render : simpl never.
Arguments animate : simpl never.

(** ** What a physics step leaves alone *)

Section StepFrame.

Context {N : Type} `{JSNumber N}.

(** Apart from the motion and the animation state, a step changes nothing of
    the instance; of the host it changes at most the timer queue. *)
Lemma updatePhysics_frame (w : World N) :
  birdElement (this (updatePhysics w)) = birdElement (this w)
  /\ containerElement (this (updatePhysics w)) = containerElement (this w)
  /\ animationFrame (this (updatePhysics w)) = animationFrame (this w)
  /\ isInitialized (this (updatePhysics w)) = isInitialized (this w)
  /\ rotation (animationState (this (updatePhysics w)))
     = rotation (animationState (this w))
  /\ pitchRotation (animationState (this (updatePhysics w)))
     = pitchRotation (animationState (this w))
  /\ host (updatePhysics w)
     = set_timeouts (timeouts (host (updatePhysics w))) (host w).
Proof.
  unfold updatePhysics, updateFlapping.
  match goal with
  | |- context [if (?a >? ?b)%js then with_this _ _ else setTimeout _ _ _] =>
      destruct (a >? b)%js
  end; destruct w as [s h]; destruct h; repeat split.
Qed.

End StepFrame.

(** ** The animation loop *)

Section Loop.

Context {N : Type} `{JSNumber N}.

(** [updateAnimation] and [render] write to the two elements and to nothing
    else. *)
Lemma updateAnimation_nodes (w : World N) :
  exists b c, world_of (updateAnimation w) = with_host (set_nodes b c) w.
Proof.
  unfold updateAnimation.
  destruct (containerElement (this w)); simpl.
  - destruct (isFlapping (animationState (this w))).
    + destruct (birdElement (this w)); simpl; eexists; eexists; reflexivity.
    + eexists; eexists; reflexivity.
  - exists (birdNode (host w)), (containerNode (host w)).
    destruct w as [s h]; destruct h; reflexivity.
Qed.

Lemma updateAnimation_returns (w : World N) :
  birdElement (this w) = true -> containerElement (this w) = true ->
  updateAnimation w = Normal (world_of (updateAnimation w)).
Proof.
  intros Hb Hc. unfold updateAnimation. rewrite Hb, Hc. simpl.
  destruct (isFlapping (animationState (this w))); reflexivity.
Qed.

Lemma render_nodes (w : World N) :
  exists b c, render w = with_host (set_nodes b c) w.
Proof.
  unfold render.
  destruct (negb (birdElement (this w)) || negb (containerElement (this w))).
  - exists (birdNode (host w)), (containerNode (host w)).
    destruct w as [s h]; destruct h; reflexivity.
  - eexists; eexists; reflexivity.
Qed.

(** What a run of [animate] with both elements leaves behind. *)
Lemma animate_returns (w : World N) :
  birdElement (this w) = true -> containerElement (this w) = true ->
  exists b c,
    animate w
    = Normal
        (with_this (set_animationFrame (Some (nextHandle (host w))))
           (with_host
              (fun h =>
                 set_frames (frameRequests (host w) ++ [nextHandle (host w)])
                   (Pos.succ (nextHandle (host w)))
                   (set_nodes b c h))
              (updatePhysics w))).
Proof.
  intros Hb Hc.
  destruct (updatePhysics_frame w) as (Fb & Fc & _ & _ & _ & _ & Fh).
  assert (Ffr : frameRequests (host (updatePhysics w)) = frameRequests (host w))
    by (rewrite Fh; reflexivity).
  assert (Fnh : nextHandle (host (updatePhysics w)) = nextHandle (host w))
    by (rewrite Fh; reflexivity).
  unfold animate.
  rewrite updateAnimation_returns by (rewrite ?Fb, ?Fc; assumption).
  destruct (updateAnimation_nodes (updatePhysics w)) as (b1 & c1 & E1).
  rewrite E1.
  destruct (render_nodes (with_host (set_nodes b1 c1) (updatePhysics w)))
    as (b2 & c2 & E2).
  rewrite E2. exists b2, c2.
  generalize dependent (updatePhysics w). intros w1. intros.
  destruct w1 as [s1 h1]; destruct h1. simpl in Ffr, Fnh. subst.
  reflexivity.
Qed.

End Loop.

(** ** Lifecycle *)

Section LifecycleFacts.

Context {N : Type} `{JSNumber N}.

(** What a first [init()] on a complete page leaves behind. *)
Lemma init_complete (w : World N) :
  isInitialized (this w) = false ->
  hasBird (host w) = true ->
  hasContainer (host w) = true ->
  exists w',
    init w = Normal w'
    /\ isInitialized (this w') = true
    /\ birdElement (this w') = true
    /\ containerElement (this w') = true
    /\ target (this w')
       = Vector2.mk (innerWidth (host w) / lit 2)%js (innerHeight (host w) / lit 2)%js
    /\ mousemoveListeners (host w') = S (mousemoveListeners (host w))
    /\ animationFrame (this w') = Some (nextHandle (host w))
    /\ frameRequests (host w') = frameRequests (host w) ++ [nextHandle (host w)]
    /\ console (host w')
       = console (host w) ++ [(LogInfo, "Bird cursor system initialized"%string)]
    /\ init w' = Normal w'.
Proof.
  intros Hi Hb Hc.
  set (w0 := setupEventListeners (with_this (set_elements true true) w)).
  destruct (animate_returns w0 eq_refl eq_refl) as (b & c & Ea).
  destruct (updatePhysics_motion w0) as (_ & _ & _ & Ht & _).
  destruct (updatePhysics_frame w0) as (Fb & Fc & _ & _ & _ & _ & Fh).
  eexists. split.
  - unfold init. rewrite Hi, Hb, Hc. simpl. fold w0.
    unfold startAnimation. rewrite Ea. reflexivity.
  - clear Ea. generalize dependent (updatePhysics w0). intros w1 Ht Fb Fc Fh.
    destruct w1 as [s1 h1]; destruct h1. simpl in *.
    injection Fh as -> -> -> -> -> -> -> -> -> -> ->.
    rewrite Fb, Fc, Ht. repeat split.
Qed.

End LifecycleFacts.

(** ** Shapes of the results

    What each method can have done to the instance and to the host, stated
    once and used for every property below. *)

Section Shapes.

Context {N : Type} `{JSNumber N}.

(** The instance after [animate]: the one the physics step left, with the new
    frame handle when a frame was requested. *)
Lemma animate_this (w : World N) :
  this (world_of (animate w)) = this (updatePhysics w)
  \/ exists h,
       this (world_of (animate w))
       = set_animationFrame (Some h) (this (updatePhysics w)).
Proof.
  unfold animate.
  destruct (updateAnimation_nodes (updatePhysics w)) as (b1 & c1 & E1).
  destruct (updateAnimation (updatePhysics w)) as [w2|w2];
    cbn [world_of] in E1; subst w2.
  - right.
    destruct (render_nodes (with_host (set_nodes b1 c1) (updatePhysics w)))
      as (b2 & c2 & E2).
    rewrite E2. eexists. reflexivity.
  - left. reflexivity.
Qed.

(** The host after [animate]: the elements, the timer queue and the frame
    requests may differ, nothing else does. *)
Lemma updatePhysics_host (w : World N) :
  exists q, host (updatePhysics w) = set_timeouts q (host w).
Proof.
  destruct (updatePhysics_frame w) as (_ & _ & _ & _ & _ & _ & Fh).
  eexists. exact Fh.
Qed.

Lemma animate_host (w : World N) :
  exists b c q f n,
    host (world_of (animate w))
    = set_frames f n (set_timeouts q (set_nodes b c (host w))).
Proof.
  unfold animate.
  destruct (updatePhysics_host w) as [q Fh].
  destruct (updateAnimation_nodes (updatePhysics w)) as (b1 & c1 & E1).
  destruct (updateAnimation (updatePhysics w)) as [w2|w2];
    cbn [world_of] in E1; subst w2.
  - destruct (render_nodes (with_host (set_nodes b1 c1) (updatePhysics w)))
      as (b2 & c2 & E2).
    rewrite E2. clear E2.
    generalize dependent (updatePhysics w). intros [s1 h1] Fh.
    cbn in Fh. subst h1.
    exists b2, c2, q, (frameRequests (host w) ++ [nextHandle (host w)]),
      (Pos.succ (nextHandle (host w))).
    destruct (host w). reflexivity.
  - generalize dependent (updatePhysics w). intros [s1 h1] Fh.
    cbn in Fh. subst h1.
    exists b1, c1, q, (frameRequests (host w)), (nextHandle (host w)).
    destruct (host w). reflexivity.
Qed.

End Shapes.

(** ** Who writes what *)

Section Writers.

Context {N : Type} `{JSNumber N}.

(** The fields of the instance no physics step writes. *)
Lemma updatePhysics_keeps (w : World N) :
  config (this (updatePhysics w)) = config (this w)
  /\ target (this (updatePhysics w)) = target (this w)
  /\ rotation (animationState (this (updatePhysics w)))
     = rotation (animationState (this w))
  /\ pitchRotation (animationState (this (updatePhysics w)))
     = pitchRotation (animationState (this w))
  /\ birdElement (this (updatePhysics w)) = birdElement (this w)
  /\ containerElement (this (updatePhysics w)) = containerElement (this w)
  /\ isInitialized (this (updatePhysics w)) = isInitialized (this w).
Proof.
  destruct (updatePhysics_motion w) as (_ & _ & _ & Ht & Hc).
  destruct (updatePhysics_frame w) as (Fb & Fc & _ & Fi & Fr & Fp & _).
  repeat split; assumption.
Qed.

Lemma animate_keeps (w : World N) :
  config (this (world_of (animate w))) = config (this w)
  /\ target (this (world_of (animate w))) = target (this w)
  /\ rotation (animationState (this (world_of (animate w))))
     = rotation (animationState (this w))
  /\ pitchRotation (animationState (this (world_of (animate w))))
     = pitchRotation (animationState (this w))
  /\ birdElement (this (world_of (animate w))) = birdElement (this w)
  /\ containerElement (this (world_of (animate w))) = containerElement (this w)
  /\ isInitialized (this (world_of (animate w))) = isInitialized (this w)
  /\ position (this (world_of (animate w))) = position (this (updatePhysics w))
  /\ velocity (this (world_of (animate w))) = velocity (this (updatePhysics w))
  /\ acceleration (this (world_of (animate w)))
     = acceleration (this (updatePhysics w))
  /\ animationState (this (world_of (animate w)))
     = animationState (this (updatePhysics w)).
Proof.
  destruct (updatePhysics_keeps w) as (Kc & Kt & Kr & Kp & Kb & Kk & Ki).
  destruct (animate_this w) as [E|[h E]]; rewrite E; cbn;
    rewrite ?Kc, ?Kt, ?Kr, ?Kp, ?Kb, ?Kk, ?Ki; repeat split.
Qed.

(** The three ways [init] can end. *)
Lemma init_shape (w : World N) :
  world_of (init w) = w
  \/ world_of (init w)
     = console_emit LogError "Bird cursor elements not found"
         (with_this (set_elements (hasBird (host w)) false) w)
  \/ (world_of (init w)
      = world_of (animate (setupEventListeners
                             (with_this (set_elements true true) w)))
      \/ world_of (init w)
         = console_emit LogInfo "Bird cursor system initialized"
             (with_this (set_isInitialized true)
                (world_of (animate (setupEventListeners
                                      (with_this (set_elements true true) w)))))).
Proof.
  unfold init.
  destruct (isInitialized (this w)); [left; reflexivity|].
  destruct (hasBird (host w)), (hasContainer (host w)); cbn;
    try (right; left; reflexivity).
  right. right. unfold startAnimation.
  destruct (animate _); [right | left]; reflexivity.
Qed.

Lemma init_keeps (w : World N) :
  config (this (world_of (init w))) = config (this w)
  /\ rotation (animationState (this (world_of (init w))))
     = rotation (animationState (this w))
  /\ pitchRotation (animationState (this (world_of (init w))))
     = pitchRotation (animationState (this w)).
Proof.
  destruct (init_shape w) as [E|[E|[E|E]]]; rewrite E; clear E;
    try (repeat split; reflexivity).
  - destruct (animate_keeps (setupEventListeners
                               (with_this (set_elements true true) w)))
      as (Kc & _ & Kr & Kp & _).
    rewrite Kc, Kr, Kp. repeat split.
  - destruct (animate_keeps (setupEventListeners
                               (with_this (set_elements true true) w)))
      as (Kc & _ & Kr & Kp & _).
    cbn. rewrite Kc, Kr, Kp. repeat split.
Qed.

End Writers.

(** ** Fields that are never written, and listeners that are never removed *)

Section Never.

Context {N : Type} `{JSNumber N}.

Ltac method_cases :=
  unfold setPreset, setTheme, updatePhysicsConfig, destroy, render,
    updateAnimation, updateFlapping, setupEventListeners;
  repeat match goal with
         | |- context [match ?x with _ => _ end] => destruct x
         end;
  cbn; repeat split; auto.

(** Folding [animate] over the pending requests keeps what every run of
    [animate] keeps. *)
Lemma runFrame_ind (P : World N -> Prop) (w : World N) :
  P (with_host (fun h => set_frames [] (nextHandle h) h) w) ->
  (forall w, P w -> P (world_of (animate w))) ->
  P (runFrame w).
Proof.
  intros H0 Hstep. unfold runFrame.
  generalize dependent (with_host (fun h => set_frames [] (nextHandle h) h) w).
  induction (frameRequests (host w)) as [|h l IH]; intros w0 H0; simpl.
  - exact H0.
  - apply IH. apply Hstep. exact H0.
Qed.

Lemma runChecks_ind (P : World N -> Prop) due (w : World N) :
  P w -> (forall v w, P w -> P (flappingTimeout v w)) -> P (runChecks due w).
Proof.
  intros H0 Hstep. unfold runChecks. revert w H0.
  induction due as [|e l IH]; intros w H0; simpl.
  - exact H0.
  - apply IH. apply Hstep. exact H0.
Qed.

Lemma acts_ind (P : World N -> Prop) (l : list (Action N)) (w : World N) :
  P w -> (forall a w, P w -> P (act a w)) -> P (acts l w).
Proof.
  intros H0 Hstep. unfold acts. revert w H0.
  induction l as [|a l IH]; intros w H0; simpl.
  - exact H0.
  - apply IH. apply Hstep. exact H0.
Qed.

(** *** [rotation] and [pitchRotation] *)

Lemma call_rotations (c : Call N) (w : World N) :
  rotation (animationState (this (call c w)))
  = rotation (animationState (this w))
  /\ pitchRotation (animationState (this (call c w)))
     = pitchRotation (animationState (this w)).
Proof.
  destruct c; cbn [call].
  - destruct (init_keeps w) as (_ & Kr & Kp). auto.
  - method_cases.
  - unfold startAnimation.
    destruct (animate_keeps w) as (_ & _ & Kr & Kp & _). auto.
  - destruct (updatePhysics_keeps w) as (_ & _ & Kr & Kp & _). auto.
  - method_cases.
  - method_cases.
  - method_cases.
  - method_cases.
  - method_cases.
  - method_cases.
  - auto.
  - method_cases.
Qed.

Lemma happen_rotations (e : HostEvent N) (w : World N) :
  rotation (animationState (this (happen e w)))
  = rotation (animationState (this w))
  /\ pitchRotation (animationState (this (happen e w)))
     = pitchRotation (animationState (this w)).
Proof.
  destruct e; cbn [happen].
  - apply (runFrame_ind
             (fun w' => rotation (animationState (this w'))
                        = rotation (animationState (this w))
                        /\ pitchRotation (animationState (this w'))
                           = pitchRotation (animationState (this w)))).
    + split; reflexivity.
    + intros w' [Hr Hp].
      destruct (animate_keeps w') as (_ & _ & Kr & Kp & _).
      rewrite Kr, Kp. auto.
  - unfold runTimeouts.
    apply (runChecks_ind
             (fun w' => rotation (animationState (this w'))
                        = rotation (animationState (this w))
                        /\ pitchRotation (animationState (this w'))
                           = pitchRotation (animationState (this w)))).
    + split; reflexivity.
    + intros v w' [Hr Hp]. unfold flappingTimeout.
      destruct (_ <=? _)%js; cbn; auto.
  - unfold mousemove. destruct (mousemoveListeners (host w)); auto.
  - auto.
Qed.

(** *** The [mousemove] listeners *)

Lemma animate_listeners (w : World N) :
  mousemoveListeners (host (world_of (animate w))) = mousemoveListeners (host w).
Proof.
  destruct (animate_host w) as (b & c & q & f & n & E). rewrite E. reflexivity.
Qed.

Lemma call_listeners (c : Call N) (w : World N) :
  mousemoveListeners (host w) <= mousemoveListeners (host (call c w)).
Proof.
  destruct c; cbn [call].
  - destruct (init_shape w) as [E|[E|[E|E]]]; rewrite E; clear E; cbn;
      rewrite ?animate_listeners; cbn; lia.
  - method_cases.
  - unfold startAnimation. rewrite animate_listeners. lia.
  - destruct (updatePhysics_host w) as [q E]. rewrite E. cbn. lia.
  - method_cases.
  - method_cases.
  - method_cases.
  - method_cases.
  - method_cases.
  - method_cases.
  - lia.
  - method_cases.
Qed.

Lemma happen_listeners (e : HostEvent N) (w : World N) :
  mousemoveListeners (host (happen e w)) = mousemoveListeners (host w).
Proof.
  destruct e; cbn [happen].
  - apply (runFrame_ind
             (fun w' => mousemoveListeners (host w')
                        = mousemoveListeners (host w))).
    + reflexivity.
    + intros w' E. rewrite animate_listeners. exact E.
  - unfold runTimeouts. rewrite runChecks_host. reflexivity.
  - unfold mousemove.
    destruct (mousemoveListeners (host w)) eqn:E; cbn; rewrite ?E; reflexivity.
  - reflexivity.
Qed.

Lemma acts_listeners (l : list (Action N)) (w : World N) :
  mousemoveListeners (host w) <= mousemoveListeners (host (acts l w)).
Proof.
  apply (acts_ind (fun w' => mousemoveListeners (host w)
                             <= mousemoveListeners (host w'))).
  - lia.
  - intros [c|e] w' Hle; cbn [act].
    + pose proof (call_listeners c w'). lia.
    + rewrite happen_listeners. exact Hle.
Qed.

End Never.

(** ** One loop, and how it stops *)

Section OneLoop.

Context {N : Type} `{JSNumber N}.

(** The request a run of [animate] with both elements makes. *)
Lemma animate_frames (w : World N) :
  birdElement (this w) = true -> containerElement (this w) = true ->
  frameRequests (host (world_of (animate w)))
  = frameRequests (host w) ++ [nextHandle (host w)]
  /\ nextHandle (host (world_of (animate w))) = Pos.succ (nextHandle (host w))
  /\ animationFrame (this (world_of (animate w))) = Some (nextHandle (host w)).
Proof.
  intros Hb Hc. destruct (animate_returns w Hb Hc) as (b & c & E).
  rewrite E. repeat split.
Qed.

(** The page itself is out of reach of the class and of the events. *)
Lemma animate_page (w : World N) :
  hasBird (host (world_of (animate w))) = hasBird (host w)
  /\ hasContainer (host (world_of (animate w))) = hasContainer (host w).
Proof.
  destruct (animate_host w) as (b & c & q & f & n & E). rewrite E.
  split; reflexivity.
Qed.

Lemma happen_page (e : HostEvent N) (w : World N) :
  hasBird (host (happen e w)) = hasBird (host w)
  /\ hasContainer (host (happen e w)) = hasContainer (host w).
Proof.
  destruct e; cbn [happen].
  - apply (runFrame_ind
             (fun w' => hasBird (host w') = hasBird (host w)
                        /\ hasContainer (host w') = hasContainer (host w))).
    + split; reflexivity.
    + intros w' [Eb Ec]. destruct (animate_page w') as [Ab Ac].
      rewrite Ab, Ac. auto.
  - unfold runTimeouts. rewrite runChecks_host. split; reflexivity.
  - unfold mousemove. destruct (mousemoveListeners (host w)); split; reflexivity.
  - split; reflexivity.
Qed.

Lemma animate_singleLoop (w : World N) :
  birdElement (this w) = true -> containerElement (this w) = true ->
  frameRequests (host w) = [] ->
  singleLoop (world_of (animate w)).
Proof.
  intros Hb Hc Hf.
  destruct (animate_frames w Hb Hc) as (Ff & _ & Fa).
  destruct (animate_keeps w) as (_ & _ & _ & _ & Kb & Kc & _).
  unfold singleLoop. rewrite Kb, Kc, Ff, Fa, Hf.
  repeat split; try assumption.
  exists (nextHandle (host w)). split; reflexivity.
Qed.

Lemma runFrame_single (w : World N) (h : positive) :
  frameRequests (host w) = [h] ->
  runFrame w
  = world_of (animate (with_host (fun h => set_frames [] (nextHandle h) h) w)).
Proof. intros E. unfold runFrame. rewrite E. reflexivity. Qed.

Lemma runFrame_idle (w : World N) :
  frameRequests (host w) = [] -> runFrame w = w.
Proof.
  intros E. unfold runFrame. rewrite E. destruct w as [s h]; destruct h.
  cbn in E. subst. reflexivity.
Qed.

Lemma runChecks_this (P : BirdCursorSystem N -> Prop) due (w : World N) :
  (forall s a, P s -> P (set_animationState a s)) ->
  P (this w) -> P (this (runChecks due w)).
Proof.
  intros HP H0.
  apply (runChecks_ind (fun w' => P (this w'))); [exact H0|].
  intros v w' Hw'. unfold flappingTimeout.
  destruct (_ <=? _)%js; [apply HP|]; exact Hw'.
Qed.

Lemma happen_singleLoop (e : HostEvent N) (w : World N) :
  singleLoop w -> singleLoop (happen e w).
Proof.
  intros (Hb & Hc & h & Ha & Hf). destruct e; cbn [happen].
  - rewrite (runFrame_single w h Hf).
    apply animate_singleLoop; assumption || reflexivity.
  - unfold runTimeouts, singleLoop. rewrite runChecks_host.
    set (w0 := with_host _ w).
    pose proof (runChecks_this
                  (fun s => birdElement s = true /\ containerElement s = true
                            /\ animationFrame s = Some h)
                  (filter (fun e => (e.1 <= now (host w))%Z) (timeouts (host w)))
                  w0) as K.
    destruct K as (Kb & Kc & Ka).
    + intros s a Hs. exact Hs.
    + repeat split; assumption.
    + repeat split; try assumption. exists h. split; assumption.
  - unfold mousemove. destruct (mousemoveListeners (host w));
      repeat split; try assumption; exists h; split; assumption.
  - repeat split; try assumption. exists h. split; assumption.
Qed.

Lemma happenings_ind (P : World N -> Prop) (es : list (HostEvent N)) (w : World N) :
  P w -> (forall e w, P w -> P (happen e w)) -> P (happenings es w).
Proof.
  intros H0 Hstep. unfold happenings. revert w H0.
  induction es as [|e l IH]; intros w H0; simpl.
  - exact H0.
  - apply IH. apply Hstep. exact H0.
Qed.

Lemma init_singleLoop (w : World N) :
  isInitialized (this w) = false ->
  hasBird (host w) = true -> hasContainer (host w) = true ->
  frameRequests (host w) = [] ->
  singleLoop (world_of (init w))
  /\ hasBird (host (world_of (init w))) = true
  /\ hasContainer (host (world_of (init w))) = true.
Proof.
  intros Hi Hb Hc Hf.
  destruct (init_complete w Hi Hb Hc)
    as (w' & E & _ & Eb & Ec & _ & _ & Ea & Ef & _).
  split.
  - rewrite E. cbn [world_of]. unfold singleLoop.
    repeat split; try assumption.
    exists (nextHandle (host w)). rewrite Ef, Hf. split; [assumption|reflexivity].
  - destruct (init_shape w) as [E'|[E'|[E'|E']]]; rewrite E'; cbn;
      try (split; assumption);
      try (rewrite Hc in E'; rewrite E in E'; cbn in E'; subst w';
           cbn in Ec; discriminate Ec).
    + destruct (animate_page (setupEventListeners
                                (with_this (set_elements true true) w)))
        as [Ab Ac].
      rewrite Ab, Ac. cbn. split; assumption.
    + destruct (animate_page (setupEventListeners
                                (with_this (set_elements true true) w)))
        as [Ab Ac].
      rewrite Ab, Ac. cbn. split; assumption.
Qed.

(** [destroy] on a single loop cancels its one request. *)
Lemma destroy_singleLoop (w : World N) :
  singleLoop w ->
  frameRequests (host (destroy w)) = []
  /\ isInitialized (this (destroy w)) = false
  /\ hasBird (host (destroy w)) = hasBird (host w)
  /\ hasContainer (host (destroy w)) = hasContainer (host w)
  /\ position (this (destroy w)) = position (this w)
  /\ velocity (this (destroy w)) = velocity (this w)
  /\ acceleration (this (destroy w)) = acceleration (this w).
Proof.
  intros (Hb & Hc & h & Ha & Hf). unfold destroy. rewrite Ha. cbn.
  rewrite Hf. rewrite filter_cons_False by (intros Hn; apply Hn; reflexivity).
  repeat split.
Qed.

(** With no request pending, no event moves the bird or starts a loop. *)
Lemma happen_stopped (e : HostEvent N) (w : World N) :
  frameRequests (host w) = [] ->
  frameRequests (host (happen e w)) = []
  /\ isInitialized (this (happen e w)) = isInitialized (this w)
  /\ position (this (happen e w)) = position (this w)
  /\ velocity (this (happen e w)) = velocity (this w)
  /\ acceleration (this (happen e w)) = acceleration (this w).
Proof.
  intros Hf. destruct e; cbn [happen].
  - rewrite (runFrame_idle w Hf). repeat split. exact Hf.
  - unfold runTimeouts. rewrite runChecks_host.
    set (w0 := with_host _ w).
    pose proof (runChecks_this
                  (fun s => isInitialized s = isInitialized (this w)
                            /\ position s = position (this w)
                            /\ velocity s = velocity (this w)
                            /\ acceleration s = acceleration (this w))
                  (filter (fun e => (e.1 <= now (host w))%Z) (timeouts (host w)))
                  w0) as K.
    destruct K as (Ki & Kp & Kv & Ka).
    + intros s a Hs. exact Hs.
    + repeat split.
    + repeat split; assumption.
  - unfold mousemove. destruct (mousemoveListeners (host w));
      repeat split; assumption.
  - repeat split. exact Hf.
Qed.

End OneLoop.

Section LifecycleTheorems.

Context {N : Type} `{JSNumber N}.

Lemma init_page (w : World N) :
  hasBird (host (world_of (init w))) = hasBird (host w)
  /\ hasContainer (host (world_of (init w))) = hasContainer (host w).
Proof.
  destruct (init_shape w) as [E|[E|[E|E]]]; rewrite E; cbn;
    try (split; reflexivity);
    destruct (animate_page (setupEventListeners
                              (with_this (set_elements true true) w)))
      as [Ab Ac]; rewrite Ab, Ac; split; reflexivity.
Qed.

(** X1.  On a page that holds both elements, [init()] on an instance that
    is not initialised returns normally with the instance initialised: both
    elements referenced, the target at the centre of the window, one more
    [mousemove] listener, one more frame request whose handle the instance
    remembers, and one line on the console.  A second [init()] then changes
    nothing. *)
Theorem init_on_complete_page (w : World N) :
  isInitialized (this w) = false ->
  hasBird (host w) = true ->
  hasContainer (host w) = true ->
  exists w',
    init w = Normal w'
    /\ isInitialized (this w') = true
    /\ birdElement (this w') = true
    /\ containerElement (this w') = true
    /\ target (this w')
       = Vector2.mk (innerWidth (host w) / lit 2)%js (innerHeight (host w) / lit 2)%js
    /\ mousemoveListeners (host w') = S (mousemoveListeners (host w))
    /\ animationFrame (this w') = Some (nextHandle (host w))
    /\ frameRequests (host w') = frameRequests (host w) ++ [nextHandle (host w)]
    /\ console (host w')
       = console (host w) ++ [(LogInfo, "Bird cursor system initialized"%string)]
    /\ init w' = Normal w'.
Proof. exact (init_complete w). Qed.

(** X2.  After [init()] on a complete page with no frame request pending,
    whatever frames, timer phases, mouse moves and delays follow, exactly one
    frame request is pending and the instance holds its handle.  [destroy()]
    then cancels it: from there on no request is pending, the instance stays
    uninitialised and the bird stays where it was, whatever events follow; and
    a new [init()] starts exactly one loop again. *)
Theorem destroy_stops_the_loop (w : World N) (es es' : list (HostEvent N)) :
  isInitialized (this w) = false ->
  hasBird (host w) = true ->
  hasContainer (host w) = true ->
  frameRequests (host w) = [] ->
  let running := happenings es (world_of (init w)) in
  let stopped := happenings es' (destroy running) in
  singleLoop running
  /\ frameRequests (host stopped) = []
  /\ isInitialized (this stopped) = false
  /\ position (this stopped) = position (this running)
  /\ singleLoop (world_of (init stopped)).
Proof.
  intros Hi Hb Hc Hf running stopped.
  destruct (init_singleLoop w Hi Hb Hc Hf) as (L0 & B0 & C0).
  assert (R : singleLoop running /\ hasBird (host running) = true
              /\ hasContainer (host running) = true).
  { apply (happenings_ind
             (fun w' => singleLoop w' /\ hasBird (host w') = true
                        /\ hasContainer (host w') = true)).
    - auto.
    - intros e w' (L & B & C). destruct (happen_page e w') as [Pb Pc].
      rewrite Pb, Pc. split; [apply happen_singleLoop; exact L | auto]. }
  destruct R as (L & B & C).
  destruct (destroy_singleLoop running L) as (Df & Di & Db & Dc & Dp & _).
  assert (S : frameRequests (host stopped) = []
              /\ isInitialized (this stopped) = false
              /\ position (this stopped) = position (this running)
              /\ hasBird (host stopped) = true
              /\ hasContainer (host stopped) = true).
  { apply (happenings_ind
             (fun w' => frameRequests (host w') = []
                        /\ isInitialized (this w') = false
                        /\ position (this w') = position (this running)
                        /\ hasBird (host w') = true
                        /\ hasContainer (host w') = true)).
    - rewrite Db, Dc. auto.
    - intros e w' (F & I & P & B' & C').
      destruct (happen_stopped e w' F) as (F1 & I1 & P1 & _).
      destruct (happen_page e w') as [Pb Pc].
      rewrite I1, P1, Pb, Pc. auto. }
  destruct S as (Sf & Si & Sp & Sb & Sc).
  split; [exact L|]. split; [exact Sf|]. split; [exact Si|].
  split; [exact Sp|].
  exact (proj1 (init_singleLoop stopped Si Sb Sc Sf)).
Qed.

(** X3.  No call and no event ever removes a [mousemove] listener: their
    number never goes down, so once one is registered a mouse move writes the
    target after any sequence of calls and events, [destroy()] included. *)
Theorem listener_outlives_destroy
    (l : list (Action N)) (w : World N) (clientX clientY : N) :
  0 < mousemoveListeners (host w) ->
  mousemoveListeners (host w) <= mousemoveListeners (host (acts l w))
  /\ target (this (mousemove clientX clientY (acts l w)))
     = Vector2.mk clientX clientY.
Proof.
  intros Hpos. pose proof (acts_listeners l w) as Hle.
  split; [exact Hle|].
  unfold mousemove.
  destruct (mousemoveListeners (host (acts l w))); [lia | reflexivity].
Qed.

(** X4.  [destroy()] followed by [init()] on a complete page registers a
    second listener beside the first: each successful [init()] adds one and
    nothing takes one away. *)
Theorem reinit_adds_a_listener (w : World N) :
  isInitialized (this w) = false ->
  hasBird (host w) = true ->
  hasContainer (host w) = true ->
  mousemoveListeners (host (world_of (init (destroy (world_of (init w))))))
  = S (S (mousemoveListeners (host w))).
Proof.
  intros Hi Hb Hc.
  destruct (init_complete w Hi Hb Hc) as (w1 & E1 & _ & _ & _ & _ & L1 & _).
  destruct (init_page w) as [Pb Pc]. rewrite E1 in *. cbn [world_of] in *.
  assert (Di : isInitialized (this (destroy w1)) = false)
    by (unfold destroy; reflexivity).
  assert (Dh : hasBird (host (destroy w1)) = true
               /\ hasContainer (host (destroy w1)) = true
               /\ mousemoveListeners (host (destroy w1))
                  = mousemoveListeners (host w1)).
  { unfold destroy. destruct (animationFrame (this w1)); cbn;
      rewrite Pb, Pc; auto. }
  destruct Dh as (Db & Dc & Dl).
  destruct (init_complete (destroy w1) Di Db Dc)
    as (w2 & E2 & _ & _ & _ & _ & L2 & _).
  rewrite E2. cbn [world_of]. rewrite L2, Dl, L1. reflexivity.
Qed.

(** X5.  The fields [rotation] and [pitchRotation] of the animation state
    are never written: after any sequence of calls and events they hold what
    they held before. *)
Theorem rotation_never_written (l : list (Action N)) (w : World N) :
  rotation (animationState (this (acts l w)))
  = rotation (animationState (this w))
  /\ pitchRotation (animationState (this (acts l w)))
     = pitchRotation (animationState (this w)).
Proof.
  apply (acts_ind
           (fun w' => rotation (animationState (this w'))
                      = rotation (animationState (this w))
                      /\ pitchRotation (animationState (this w'))
                         = pitchRotation (animationState (this w)))).
  - split; reflexivity.
  - intros [c|e] w' [Hr Hp]; cbn [act].
    + destruct (call_rotations c w') as [Kr Kp]. rewrite Kr, Kp. auto.
    + destruct (happen_rotations e w') as [Kr Kp]. rewrite Kr, Kp. auto.
Qed.

End LifecycleTheorems.


Lemma init_on_complete_page_witness :
  exists w' : World float,
    init Sample.fresh = Normal w'
    /\ isInitialized (this w') = true
    /\ target (this w') = Vector2.mk 400%float 300%float
    /\ frameRequests (host w') = [1%positive].
Proof.
  destruct (init_on_complete_page (N:=float) Sample.fresh eq_refl eq_refl eq_refl)
    as (w' & E & Hi & _ & _ & Ht & _ & _ & Hf & _).
  exists w'. split; [exact E|]. split; [exact Hi|]. split; [exact Ht|]. exact Hf.
Defined.

Lemma destroy_stops_the_loop_witness :
  let es := [Frame; Mousemove 10%float 20%float; Frame; Elapse 200; Timers] in
  let running := happenings es (world_of (init (Sample.fresh (N:=float)))) in
  let stopped := happenings [Frame; Timers; Frame] (destroy running) in
  singleLoop running
  /\ frameRequests (host stopped) = []
  /\ position (this stopped) = position (this running).
Proof.
  intros es running stopped.
  destruct (destroy_stops_the_loop (N:=float) Sample.fresh es [Frame; Timers; Frame]
              eq_refl eq_refl eq_refl eq_refl) as (L & F & _ & P & _).
  split; [exact L|]. split; [exact F|]. exact P.
Defined.

Lemma listener_outlives_destroy_witness :
  let w := world_of (init (Sample.fresh (N:=float))) in
  0 < mousemoveListeners (host w)
  /\ target (this (mousemove 3%float 4%float
                     (acts [Host_ Frame; Method Call_destroy; Host_ Frame] w)))
     = Vector2.mk 3%float 4%float.
Proof.
  intros w.
  assert (Hpos : 0 < mousemoveListeners (host w)) by (vm_compute; lia).
  split; [exact Hpos|].
  exact (proj2 (listener_outlives_destroy
           [Host_ Frame; Method Call_destroy; Host_ Frame] w 3%float 4%float Hpos)).
Defined.

Lemma reinit_adds_a_listener_witness :
  mousemoveListeners
    (host (world_of (init (destroy (world_of (init (Sample.fresh (N:=float))))))))
  = 2.
Proof.
  exact (reinit_adds_a_listener (N:=float) Sample.fresh eq_refl eq_refl eq_refl).
Defined.

(** ** More loops than one *)

Section Loops.

Context {N : Type} `{JSNumber N}.

(** With both elements every pending request is replaced by a new one. *)
Lemma runFrame_requests (w : World N) :
  birdElement (this w) = true -> containerElement (this w) = true ->
  birdElement (this (runFrame w)) = true
  /\ containerElement (this (runFrame w)) = true
  /\ length (frameRequests (host (runFrame w)))
     = length (frameRequests (host w)).
Proof.
  intros Hb Hc. unfold runFrame.
  set (w0 := with_host (fun h => set_frames [] (nextHandle h) h) w).
  assert (H0 : birdElement (this w0) = true /\ containerElement (this w0) = true
               /\ length (frameRequests (host w0)) = 0) by (repeat split; assumption).
  clearbody w0.
  replace (length (frameRequests (host w)))
    with (length (frameRequests (host w0)) + length (frameRequests (host w)))
    by (destruct H0 as (_ & _ & ->); reflexivity).
  destruct H0 as (Hb0 & Hc0 & _). revert w0 Hb0 Hc0.
  induction (frameRequests (host w)) as [|h l IH]; intros w0 Hb0 Hc0; simpl.
  - repeat split; try assumption. lia.
  - destruct (animate_frames w0 Hb0 Hc0) as (Ff & _).
    destruct (animate_keeps w0) as (_ & _ & _ & _ & Kb & Kc & _).
    destruct (IH (world_of (animate w0))) as (Ib & Ic & Il).
    + rewrite Kb. exact Hb0.
    + rewrite Kc. exact Hc0.
    + repeat split; try assumption.
      rewrite Il, Ff, length_app. simpl. lia.
Qed.

Lemma frames_requests (n : nat) (w : World N) :
  birdElement (this w) = true -> containerElement (this w) = true ->
  birdElement (this (frames n w)) = true
  /\ containerElement (this (frames n w)) = true
  /\ length (frameRequests (host (frames n w)))
     = length (frameRequests (host w)).
Proof.
  intros Hb Hc. induction n as [|n (Ib & Ic & Il)]; simpl.
  - repeat split; assumption.
  - destruct (runFrame_requests (frames n w) Ib Ic) as (Rb & Rc & Rl).
    unfold frames in *. repeat split; try assumption. lia.
Qed.

(** X6.  [destroy()] cancels the one request whose handle the instance
    holds.  When [startAnimation()] has run twice on an instance with both
    elements, two requests are pending and the instance holds the handle of
    the second one; [destroy()] leaves the first pending, and that loop goes
    on: after any number of frames one request is still pending. *)
Theorem second_loop_survives_destroy (w : World N) (n : nat) :
  birdElement (this w) = true ->
  containerElement (this w) = true ->
  frameRequests (host w) = [] ->
  let twice := call Call_startAnimation (call Call_startAnimation w) in
  frameRequests (host twice)
  = [nextHandle (host w); Pos.succ (nextHandle (host w))]
  /\ animationFrame (this twice) = Some (Pos.succ (nextHandle (host w)))
  /\ frameRequests (host (destroy twice)) = [nextHandle (host w)]
  /\ length (frameRequests (host (frames n (destroy twice)))) = 1.
Proof.
  intros Hb Hc Hf twice. subst twice. cbn [call]. unfold startAnimation.
  set (w1 := world_of (animate w)).
  destruct (animate_frames w Hb Hc) as (F1 & N1 & A1).
  destruct (animate_keeps w) as (_ & _ & _ & _ & Kb1 & Kc1 & _).
  fold w1 in F1, N1, A1, Kb1, Kc1. rewrite Hb in Kb1. rewrite Hc in Kc1.
  destruct (animate_frames w1 Kb1 Kc1) as (F2 & N2 & A2).
  destruct (animate_keeps w1) as (_ & _ & _ & _ & Kb2 & Kc2 & _).
  set (w2 := world_of (animate w1)).
  fold w2 in F2, N2, A2, Kb2, Kc2. rewrite Kb1 in Kb2. rewrite Kc1 in Kc2.
  rewrite F1, N1, Hf in F2. rewrite N1 in A2. simpl in F2.
  assert (D : frameRequests (host (destroy w2)) = [nextHandle (host w)]).
  { unfold destroy. rewrite A2. cbn. rewrite F2.
    rewrite filter_cons_True by apply Pos.succ_discr.
    rewrite filter_cons_False by (intros Hn; apply Hn; reflexivity).
    reflexivity. }
  split; [exact F2|]. split; [exact A2|]. split; [exact D|].
  destruct (frames_requests n (destroy w2)) as (_ & _ & L).
  - unfold destroy. destruct (animationFrame (this w2)); exact Kb2.
  - unfold destroy. destruct (animationFrame (this w2)); exact Kc2.
  - rewrite L, D. reflexivity.
Qed.

End Loops.

Lemma second_loop_survives_destroy_witness :
  let w : World float :=
    with_this (set_elements true true) Sample.fresh in
  let twice := call Call_startAnimation (call Call_startAnimation w) in
  frameRequests (host (destroy twice)) = [1%positive]
  /\ length (frameRequests (host (frames 5 (destroy twice)))) = 1.
Proof.
  intros w twice.
  destruct (second_loop_survives_destroy w 5 eq_refl eq_refl eq_refl)
    as (_ & _ & D & L).
  split; [exact D | exact L].
Defined.

(** ** Errors of the loop, and what a frame shows *)

Section Frames.

Context {N : Type} `{JSNumber N}.

Local Open Scope js_scope.

Lemma animate_Throw (w w' : World N) :
  animate w = Throw w' ->
  updateAnimation (updatePhysics w) = Throw w'.
Proof.
  unfold animate. destruct (updateAnimation (updatePhysics w)) as [w2|w2].
  - cbn. intros E. discriminate E.
  - intros E. exact E.
Qed.

Lemma updateAnimation_Throw (w w' : World N) :
  updateAnimation w = Throw w' ->
  (containerElement (this w) = false
   \/ (birdElement (this w) = false /\ isFlapping (animationState (this w)) = true))
  /\ this w' = this w
  /\ frameRequests (host w') = frameRequests (host w).
Proof.
  unfold updateAnimation.
  destruct (containerElement (this w)); cbn.
  - destruct (isFlapping (animationState (this w))); cbn.
    + destruct (birdElement (this w)); cbn; intros E; [discriminate E|].
      injection E as <-. repeat split. right. auto.
    + intros E. discriminate E.
  - intros E. injection E as <-. repeat split. left. reflexivity.
Qed.

(** X7.  [animate] (and so [startAnimation()]) throws exactly when the
    container reference is null, or the bird reference is null while the
    physics step it has just made leaves [isFlapping] set.  When it throws,
    the physics step stays applied and no frame has been requested. *)
Theorem animate_error (w : World N) :
  ((exists w', animate w = Throw w')
   <-> containerElement (this w) = false
       \/ (birdElement (this w) = false
           /\ isFlapping (animationState (this (updatePhysics w))) = true))
  /\ (forall w', animate w = Throw w' ->
        this w' = this (updatePhysics w)
        /\ frameRequests (host w') = frameRequests (host w)).
Proof.
  destruct (updatePhysics_keeps w) as (_ & _ & _ & _ & Kb & Kc & _).
  destruct (updatePhysics_host w) as [q Eh].
  split; [split|].
  - intros [w' E]. apply animate_Throw in E.
    apply updateAnimation_Throw in E as (Hc & _).
    rewrite Kb, Kc in Hc. exact Hc.
  - intros Hc. unfold animate, updateAnimation. rewrite Kb, Kc.
    destruct Hc as [-> | [-> ->]]; cbn.
    + eexists. reflexivity.
    + destruct (containerElement (this w)); cbn; eexists; reflexivity.
  - intros w' E. apply animate_Throw in E.
    apply updateAnimation_Throw in E as (_ & Et & Ef).
    rewrite Et, Ef, Eh. split; reflexivity.
Qed.

(** Drawing: [updateAnimation] then [render], with both elements. *)
Lemma draw_shown (w : World N) :
  birdElement (this w) = true -> containerElement (this w) = true ->
  shown (render (world_of (updateAnimation w)))
  /\ this (render (world_of (updateAnimation w))) = this w.
Proof.
  intros Hb Hc. unfold updateAnimation, render, shown. rewrite Hb, Hc. cbn.
  destruct (isFlapping (animationState (this w))) eqn:Ef; cbn;
    rewrite ?Hb, ?Hc; cbn; rewrite ?Ef; repeat split; auto.
  - intros _. apply elem_of_union. right. apply elem_of_singleton. reflexivity.
  - intros Hin. apply elem_of_difference in Hin as [_ Hn].
    exfalso. apply Hn. apply elem_of_singleton. reflexivity.
  - intros E. discriminate E.
  - intros E. discriminate E.
Qed.

Lemma shown_ext (w w' : World N) :
  shown w ->
  position (this w') = position (this w) ->
  animationState (this w') = animationState (this w) ->
  birdNode (host w') = birdNode (host w) ->
  containerNode (host w') = containerNode (host w) ->
  shown w'.
Proof.
  unfold shown. intros Hs Ep Ea Eb Ec. rewrite Ep, Ea, Eb, Ec. exact Hs.
Qed.

Lemma animate_shown (w : World N) :
  birdElement (this w) = true -> containerElement (this w) = true ->
  shown (world_of (animate w)).
Proof.
  intros Hb Hc.
  destruct (updatePhysics_keeps w) as (_ & _ & _ & _ & Kb & Kc & _).
  rewrite <- Kb in Hb. rewrite <- Kc in Hc.
  destruct (draw_shown (updatePhysics w) Hb Hc) as [Hs Et].
  unfold animate.
  rewrite updateAnimation_returns by assumption.
  generalize dependent (render (world_of (updateAnimation (updatePhysics w)))).
  intros w3 Hs Et.
  apply (shown_ext w3); [exact Hs | reflexivity ..].
Qed.

Lemma runFrame_shown (w : World N) :
  birdElement (this w) = true -> containerElement (this w) = true ->
  frameRequests (host w) <> [] ->
  shown (runFrame w).
Proof.
  intros Hb Hc Hne. unfold runFrame.
  set (w0 := with_host (fun h => set_frames [] (nextHandle h) h) w).
  assert (H0 : birdElement (this w0) = true /\ containerElement (this w0) = true)
    by (split; assumption).
  clearbody w0. destruct H0 as [Hb0 Hc0].
  destruct (frameRequests (host w)) as [|h l]; [congruence|]. clear Hne.
  revert h w0 Hb0 Hc0.
  induction l as [|h' l IH]; intros h w0 Hb0 Hc0.
  - simpl. apply animate_shown; assumption.
  - change (foldl (fun (w : World N) (_ : positive) => world_of (animate w)) w0 (h :: h' :: l))
      with (foldl (fun (w : World N) (_ : positive) => world_of (animate w))
              (world_of (animate w0)) (h' :: l)).
    destruct (animate_keeps w0) as (_ & _ & _ & _ & Kb & Kc & _).
    apply IH; [rewrite Kb | rewrite Kc]; assumption.
Qed.


End Frames.

Lemma animate_error_witness :
  exists w' : World float,
    animate Sample.fresh = Throw w'
    /\ this w' = this (updatePhysics Sample.fresh)
    /\ frameRequests (host w') = [].
Proof.
  destruct (animate_error (N:=float) Sample.fresh) as [[_ Hthrow] Hstate].
  destruct (Hthrow (or_introl eq_refl)) as [w' E].
  exists w'. split; [exact E|]. exact (Hstate w' E).
Defined.


(** ** Themes, presets and configuration updates *)

Section Tables.

Context {N : Type} `{JSNumber N}.

Lemma configObject_lookup (s d m a f b : N) :
  configObject s d m a f b !! "springStrength"%string = Some s
  /\ configObject s d m a f b !! "dampening"%string = Some d
  /\ configObject s d m a f b !! "maxSpeed"%string = Some m
  /\ configObject s d m a f b !! "accelerationRate"%string = Some a
  /\ configObject s d m a f b !! "flappingThreshold"%string = Some f
  /\ configObject s d m a f b !! "baseScale"%string = Some b
  /\ filter (fun kv : string * N => kv.1 ∉ configProps) (configObject s d m a f b) = ∅.
Proof.
  repeat split; try (vm_compute; reflexivity).
Qed.

(** X9.  With the container referenced, [setTheme(name)] for a theme of the
    table leaves the container with exactly one theme class, [name]; classes
    that are no theme names stay as they were, and the console reports the
    theme as applied. *)
Theorem setTheme_known (name : string) (w : World N) :
  containerElement (this w) = true ->
  is_Some (themes !! name) ->
  let before := classList (containerNode (host w)) in
  let after := classList (containerNode (host (setTheme name w))) in
  (forall k, k ∈ dom themes -> (k ∈ after <-> k = name))
  /\ (forall k, k ∉ dom themes -> (k ∈ after <-> k ∈ before))
  /\ console (host (setTheme name w))
     = console (host w) ++ [(LogInfo, "Applied theme: " +:+ name)].
Proof.
  intros Hc [t Ht] before after.
  assert (Hin : name ∈ dom themes) by (apply elem_of_dom; eexists; exact Ht).
  assert (Ea : after = (before ∖ dom themes) ∪ {[name]}).
  { subst after before. unfold setTheme, getProperty.
    rewrite Hc, Ht. reflexivity. }
  split; [|split].
  - clearbody after before. subst after.
    generalize dependent (dom themes). intros T Hin k Hk.
    rewrite elem_of_union, elem_of_difference, elem_of_singleton.
    split; [intros [[_ Hn]|E]; [destruct (Hn Hk) | exact E] | auto].
  - clearbody after before. subst after.
    generalize dependent (dom themes). intros T Hin k Hk.
    rewrite elem_of_union, elem_of_difference, elem_of_singleton.
    split; [intros [[Hb _]|E]; [exact Hb | subst k; destruct (Hk Hin)] | auto].
  - unfold setTheme, getProperty. rewrite Hc, Ht. reflexivity.
Qed.

(** X10.  Themes do not stack: for two themes of the table, the classes
    after [setTheme(a)] followed by [setTheme(b)] are the classes after
    [setTheme(b)] alone. *)
Theorem setTheme_last_wins (a b : string) (w : World N) :
  containerElement (this w) = true ->
  is_Some (themes !! a) ->
  is_Some (themes !! b) ->
  classList (containerNode (host (setTheme b (setTheme a w))))
  = classList (containerNode (host (setTheme b w))).
Proof.
  intros Hc [ta Ha] [tb Hb].
  assert (Hin : a ∈ dom themes) by (apply elem_of_dom; eexists; exact Ha).
  assert (Hc' : containerElement (this (setTheme a w)) = true).
  { unfold setTheme, getProperty. rewrite Hc, Ha. exact Hc. }
  assert (E1 : classList (containerNode (host (setTheme a w)))
               = (classList (containerNode (host w)) ∖ dom themes) ∪ {[a]}).
  { unfold setTheme, getProperty. rewrite Hc, Ha. reflexivity. }
  assert (E2 : forall w0 : World N,
             containerElement (this w0) = true ->
             classList (containerNode (host (setTheme b w0)))
             = (classList (containerNode (host w0)) ∖ dom themes) ∪ {[b]}).
  { intros w0 H0. unfold setTheme, getProperty. rewrite H0, Hb. reflexivity. }
  rewrite (E2 _ Hc'), (E2 _ Hc), E1. clear E1 E2 Ha Hb Hc'.
  generalize dependent (dom themes). intros T Hin.
  apply set_eq. intros k.
  rewrite !elem_of_union, !elem_of_difference, !elem_of_union,
    !elem_of_difference, !elem_of_singleton.
  split.
  - intros [[[Hk|E] Hn]|Hk];
      [left; exact Hk | subst k; destruct (Hn Hin) | right; exact Hk].
  - intros [[Hk Hn]|Hk]; [left; split; [left; split|]; assumption | right; exact Hk].
Qed.

Lemma presets_lookup :
  presets !! "energetic"%string
  = Some (configObject (lit 0.18) (lit 0.8) (lit 20) (lit 0.3) (lit 1.0) (lit 0.5))
  /\ presets !! "gentle"%string
     = Some (configObject (lit 0.08) (lit 0.9) (lit 10) (lit 0.15) (lit 2.0) (lit 0.4))
  /\ presets !! "balanced"%string
     = Some (configObject (lit 0.12) (lit 0.85) (lit 15) (lit 0.2) (lit 1.5) (lit 0.45)).
Proof.
  unfold presets. split; [|split].
  - apply lookup_insert_Some. left. split; reflexivity.
  - apply lookup_insert_Some. right. split; [discriminate|].
    apply lookup_insert_Some. left. split; reflexivity.
  - apply lookup_insert_Some. right. split; [discriminate|].
    apply lookup_insert_Some. right. split; [discriminate|].
    apply lookup_singleton_Some. split; reflexivity.
Qed.

(** Every preset of the table is an object that names the six properties,
    and nothing else. *)
Lemma presets_complete (name : string) (preset : gmap string N) :
  presets !! name = Some preset ->
  exists s d m a f b, preset = configObject s d m a f b.
Proof.
  unfold presets. intros E.
  apply lookup_insert_Some in E as [[_ <-]|[_ E]]; [do 6 eexists; reflexivity|].
  apply lookup_insert_Some in E as [[_ <-]|[_ E]]; [do 6 eexists; reflexivity|].
  apply lookup_singleton_Some in E as [_ <-]. do 6 eexists; reflexivity.
Qed.

Lemma Object_assign_configObject (c : PhysicsConfig N) (s d m a f b : N) :
  Object_assign c (configObject s d m a f b)
  = {| springStrength := s; dampening := d; maxSpeed := m;
       accelerationRate := a; flappingThreshold := f; baseScale := b;
       otherProps := otherProps c |}.
Proof.
  destruct (configObject_lookup s d m a f b) as (E1 & E2 & E3 & E4 & E5 & E6 & E7).
  unfold Object_assign. rewrite E1, E2, E3, E4, E5, E6, E7. cbn.
  f_equal. apply (left_id_L ∅ (∪)).
Qed.

(** X11.  A preset of the table replaces all six properties of the
    configuration, whatever they were: the configuration after
    [setPreset(name)] holds the preset's six values and the further
    properties it had.  So presets do not stack, a preset undoes every
    earlier update of the six properties, and [setPreset('balanced')] brings
    back the values of the constructor. *)
Theorem setPreset_replaces_all_six (name : string) (preset : gmap string N)
    (w : World N) :
  presets !! name = Some preset ->
  (exists s d m a f b,
     preset = configObject s d m a f b
     /\ config (this (setPreset name w))
        = {| springStrength := s; dampening := d; maxSpeed := m;
             accelerationRate := a; flappingThreshold := f; baseScale := b;
             otherProps := otherProps (config (this w)) |})
  /\ (forall (other : string) (newConfig : gmap string N),
        config (this (setPreset name (setPreset other w)))
        = config (this (setPreset name w))
        /\ (forall k, k ∈ configProps ->
              getField (config (this (setPreset name (updatePhysicsConfig newConfig w)))) k
              = getField (config (this (setPreset name w))) k))
  /\ (forall k, k ∈ configProps ->
        getField (config (this (setPreset "balanced" w))) k
        = getField defaultConfig k).
Proof.
  intros E.
  destruct (presets_complete name preset E) as (s & d & m & a & f & b & ->).
  assert (Hset : forall w0 : World N,
             config (this (setPreset name w0))
             = {| springStrength := s; dampening := d; maxSpeed := m;
                  accelerationRate := a; flappingThreshold := f; baseScale := b;
                  otherProps := otherProps (config (this w0)) |}).
  { intros w0. rewrite setPreset_config, E. apply Object_assign_configObject. }
  split; [|split].
  - exists s, d, m, a, f, b. split; [reflexivity | apply Hset].
  - intros other newConfig. split.
    + rewrite !Hset. f_equal. rewrite setPreset_config.
      destruct (presets !! other) as [p|] eqn:Eo; [|reflexivity].
      destruct (presets_complete other p Eo) as (s' & d' & m' & a' & f' & b' & ->).
      rewrite Object_assign_configObject. reflexivity.
    + intros k Hk. rewrite !Hset. unfold configProps in Hk.
      repeat (apply elem_of_cons in Hk as [->|Hk]; [reflexivity|]).
      apply elem_of_nil in Hk. destruct Hk.
  - intros k Hk. rewrite setPreset_config.
    destruct presets_lookup as (_ & _ & Eb).
    rewrite Eb, Object_assign_configObject. unfold configProps in Hk.
    repeat (apply elem_of_cons in Hk as [->|Hk]; [reflexivity|]).
    apply elem_of_nil in Hk. destruct Hk.
Qed.

(** [Object.assign] twice is [Object.assign] once, with the later source
    laid over the earlier. *)
Lemma Object_assign_twice (c : PhysicsConfig N) (a b : gmap string N) :
  Object_assign (Object_assign c a) b = Object_assign c (b ∪ a).
Proof.
  unfold Object_assign. cbn. f_equal;
    try (rewrite lookup_union; destruct (b !! _), (a !! _); reflexivity).
  apply map_eq. intros i.
  rewrite !lookup_union, !map_lookup_filter, lookup_union.
  destruct (b !! i) as [vb|], (a !! i) as [va|], (otherProps c !! i) as [vo|];
    cbn; destruct (decide (i ∉ configProps));
    rewrite ?option_guard_True, ?option_guard_False by (cbn; assumption);
    reflexivity.
Qed.

Lemma Object_assign_empty (c : PhysicsConfig N) : Object_assign c ∅ = c.
Proof.
  unfold Object_assign. rewrite !lookup_empty. cbn.
  rewrite map_filter_empty, (left_id_L ∅ (∪)). destruct c. reflexivity.
Qed.

(** X12.  Configuration updates compose by laying the later object over the
    earlier: [updatePhysicsConfig(a)] followed by [updatePhysicsConfig(b)] is
    one update with the properties of [b] and those of [a] that [b] does not
    name.  An update repeated changes nothing more, and the empty object
    changes nothing. *)
Theorem updatePhysicsConfig_composes (a b : gmap string N) (w : World N) :
  updatePhysicsConfig b (updatePhysicsConfig a w) = updatePhysicsConfig (b ∪ a) w
  /\ updatePhysicsConfig a (updatePhysicsConfig a w) = updatePhysicsConfig a w
  /\ updatePhysicsConfig ∅ w = w.
Proof.
  assert (Hc : forall a b : gmap string N,
             updatePhysicsConfig b (updatePhysicsConfig a w)
             = updatePhysicsConfig (b ∪ a) w).
  { intros a0 b0. unfold updatePhysicsConfig, with_this, set_config. cbn.
    rewrite Object_assign_twice. reflexivity. }
  split; [apply Hc|]. split.
  - rewrite Hc. rewrite (idemp_L (∪) a). reflexivity.
  - unfold updatePhysicsConfig, with_this, set_config.
    rewrite Object_assign_empty. destruct w as [[] ?]. reflexivity.
Qed.

End Tables.

Lemma setTheme_known_witness :
  let w : World float := world_of (init Sample.fresh) in
  let after := classList (containerNode (host (setTheme "robin" w))) in
  ("robin"%string ∈ after) /\ ("bluebird"%string ∉ after)
  /\ ("bird-container"%string ∈ after).
Proof.
  intros w after.
  assert (Hk : is_Some (themes !! "robin"%string)) by (eexists; vm_compute; reflexivity).
  destruct (setTheme_known (N:=float) "robin" w eq_refl Hk) as (Hin & Hout & _).
  split; [|split].
  - apply Hin; [vm_compute; reflexivity | reflexivity].
  - intros Hb. apply Hin in Hb; [discriminate Hb | vm_compute; reflexivity].
  - apply Hout.
    + vm_compute. intros E. discriminate E.
    + vm_compute. reflexivity.
Defined.

Lemma setTheme_last_wins_witness :
  let w : World float := world_of (init Sample.fresh) in
  classList (containerNode (host (setTheme "cardinal" (setTheme "robin" w))))
  = classList (containerNode (host (setTheme "cardinal" w))).
Proof.
  intros w.
  apply (setTheme_last_wins (N:=float) "robin" "cardinal" w eq_refl).
  - eexists; vm_compute; reflexivity.
  - eexists; vm_compute; reflexivity.
Defined.

Lemma setPreset_replaces_all_six_witness :
  config (this (setPreset "gentle"
            (setPreset "energetic" (Sample.fresh (N:=float)))))
  = config (this (setPreset "gentle" Sample.fresh)).
Proof.
  destruct (presets_lookup (N:=float)) as (_ & E & _).
  destruct (setPreset_replaces_all_six "gentle" _ Sample.fresh E) as (_ & Hl & _).
  exact (proj1 (Hl "energetic"%string ∅)).
Defined.

(** ** The classes of the container *)

Section Classes.

Context {N : Type} `{JSNumber N}.

Lemma updateAnimation_classes (w : World N) :
  sameButFlapping w (world_of (updateAnimation w)).
Proof.
  intros k Hk. unfold updateAnimation.
  destruct (containerElement (this w)); cbn; [|tauto].
  destruct (isFlapping (animationState (this w))); cbn.
  - destruct (birdElement (this w)); cbn;
      rewrite elem_of_union, elem_of_singleton; tauto.
  - rewrite elem_of_difference, elem_of_singleton; tauto.
Qed.

Lemma render_classes (w : World N) :
  classList (containerNode (host (render w)))
  = classList (containerNode (host w)).
Proof.
  unfold render.
  destruct (negb (birdElement (this w)) || negb (containerElement (this w)));
    reflexivity.
Qed.

Lemma updatePhysics_classes (w : World N) :
  classList (containerNode (host (updatePhysics w)))
  = classList (containerNode (host w)).
Proof. destruct (updatePhysics_host w) as [q E]. rewrite E. reflexivity. Qed.

Lemma animate_classes (w : World N) :
  sameButFlapping w (world_of (animate w)).
Proof.
  intros k Hk. unfold animate.
  pose proof (updateAnimation_classes (updatePhysics w) k Hk) as Hu.
  rewrite updatePhysics_classes in Hu.
  destruct (updateAnimation (updatePhysics w)) as [w2|w2]; cbn in Hu |- *.
  - rewrite render_classes. exact Hu.
  - exact Hu.
Qed.

Lemma init_classes (w : World N) :
  sameButFlapping w (world_of (init w)).
Proof.
  intros k Hk.
  destruct (init_shape w) as [E|[E|[E|E]]]; rewrite E; cbn; try tauto.
  - rewrite (animate_classes _ k Hk). reflexivity.
  - rewrite (animate_classes (setupEventListeners
                                (with_this (set_elements true true) w)) k Hk).
    reflexivity.
Qed.

Lemma call_classes (c : Call N) (w : World N) :
  isSetTheme (Method c) = false ->
  sameButFlapping w (call c w).
Proof.
  intros Hc k Hk. destruct c; cbn [call]; try discriminate Hc.
  - apply init_classes. exact Hk.
  - reflexivity.
  - apply animate_classes. exact Hk.
  - rewrite updatePhysics_classes. reflexivity.
  - unfold updateFlapping. destruct (_ >? _)%js; reflexivity.
  - apply updateAnimation_classes. exact Hk.
  - rewrite render_classes. reflexivity.
  - unfold setPreset. destruct (getProperty presets presetName); reflexivity.
  - reflexivity.
  - reflexivity.
  - unfold destroy. destruct (animationFrame (this w)); reflexivity.
Qed.

Lemma happen_classes (e : HostEvent N) (w : World N) :
  sameButFlapping w (happen e w).
Proof.
  intros k Hk. destruct e; cbn [happen].
  - apply (runFrame_ind
             (fun w' => k ∈ classList (containerNode (host w'))
                        <-> k ∈ classList (containerNode (host w)))).
    + reflexivity.
    + intros w' IH. rewrite <- IH. apply animate_classes. exact Hk.
  - unfold runTimeouts. rewrite runChecks_host. reflexivity.
  - unfold mousemove. destruct (mousemoveListeners (host w)); reflexivity.
  - reflexivity.
Qed.

(** X13.  Apart from [setTheme], no call and no event touches any class of
    the container except [flapping]: over any sequence of calls and events
    without a [setTheme] call, every other class is present afterwards if and
    only if it was present before.  A theme, once set, stays. *)
Theorem only_flapping_class_changes
    (l : list (Action N)) (w : World N) (k : string) :
  forallb (fun a => negb (isSetTheme a)) l = true ->
  k <> "flapping"%string ->
  (k ∈ classList (containerNode (host (acts l w)))
   <-> k ∈ classList (containerNode (host w))).
Proof.
  intros Hl Hk. unfold acts. revert w.
  induction l as [|a l IH]; intros w; simpl; [reflexivity|].
  simpl in Hl. apply andb_true_iff in Hl as [Ha Hl].
  rewrite (IH Hl). destruct a as [c|e]; cbn [act].
  - apply call_classes; [|exact Hk].
    apply negb_true_iff in Ha. exact Ha.
  - apply happen_classes. exact Hk.
Qed.

End Classes.

Lemma only_flapping_class_changes_witness :
  let w : World float := setTheme "robin" (world_of (init Sample.fresh)) in
  let l := [Host_ Frame; Host_ (Mousemove 700%float 100%float);
            Host_ Frame; Method (Call_setPreset "gentle");
            Host_ Frame; Method Call_destroy] in
  "robin"%string ∈ classList (containerNode (host (acts l w))).
Proof.
  intros w l.
  apply (only_flapping_class_changes l w "robin" eq_refl).
  - discriminate.
  - vm_compute. reflexivity.
Defined.

(** ** The stages of a physics step *)

Lemma updatePhysics_stages {N : Type} `{JSNumber N} (w : World N) :
  updatePhysics w
  = applyMotion (adjustedAcceleration (this w))
      (limitMaximumSpeed (maxSpeed (config (this w))) (dampenedVelocity (this w)))
      w.
Proof. reflexivity. Qed.

Lemma instance_ext {N : Type} (s s' : BirdCursorSystem N) :
  birdElement s = birdElement s' ->
  containerElement s = containerElement s' ->
  position s = position s' ->
  velocity s = velocity s' ->
  acceleration s = acceleration s' ->
  target s = target s' ->
  config s = config s' ->
  animationState s = animationState s' ->
  animationFrame s = animationFrame s' ->
  isInitialized s = isInitialized s' ->
  s = s'.
Proof. destruct s, s'. cbn. intros. subst. reflexivity. Qed.

Lemma world_ext {N : Type} (w w' : World N) :
  this w = this w' -> host w = host w' -> w = w'.
Proof. destruct w, w'. cbn. intros. subst. reflexivity. Qed.

(** ** The physics step over the reals *)

Module IdealStep.

Local Open Scope R_scope.

Lemma applyMotion_translate (a v d : Vector2 R) (w : World R) :
  applyMotion a v (translate d w) = translate d (applyMotion a v w).
Proof.
  unfold applyMotion, translate, updateFlapping.
  cbn -[Math_sqrt Math_max Math_abs gt].
  repeat match goal with
         | |- context [if ?c then _ else _] => destruct c
         end.
  all: apply world_ext; [apply instance_ext|];
         cbn -[Math_sqrt Math_max Math_abs gt]; try reflexivity.
  all: f_equal; ring.
Qed.

(** The step read as a function of the offset to the target. *)
Lemma updatePhysics_translate (d : Vector2 R) (w : World R) :
  updatePhysics (translate d w) = translate d (updatePhysics w).
Proof.
  rewrite !updatePhysics_stages.
  assert (Ea : adjustedAcceleration (this (translate d w))
               = adjustedAcceleration (this w)).
  { unfold adjustedAcceleration, translate. cbn. f_equal; ring. }
  assert (Ed : dampenedVelocity (this (translate d w))
               = dampenedVelocity (this w)).
  { unfold dampenedVelocity. rewrite Ea. reflexivity. }
  rewrite Ea, Ed. apply applyMotion_translate.
Qed.

End IdealStep.

(** ** What a step leaves in the animation state *)

Section StepResults.

Context {N : Type} `{JSNumber N}.

Local Open Scope js_scope.

Lemma applyMotion_results (a v : Vector2 N) (w : World N) :
  position (this (applyMotion a v w))
  = Vector2.mk (Vector2.x (position (this w)) + Vector2.x v)
               (Vector2.y (position (this w)) + Vector2.y v)
  /\ velocity (this (applyMotion a v w)) = v
  /\ acceleration (this (applyMotion a v w)) = a
  /\ config (this (applyMotion a v w)) = config (this w)
  /\ scale (animationState (this (applyMotion a v w)))
     = baseScale (config (this w))
       * Math_max (lit 0.9) (lit 1 - magnitude v * lit 0.001)
  /\ direction (animationState (this (applyMotion a v w)))
     = (if Math_abs (Vector2.x v) >? lit 0.1
        then if Vector2.x v >? lit 0 then lit 1 else lit (-1)
        else direction (animationState (this w)))
  /\ now (host (applyMotion a v w)) = now (host w)
  /\ ((magnitude v >? flappingThreshold (config (this w))) = true ->
      isFlapping (animationState (this (applyMotion a v w))) = true
      /\ flapIntensity (animationState (this (applyMotion a v w)))
         = Math_min (lit 1.5) (magnitude v / flappingThreshold (config (this w)))
      /\ timeouts (host (applyMotion a v w)) = timeouts (host w))
  /\ ((magnitude v >? flappingThreshold (config (this w))) = false ->
      isFlapping (animationState (this (applyMotion a v w)))
      = isFlapping (animationState (this w))
      /\ flapIntensity (animationState (this (applyMotion a v w)))
         = flapIntensity (animationState (this w))
      /\ timeouts (host (applyMotion a v w))
         = timeouts (host w) ++ [((now (host w) + 150)%Z, magnitude v)]).
Proof.
  unfold applyMotion, updateFlapping, magnitude.
  cbn [this host config with_this set_animationState set_motion set_direction
       animationState].
  destruct (Math_sqrt (pow2 (Vector2.x v) + pow2 (Vector2.y v))
            >? flappingThreshold (config (this w))); cbn;
    repeat split; try reflexivity; discriminate.
Qed.

(** The flapping part of a step, in terms of the speed the step leaves. *)
Lemma updatePhysics_check (w : World N) :
  let m := magnitude (velocity (this (updatePhysics w))) in
  let threshold := flappingThreshold (config (this w)) in
  ((m >? threshold) = true ->
   isFlapping (animationState (this (updatePhysics w))) = true
   /\ flapIntensity (animationState (this (updatePhysics w)))
      = Math_min (lit 1.5) (m / threshold)
   /\ timeouts (host (updatePhysics w)) = timeouts (host w))
  /\ ((m >? threshold) = false ->
      isFlapping (animationState (this (updatePhysics w)))
      = isFlapping (animationState (this w))
      /\ flapIntensity (animationState (this (updatePhysics w)))
         = flapIntensity (animationState (this w))
      /\ timeouts (host (updatePhysics w))
         = timeouts (host w) ++ [((now (host w) + 150)%Z, m)]).
Proof.
  intros m threshold. subst m threshold.
  destruct (updatePhysics_motion w) as (_ & Ev & _). rewrite Ev.
  rewrite updatePhysics_stages.
  destruct (applyMotion_results (adjustedAcceleration (this w))
              (limitMaximumSpeed (maxSpeed (config (this w)))
                 (dampenedVelocity (this w))) w)
    as (_ & _ & _ & _ & _ & _ & _ & Hon & Hoff).
  split; assumption.
Qed.

(** X14.  A physics step hands [updateFlapping] the speed it has just
    computed, the magnitude of the limited velocity.  If that exceeds
    [flappingThreshold] the step sets [isFlapping] and the intensity and
    schedules nothing; otherwise it leaves both as they were and schedules
    exactly one check, due 150 ms later, that holds that speed. *)
Theorem step_schedules_one_check (w : World N) :
  let m := magnitude (velocity (this (updatePhysics w))) in
  let threshold := flappingThreshold (config (this w)) in
  ((m >? threshold) = true ->
   isFlapping (animationState (this (updatePhysics w))) = true
   /\ flapIntensity (animationState (this (updatePhysics w)))
      = Math_min (lit 1.5) (m / threshold)
   /\ timeouts (host (updatePhysics w)) = timeouts (host w))
  /\ ((m >? threshold) = false ->
      isFlapping (animationState (this (updatePhysics w)))
      = isFlapping (animationState (this w))
      /\ flapIntensity (animationState (this (updatePhysics w)))
         = flapIntensity (animationState (this w))
      /\ timeouts (host (updatePhysics w))
         = timeouts (host w) ++ [((now (host w) + 150)%Z, m)]).
Proof. exact (updatePhysics_check w). Qed.

End StepResults.

Lemma step_schedules_one_check_witness :
  timeouts (host (updatePhysics (Sample.fresh (N:=float)))) = [(150%Z, 0%float)]
  /\ isFlapping
       (animationState
          (this (updatePhysics
                   (Sample.along defaultConfig 0%float 100%float 0%float 30%float))))
     = true.
Proof.
  split.
  - destruct (step_schedules_one_check (N:=float) Sample.fresh) as [_ Hoff].
    destruct Hoff as (_ & _ & Ht); [vm_compute; reflexivity|].
    rewrite Ht. vm_compute. reflexivity.
  - destruct (step_schedules_one_check (N:=float)
                (Sample.along defaultConfig 0%float 100%float 0%float 30%float))
      as [Hon _].
    destruct Hon as (Hf & _); [vm_compute; reflexivity|]. exact Hf.
Defined.

(** ** More on the physics step over the reals *)

Module IdealFacts.

Local Open Scope R_scope.

Lemma magnitude_triangle (u v : Vector2 R) :
  magnitude (Vector2.mk (Vector2.x u + Vector2.x v) (Vector2.y u + Vector2.y v))
  <= magnitude u + magnitude v.
Proof.
  pose proof (Ideal.magnitude_nonneg u) as Hu.
  pose proof (Ideal.magnitude_nonneg v) as Hv.
  pose proof (Ideal.magnitude_sqr u) as Su.
  pose proof (Ideal.magnitude_sqr v) as Sv.
  apply Ideal.magnitude_le; [lra|]. cbn [Vector2.x Vector2.y].
  destruct u as [ux uy], v as [vx vy]. cbn [Vector2.x Vector2.y] in *.
  set (A := magnitude (Vector2.mk ux uy)) in *.
  set (B := magnitude (Vector2.mk vx vy)) in *. clearbody A B.
  assert (Hcs : (ux * vx + uy * vy) * (ux * vx + uy * vy) <= (A * B) * (A * B)).
  { pose proof (Rle_0_sqr (ux * vy - uy * vx)) as Hsq. unfold Rsqr in Hsq.
    replace (A * B * (A * B)) with ((A * A) * (B * B)) by ring.
    rewrite Su, Sv. nra. }
  assert (Hdot : ux * vx + uy * vy <= A * B).
  { destruct (Rle_dec (ux * vx + uy * vy) (A * B)) as [Hle|Hgt]; [exact Hle|].
    exfalso. assert (0 <= A * B) by nra. nra. }
  nra.
Qed.

Lemma magnitude_zero : magnitude (Vector2.mk 0 0) = 0.
Proof.
  rewrite Ideal.magnitude_eq. cbn [Vector2.x Vector2.y].
  replace (0 * 0 + 0 * 0) with 0 by ring. apply sqrt_0.
Qed.

(** The step, stage by stage, with the limited velocity bounded. *)
Lemma step_velocity_bound (w : World R) :
  0 <= maxSpeed (config (this w)) ->
  magnitude (velocity (this (updatePhysics w))) <= maxSpeed (config (this w)).
Proof.
  intros HM. destruct (updatePhysics_motion w) as (_ & Ev & _).
  rewrite Ev. apply Ideal.limit_bound. exact HM.
Qed.

Lemma ticks_displacement (w : World R) (n : nat) :
  0 <= maxSpeed (config (this w)) ->
  magnitude
    (Vector2.mk
       (Vector2.x (position (this (ticks n w))) - Vector2.x (position (this w)))
       (Vector2.y (position (this (ticks n w))) - Vector2.y (position (this w))))
  <= INR n * maxSpeed (config (this w)).
Proof.
  intros HM. induction n as [|n IH].
  - change (ticks 0 w) with w. cbn [INR].
    replace (Vector2.x (position (this w)) - Vector2.x (position (this w)))
      with 0 by ring.
    replace (Vector2.y (position (this w)) - Vector2.y (position (this w)))
      with 0 by ring.
    rewrite magnitude_zero. lra.
  - rewrite S_INR, ticks_S.
    destruct (updatePhysics_motion (ticks n w)) as (_ & _ & Ep & _).
    destruct (ticks_config_target n w) as [Hc _].
    pose proof (step_velocity_bound (ticks n w)) as Hv. rewrite Hc in Hv.
    specialize (Hv HM).
    rewrite Ep. cbn [Vector2.x Vector2.y add ideal].
    set (v := velocity (this (updatePhysics (ticks n w)))) in *.
    set (p := position (this (ticks n w))) in *.
    set (p0 := position (this w)) in *.
    pose proof (magnitude_triangle
                  (Vector2.mk (Vector2.x p - Vector2.x p0) (Vector2.y p - Vector2.y p0))
                  v) as Ht.
    cbn [Vector2.x Vector2.y] in Ht.
    replace (Vector2.x p + Vector2.x v - Vector2.x p0)
      with (Vector2.x p - Vector2.x p0 + Vector2.x v) by ring.
    replace (Vector2.y p + Vector2.y v - Vector2.y p0)
      with (Vector2.y p - Vector2.y p0 + Vector2.y v) by ring.
    lra.
Qed.

End IdealFacts.




Module IdealState.

Local Open Scope R_scope.

Lemma literals :
  Q2R 0.1 = 1 / 10 /\ Q2R 0.9 = 9 / 10 /\ Q2R 1 = 1 /\ Q2R 0.001 = 1 / 1000
  /\ Q2R 1.5 = 3 / 2 /\ Q2R (-1) = -1 /\ Q2R 0 = 0.
Proof. unfold Q2R. cbn. repeat split; lra. Qed.

Lemma gt_true (a b : R) : (a >? b)%js = true -> b < a.
Proof. cbn. destruct (Rlt_dec b a); [auto | discriminate]. Qed.

(** A motion the step leaves as it is, is rest on the target. *)
Lemma fixed_point_rest (w : World R) :
  0 < maxSpeed (config (this w)) ->
  springStrength (config (this w)) <> 0 ->
  dampening (config (this w)) <> 0 ->
  accelerationRate (config (this w)) <> 0 ->
  position (this (updatePhysics w)) = position (this w) ->
  velocity (this (updatePhysics w)) = velocity (this w) ->
  acceleration (this (updatePhysics w)) = acceleration (this w) ->
  atRest w.
Proof.
  intros HM Hk Hd Hr Hp Hv Ha.
  destruct literals as (Q01 & _).
  destruct (updatePhysics_motion w) as (Ea & Ev & Ep & _).
  rewrite Hp, Hv in Ep. rewrite Hv in Ev. rewrite Ha in Ea.
  assert (V0 : velocity (this w) = Vector2.mk 0 0).
  { destruct (position (this w)) as [px py], (velocity (this w)) as [vx vy].
    cbn [Vector2.x Vector2.y add ideal] in Ep. injection Ep as Ex Ey.
    f_equal; lra. }
  assert (D0 : dampenedVelocity (this w) = Vector2.mk 0 0).
  { destruct (Rlt_dec (maxSpeed (config (this w)))
                (magnitude (dampenedVelocity (this w)))) as [Hlt|Hge].
    - exfalso.
      pose proof (Ideal.limit_active_magnitude _ _ (Rlt_le _ _ HM) Hlt) as Em.
      rewrite <- Ev, V0, IdealFacts.magnitude_zero in Em. lra.
    - rewrite Ideal.limit_inactive in Ev by lra. rewrite <- Ev. exact V0. }
  assert (A0 : acceleration (this w) = Vector2.mk 0 0).
  { unfold dampenedVelocity in D0. rewrite <- Ea, V0 in D0.
    destruct (acceleration (this w)) as [ax ay].
    cbn [Vector2.x Vector2.y add mul ideal] in D0. injection D0 as Ex Ey.
    assert (ax * springStrength (config (this w)) = 0) by nra.
    assert (ay * springStrength (config (this w)) = 0) by nra.
    f_equal; nra. }
  split; [|split; assumption].
  unfold adjustedAcceleration in Ea. rewrite A0 in Ea.
  destruct (position (this w)) as [px py], (target (this w)) as [tx ty].
  cbn [Vector2.x Vector2.y add sub mul lit ideal] in Ea. rewrite Q01 in Ea.
  injection Ea as Ex Ey.
  assert ((tx - px) * accelerationRate (config (this w)) = 0) by lra.
  assert ((ty - py) * accelerationRate (config (this w)) = 0) by lra.
  f_equal; nra.
Qed.

(** *** Ranges *)

Lemma inRange_ext (w w' : World R) :
  animationState (this w') = animationState (this w) ->
  config (this w') = config (this w) ->
  inRange w -> inRange w'.
Proof. unfold inRange. intros -> ->. auto. Qed.

Lemma applyMotion_inRange (a v : Vector2 R) (w : World R) :
  0 < flappingThreshold (config (this w)) ->
  0 <= baseScale (config (this w)) ->
  inRange w -> inRange (applyMotion a v w).
Proof.
  intros Ht Hb (Hdir & Hfi & Hsc).
  destruct literals as (Q01 & Q09 & Q1 & Q0001 & Q15 & Qm1 & Q0).
  destruct (applyMotion_results a v w)
    as (_ & _ & _ & Ec & Es & Ed & _ & Hon & Hoff).
  pose proof (Ideal.magnitude_nonneg v) as Hm.
  unfold inRange. rewrite Ec, Es, Ed. split; [|split].
  - destruct (_ >? _)%js; [|exact Hdir].
    destruct (_ >? _)%js; [left; exact Q1 | right; exact Qm1].
  - destruct (magnitude v >? flappingThreshold (config (this w)))%js eqn:E.
    + destruct (Hon eq_refl) as (_ & -> & _). apply gt_true in E.
      assert (H1 : 1 < magnitude v / flappingThreshold (config (this w))).
      { apply Rmult_lt_reg_r with (flappingThreshold (config (this w))); [exact Ht|].
        unfold Rdiv. rewrite Rmult_assoc, Rinv_l by lra. lra. }
      cbn [Math_min lit div ideal]. rewrite Q15. unfold Rmin.
      destruct (Rle_dec _ _); lra.
    + destruct (Hoff eq_refl) as (_ & -> & _). exact Hfi.
  - cbn [Math_max lit mul sub ideal]. rewrite Q09, Q1, Q0001.
    rewrite Ideal.magnitude_eq in Hm |- *. set (m := sqrt _) in *. unfold Rmax.
    destruct (Rle_dec _ _); nra.
Qed.

Lemma updatePhysics_inRange (w : World R) :
  0 < flappingThreshold (config (this w)) ->
  0 <= baseScale (config (this w)) ->
  inRange w -> inRange (updatePhysics w).
Proof. rewrite updatePhysics_stages. apply applyMotion_inRange. Qed.

Lemma happen_inRange (e : HostEvent R) (w : World R) :
  0 < flappingThreshold (config (this w)) ->
  0 <= baseScale (config (this w)) ->
  inRange w ->
  inRange (happen e w) /\ config (this (happen e w)) = config (this w).
Proof.
  intros Ht Hb Hr. destruct e; cbn [happen].
  - apply (runFrame_ind
             (fun w' => inRange w' /\ config (this w') = config (this w))).
    + split; [exact Hr | reflexivity].
    + intros w' [Hr' Hc'].
      destruct (animate_keeps w') as (Kc & _ & _ & _ & _ & _ & _ & _ & _ & _ & Ka).
      destruct (updatePhysics_keeps w') as (Uc & _).
      split; [|rewrite Kc; exact Hc'].
      apply (inRange_ext (updatePhysics w')); [exact Ka | rewrite Kc, Uc; reflexivity|].
      apply updatePhysics_inRange; [rewrite Hc'; exact Ht | rewrite Hc'; exact Hb | exact Hr'].
  - unfold runTimeouts.
    apply (runChecks_ind
             (fun w' => inRange w' /\ config (this w') = config (this w))).
    + split; [exact Hr | reflexivity].
    + intros v w' [Hr' Hc']. unfold flappingTimeout.
      destruct (_ <=? _)%js; [|split; [exact Hr' | exact Hc']].
      split; [|exact Hc']. destruct Hr' as (Hd' & Hf' & Hs').
      unfold inRange.
      cbn [this animationState config with_this set_animationState set_flapping
           direction flapIntensity scale lit ideal].
      destruct literals as (_ & _ & Q1 & _). rewrite Q1.
      split; [exact Hd' | split; [lra | exact Hs']].
  - unfold mousemove. destruct (mousemoveListeners (host w));
      (split; [exact Hr | reflexivity]).
  - split; [exact Hr | reflexivity].
Qed.

(** *** Idle frames *)

Lemma rest_step_check (w : World R) :
  0 <= maxSpeed (config (this w)) ->
  0 <= flappingThreshold (config (this w)) ->
  atRest w ->
  atRest (updatePhysics w)
  /\ timeouts (host (updatePhysics w))
     = timeouts (host w) ++ [((now (host w) + 150)%Z, 0)]
  /\ now (host (updatePhysics w)) = now (host w)
  /\ isFlapping (animationState (this (updatePhysics w)))
     = isFlapping (animationState (this w)).
Proof.
  intros HM Ht (Hp & Hv & Ha).
  destruct (rest_ideal w HM Hp Hv Ha) as (Ep & Ev & Ea).
  destruct (updatePhysics_keeps w) as (_ & Kt & _).
  destruct (updatePhysics_host w) as [q Eh].
  pose proof (updatePhysics_check w) as [_ Hoff]. cbv zeta in Hoff.
  rewrite Ev, Hv, IdealFacts.magnitude_zero in Hoff.
  destruct Hoff as (Ef & _ & Eq).
  { cbn. destruct (Rlt_dec _ _); [lra | reflexivity]. }
  split; [|split; [exact Eq | split; [rewrite Eh; reflexivity | exact Ef]]].
  unfold atRest. rewrite Ep, Ev, Ea, Kt. repeat split; assumption.
Qed.

End IdealState.





(** X19.  Over the reals, with [maxSpeed] and [flappingThreshold] not
    negative, a bird at rest on its target stays at rest, and every step
    schedules one more check of a zero speed, due 150 ms after the step; the
    flapping flag is not touched.  After [n] idle steps [n] checks have been
    added to the timer queue. *)
Theorem idle_steps_schedule_checks (w : World R) (n : nat) :
  (0 <= maxSpeed (config (this w)))%R ->
  (0 <= flappingThreshold (config (this w)))%R ->
  atRest w ->
  atRest (ticks n w)
  /\ timeouts (host (ticks n w))
     = timeouts (host w) ++ repeat ((now (host w) + 150)%Z, 0%R) n
  /\ isFlapping (animationState (this (ticks n w)))
     = isFlapping (animationState (this w)).
Proof.
  intros HM Ht Hr.
  assert (K : atRest (ticks n w)
              /\ timeouts (host (ticks n w))
                 = timeouts (host w) ++ repeat ((now (host w) + 150)%Z, 0%R) n
              /\ isFlapping (animationState (this (ticks n w)))
                 = isFlapping (animationState (this w))
              /\ now (host (ticks n w)) = now (host w)).
  { induction n as [|n (IHr & IHq & IHf & IHn)].
    - change (ticks 0 w) with w. cbn [repeat]. rewrite app_nil_r. auto.
    - rewrite ticks_S.
      destruct (ticks_config_target n w) as [Hc _].
      destruct (IdealState.rest_step_check (ticks n w)) as (Sr & Sq & Sn & Sf).
      + rewrite Hc. exact HM.
      + rewrite Hc. exact Ht.
      + exact IHr.
      + split; [exact Sr|]. split; [|split].
        * rewrite Sq, IHq, IHn, <- app_assoc. f_equal.
          change ([((now (host w) + 150)%Z, 0%R)])
            with (repeat ((now (host w) + 150)%Z, 0%R) 1).
          rewrite <- repeat_app. f_equal. lia.
        * rewrite Sf. exact IHf.
        * rewrite Sn. exact IHn. }
  destruct K as (K1 & K2 & K3 & _). auto.
Qed.

Lemma idle_steps_schedule_checks_witness :
  let w : World R := Sample.along defaultConfig 5%R 5%R 0%R 0%R in
  length (timeouts (host (ticks 60 w))) = 60.
Proof.
  intros w.
  destruct IdealState.literals as (_ & _ & _ & _ & _ & _ & Q0).
  destruct (idle_steps_schedule_checks w 60) as (_ & Eq & _).
  - cbn. unfold Q2R. cbn. lra.
  - cbn. unfold Q2R. cbn. lra.
  - unfold atRest, w. cbn. rewrite Q0. repeat split.
  - rewrite Eq. cbn [w Sample.along host Sample.page timeouts app].
    apply repeat_length.
Defined.

(** ** NaN, in double arithmetic *)

Module NaN64.

Import FloatAxioms.

Lemma add_l (a b : float) : isNaN a -> isNaN (PrimFloat.add a b).
Proof. unfold isNaN. intros E. rewrite add_spec, E. reflexivity. Qed.

Lemma add_r (a b : float) : isNaN b -> isNaN (PrimFloat.add a b).
Proof.
  unfold isNaN. intros E. rewrite add_spec, E.
  destruct (Prim2SF a); reflexivity.
Qed.

Lemma sub_l (a b : float) : isNaN a -> isNaN (PrimFloat.sub a b).
Proof. unfold isNaN. intros E. rewrite sub_spec, E. reflexivity. Qed.

Lemma mul_l (a b : float) : isNaN a -> isNaN (PrimFloat.mul a b).
Proof. unfold isNaN. intros E. rewrite mul_spec, E. reflexivity. Qed.

Lemma sqrt_nan (a : float) : isNaN a -> isNaN (PrimFloat.sqrt a).
Proof. unfold isNaN. intros E. rewrite sqrt_spec, E. reflexivity. Qed.

Lemma ltb_r (a b : float) : isNaN b -> PrimFloat.ltb a b = false.
Proof.
  unfold isNaN. intros E. rewrite ltb_spec, E. unfold SFltb.
  destruct (Prim2SF a); reflexivity.
Qed.

(** The speed limit lets a velocity with a NaN coordinate through as it
    is: its length is NaN, and no comparison with NaN holds. *)
Lemma limit_broken (M : float) (v : Vector2 float) :
  broken v -> limitMaximumSpeed M v = v.
Proof.
  intros Hv. unfold limitMaximumSpeed. cbn [gt Math_sqrt add pow2 mul binary64].
  rewrite ltb_r; [reflexivity|].
  apply sqrt_nan. destruct Hv as [Hx|Hy].
  - apply add_l, mul_l, Hx.
  - apply add_r, mul_l, Hy.
Qed.

Lemma step_x (w : World float) :
  isNaN (Vector2.x (target (this w))) \/ isNaN (Vector2.x (position (this w))) ->
  isNaN (Vector2.x (position (this (updatePhysics w)))).
Proof.
  intros Hn.
  destruct (updatePhysics_motion w) as (_ & Ev & Ep & _).
  rewrite Ep. cbn [Vector2.x add binary64].
  destruct Hn as [Ht|Hp]; [|apply add_l; exact Hp].
  apply add_r. rewrite Ev.
  assert (Hd : isNaN (Vector2.x (dampenedVelocity (this w)))).
  { unfold dampenedVelocity, adjustedAcceleration.
    cbn [Vector2.x add sub mul binary64].
    apply mul_l, add_r, mul_l, add_r, mul_l, sub_l, mul_l, sub_l, Ht. }
  rewrite limit_broken; [exact Hd | left; exact Hd].
Qed.

Lemma step_y (w : World float) :
  isNaN (Vector2.y (target (this w))) \/ isNaN (Vector2.y (position (this w))) ->
  isNaN (Vector2.y (position (this (updatePhysics w)))).
Proof.
  intros Hn.
  destruct (updatePhysics_motion w) as (_ & Ev & Ep & _).
  rewrite Ep. cbn [Vector2.y add binary64].
  destruct Hn as [Ht|Hp]; [|apply add_l; exact Hp].
  apply add_r. rewrite Ev.
  assert (Hd : isNaN (Vector2.y (dampenedVelocity (this w)))).
  { unfold dampenedVelocity, adjustedAcceleration.
    cbn [Vector2.y add sub mul binary64].
    apply mul_l, add_r, mul_l, add_r, mul_l, sub_l, mul_l, sub_l, Ht. }
  rewrite limit_broken; [exact Hd | right; exact Hd].
Qed.

Lemma step_broken (w : World float) :
  broken (target (this w)) \/ broken (position (this w)) ->
  broken (position (this (updatePhysics w))).
Proof.
  intros [[Hx|Hy]|[Hx|Hy]].
  - left. apply step_x. left. exact Hx.
  - right. apply step_y. left. exact Hy.
  - left. apply step_x. right. exact Hx.
  - right. apply step_y. right. exact Hy.
Qed.

Lemma happen_broken (e : HostEvent float) (w : World float) :
  broken (position (this w)) -> broken (position (this (happen e w))).
Proof.
  intros Hb. destruct e; cbn [happen].
  - apply (runFrame_ind (fun w' => broken (position (this w')))).
    + exact Hb.
    + intros w' Hw'.
      destruct (animate_keeps w') as (_ & _ & _ & _ & _ & _ & _ & Kp & _).
      rewrite Kp. apply step_broken. right. exact Hw'.
  - unfold runTimeouts.
    apply (runChecks_this (fun s => broken (position s))); [auto | exact Hb].
  - unfold mousemove. destruct (mousemoveListeners (host w)); exact Hb.
  - exact Hb.
Qed.

End NaN64.

(** X20.  In double arithmetic NaN is never caught.  If a coordinate of the
    target is NaN when a physics step runs, the position has a NaN coordinate
    after the step, and it keeps one through every later frame, timer phase,
    mouse move and delay, also when later mouse moves bring proper
    coordinates: nothing but a new [setupEventListeners] writes the position
    afresh. *)
Theorem nan_target_breaks_the_position
    (es : list (HostEvent float)) (w : World float) :
  broken (target (this w)) ->
  broken (position (this (happenings es (updatePhysics w)))).
Proof.
  intros Ht.
  apply (happenings_ind (fun w' => broken (position (this w')))).
  - apply NaN64.step_broken. left. exact Ht.
  - intros e w' Hw'. apply NaN64.happen_broken. exact Hw'.
Qed.

Lemma nan_target_breaks_the_position_witness :
  let w : World float :=
    Sample.along defaultConfig 0%float PrimFloat.nan 0%float 0%float in
  broken (position (this (happenings
                            [Mousemove 5%float 5%float; Frame; Timers]
                            (updatePhysics w)))).
Proof.
  intros w. apply nan_target_breaks_the_position.
  left. reflexivity.
Defined.

(** ** Who writes the configuration and the target *)

Section ConfigWriters.

Context {N : Type} `{JSNumber N}.

Ltac simple_method :=
  unfold setPreset, setTheme, updatePhysicsConfig, destroy, render,
    updateAnimation, updateFlapping, setupEventListeners;
  repeat match goal with
         | |- context [match ?x with _ => _ end] => destruct x
         end;
  reflexivity.

Lemma act_config (a : Action N) (w : World N) :
  writesConfig a = false -> config (this (act a w)) = config (this w).
Proof.
  intros Ha. destruct a as [c|e]; cbn [act].
  - destruct c; cbn [call]; try discriminate Ha; try simple_method.
    + apply init_keeps.
    + apply animate_keeps.
    + apply updatePhysics_keeps.
  - destruct e; cbn [happen]; try reflexivity.
    + apply (runFrame_ind (fun w' => config (this w') = config (this w))).
      * reflexivity.
      * intros w' E. destruct (animate_keeps w') as (Kc & _).
        rewrite Kc. exact E.
    + unfold runTimeouts. rewrite runChecks_config. reflexivity.
    + unfold mousemove. destruct (mousemoveListeners (host w)); reflexivity.
Qed.

Lemma act_target (a : Action N) (w : World N) :
  writesTarget a = false -> target (this (act a w)) = target (this w).
Proof.
  intros Ha. destruct a as [c|e]; cbn [act].
  - destruct c; cbn [call]; try discriminate Ha; try simple_method.
    + apply animate_keeps.
    + apply updatePhysics_keeps.
  - destruct e; cbn [happen]; try discriminate Ha; try reflexivity.
    + apply (runFrame_ind (fun w' => target (this w') = target (this w))).
      * reflexivity.
      * intros w' E. destruct (animate_keeps w') as (_ & Kt & _).
        rewrite Kt. exact E.
    + unfold runTimeouts.
      apply (runChecks_this (fun s => target s = target (this w)));
        [auto | reflexivity].
Qed.

(** X21.  The configuration is written by [setPreset] and
    [updatePhysicsConfig] and by nothing else: over any sequence of other
    calls and of events it stays as it is. *)
Theorem config_has_two_writers (l : list (Action N)) (w : World N) :
  forallb (fun a => negb (writesConfig a)) l = true ->
  config (this (acts l w)) = config (this w).
Proof.
  intros Hl. unfold acts. revert w.
  induction l as [|a l IH]; intros w; simpl; [reflexivity|].
  simpl in Hl. apply andb_true_iff in Hl as [Ha Hl].
  rewrite (IH Hl). apply act_config. apply negb_true_iff. exact Ha.
Qed.

(** X22.  The target is written by mouse moves and by
    [setupEventListeners] (which [init] calls) and by nothing else: over any
    sequence of other calls and events it stays as it is. *)
Theorem target_follows_the_mouse_only (l : list (Action N)) (w : World N) :
  forallb (fun a => negb (writesTarget a)) l = true ->
  target (this (acts l w)) = target (this w).
Proof.
  intros Hl. unfold acts. revert w.
  induction l as [|a l IH]; intros w; simpl; [reflexivity|].
  simpl in Hl. apply andb_true_iff in Hl as [Ha Hl].
  rewrite (IH Hl). apply act_target. apply negb_true_iff. exact Ha.
Qed.

End ConfigWriters.

Lemma config_has_two_writers_witness :
  let w : World float := world_of (init Sample.fresh) in
  config (this (acts [Host_ Frame; Method (Call_setTheme "robin");
                      Host_ (Mousemove 1%float 2%float); Host_ Frame;
                      Method Call_destroy; Method Call_init] w))
  = config (this w).
Proof.
  intros w. apply (config_has_two_writers (N:=float)). reflexivity.
Defined.

Lemma target_follows_the_mouse_only_witness :
  let w : World float := world_of (init Sample.fresh) in
  target (this (acts [Host_ Frame; Method (Call_setPreset "gentle");
                      Host_ Timers; Host_ Frame; Method Call_destroy] w))
  = target (this w).
Proof.
  intros w. apply (target_follows_the_mouse_only (N:=float)). reflexivity.
Defined.

(** ** [destroy], twice *)

Section Destroy.

Context {N : Type} `{JSNumber N}.

Lemma filter_twice (h : positive) (l : list positive) :
  filter (fun h' => h' ≠ h) (filter (fun h' => h' ≠ h) l)
  = filter (fun h' => h' ≠ h) l.
Proof.
  induction l as [|x l IH]; [reflexivity|].
  destruct (decide (x ≠ h)) as [Hx|Hx].
  - rewrite (filter_cons_True _ x l Hx).
    rewrite (filter_cons_True _ x _ Hx). rewrite IH. reflexivity.
  - rewrite (filter_cons_False _ x l Hx). exact IH.
Qed.


End Destroy.

(** * The global instance and the controls *)

Section ScriptFacts.

Context {N : Type} `{JSNumber N}.

Variable parseFloat : option string -> N.

Lemma page_ext (g g' : Page N) :
  BirdCursor g = BirdCursor g' -> assigned g = assigned g' ->
  loading g = loading g' -> DOMContentLoaded g = DOMContentLoaded g' ->
  elementsById g = elementsById g' -> g = g'.
Proof. destruct g, g'. cbn. intros. subst. reflexivity. Qed.

(** Before the assignment the global instance behaves as any instance of
    the class. *)
Lemma BirdCursor_animate_class (g : Page N) :
  assigned g = false ->
  BirdCursor_animate parseFloat g
  = match animate (BirdCursor g) with
    | Normal w => Normal (set_instance w g)
    | Throw w => Throw (set_instance w g)
    end.
Proof.
  intros Ha. unfold BirdCursor_animate, BirdCursor_updatePhysics, animate.
  rewrite Ha. cbn [with_instance set_instance BirdCursor].
  destruct (updateAnimation (updatePhysics (BirdCursor g))); reflexivity.
Qed.

Lemma BirdCursor_init_class (g : Page N) :
  assigned g = false ->
  BirdCursor_init parseFloat g
  = match init (BirdCursor g) with
    | Normal w => Normal (set_instance w g)
    | Throw w => Throw (set_instance w g)
    end.
Proof.
  intros Ha. unfold BirdCursor_init, init, startAnimation.
  destruct (isInitialized (this (BirdCursor g))).
  - f_equal. apply page_ext; reflexivity.
  - destruct (negb (hasBird (host (BirdCursor g)))
              || negb (hasBird (host (BirdCursor g))
                       && hasContainer (host (BirdCursor g)))); [reflexivity|].
    rewrite BirdCursor_animate_class by exact Ha.
    cbn [set_instance BirdCursor].
    destruct (animate _); reflexivity.
Qed.

(** [init] returns whatever the instance: the elements it needs are the
    ones it has just looked up. *)
Lemma init_returns (w : World N) : exists w', init w = Normal w'.
Proof.
  unfold init. destruct (isInitialized (this w)); [eexists; reflexivity|].
  destruct (hasBird (host w)), (hasContainer (host w)); cbn;
    try (eexists; reflexivity).
  unfold startAnimation.
  destruct (animate_returns
              (setupEventListeners (with_this (set_elements true true) w))
              eq_refl eq_refl) as (b & c & E).
  rewrite E. eexists; reflexivity.
Qed.

(** *** Once the functions are assigned, nothing moves the bird *)

Lemma steady_instance (v a p c : Vector2 N) (iw ih : N) (g : Page N) (w : World N) :
  steady v a p c iw ih g ->
  velocity (this w) = velocity (this (BirdCursor g)) ->
  acceleration (this w) = acceleration (this (BirdCursor g)) ->
  position (this w) = position (this (BirdCursor g)) ->
  innerWidth (host w) = innerWidth (host (BirdCursor g)) ->
  innerHeight (host w) = innerHeight (host (BirdCursor g)) ->
  steady v a p c iw ih (set_instance w g).
Proof.
  intros (Ha & Hv & Hac & Hp & Hw & Hh) Ev Ea Ep Ew Eh.
  unfold steady. cbn [set_instance BirdCursor assigned].
  rewrite Ev, Ea, Ep, Ew, Eh. repeat split; assumption.
Qed.

Lemma controls_updatePhysics_steady (v a p c : Vector2 N) (iw ih : N) (g : Page N) :
  steady v a p c iw ih g ->
  steady v a p c iw ih (world_of (controls_updatePhysics parseFloat g)).
Proof.
  intros Hs. unfold controls_updatePhysics, sliderValue, showValue.
  repeat match goal with
         | |- context [match ?m !! ?k with _ => _ end] => destruct (m !! k)
         end; cbn [world_of]; try exact Hs; exact Hs.
Qed.

Lemma controls_updateScale_steady (v a p c : Vector2 N) (iw ih : N) (g : Page N) :
  steady v a p c iw ih g ->
  steady v a p c iw ih (world_of (controls_updateScale parseFloat g)).
Proof.
  intros Hs. unfold controls_updateScale, sliderValue, showValue.
  repeat match goal with
         | |- context [match ?m !! ?k with _ => _ end] => destruct (m !! k)
         end; cbn [world_of]; exact Hs.
Qed.

Lemma BirdCursor_animate_steady (v a p c : Vector2 N) (iw ih : N) (g : Page N) :
  steady v a p c iw ih g ->
  steady v a p c iw ih (world_of (BirdCursor_animate parseFloat g)).
Proof.
  intros Hs. unfold BirdCursor_animate, BirdCursor_updatePhysics.
  rewrite (proj1 Hs).
  pose proof (controls_updatePhysics_steady v a p c iw ih g Hs) as H1.
  destruct (controls_updatePhysics parseFloat g) as [g1|g1]; cbn [world_of] in *;
    [|exact H1].
  destruct (updateAnimation_nodes (BirdCursor g1)) as (b1 & c1 & E1).
  destruct (updateAnimation (BirdCursor g1)) as [w2|w2]; cbn [world_of] in *;
    subst w2.
  - destruct (render_nodes (with_host (set_nodes b1 c1) (BirdCursor g1)))
      as (b2 & c2 & E2).
    rewrite E2. apply steady_instance; [exact H1 | reflexivity ..].
  - apply steady_instance; [exact H1 | reflexivity ..].
Qed.

Lemma BirdCursor_init_steady (v a p : Vector2 N) (iw ih : N) (g : Page N) :
  steady v a p (Vector2.mk (iw / lit 2)%js (ih / lit 2)%js) iw ih g ->
  steady v a p (Vector2.mk (iw / lit 2)%js (ih / lit 2)%js) iw ih
    (world_of (BirdCursor_init parseFloat g)).
Proof.
  intros Hs. unfold BirdCursor_init.
  destruct (isInitialized (this (BirdCursor g))); [exact Hs|].
  destruct (negb (hasBird (host (BirdCursor g)))
            || negb (hasBird (host (BirdCursor g))
                     && hasContainer (host (BirdCursor g)))).
  - cbn [world_of]. apply steady_instance; [exact Hs | reflexivity ..].
  - set (g1 := set_instance _ g).
    assert (H1 : steady v a p (Vector2.mk (iw / lit 2)%js (ih / lit 2)%js) iw ih g1).
    { destruct Hs as (Ha & Hv & Hac & Hp & Hw & Hh).
      unfold steady, g1, setupEventListeners.
      cbn. rewrite Hw, Hh. repeat split; try assumption. right. reflexivity. }
    pose proof (BirdCursor_animate_steady _ _ _ _ _ _ g1 H1) as H2.
    destruct (BirdCursor_animate parseFloat g1) as [g2|g2]; cbn [world_of] in *.
    + unfold with_instance. apply steady_instance; [exact H2 | reflexivity ..].
    + exact H2.
Qed.

Lemma occur_steady (v a p : Vector2 N) (iw ih : N) (e : PageEvent N) (g : Page N) :
  steady v a p (Vector2.mk (iw / lit 2)%js (ih / lit 2)%js) iw ih g ->
  steady v a p (Vector2.mk (iw / lit 2)%js (ih / lit 2)%js) iw ih
    (occur parseFloat e g).
Proof.
  intros Hs. destruct e as [|e| | |k]; cbn [occur].
  - assert (H0 : steady v a p (Vector2.mk (iw / lit 2)%js (ih / lit 2)%js) iw ih
                   (set_document false (DOMContentLoaded g) g)) by exact Hs.
    generalize dependent (set_document false (DOMContentLoaded g) g).
    intros g0 H0.
    induction (DOMContentLoaded g) as [|n IH]; cbn [Nat.iter]; [exact H0|].
    apply BirdCursor_init_steady. exact IH.
  - destruct e.
    + unfold BirdCursor_runFrame.
      set (g0 := with_instance _ g).
      assert (H0 : steady v a p (Vector2.mk (iw / lit 2)%js (ih / lit 2)%js) iw ih g0)
        by exact Hs.
      clearbody g0. revert g0 H0.
      induction (frameRequests (host (BirdCursor g))) as [|r l IH];
        intros g0 H0; cbn [foldl]; [exact H0|].
      apply IH. apply BirdCursor_animate_steady. exact H0.
    + unfold with_instance. apply steady_instance; [exact Hs| | | | |];
        cbn [happen]; unfold runTimeouts; rewrite ?runChecks_host;
        try reflexivity;
        apply (runChecks_this
                 (fun s => _ s = _ (this (BirdCursor g)))); auto.
    + unfold with_instance. apply steady_instance; [exact Hs| | | | |];
        cbn [happen]; unfold mousemove;
        destruct (mousemoveListeners (host (BirdCursor g))); reflexivity.
    + unfold with_instance. apply steady_instance; [exact Hs| | | | |];
        reflexivity.
  - unfold BirdCursor_updatePhysics. rewrite (proj1 Hs).
    apply controls_updatePhysics_steady. exact Hs.
  - unfold BirdCursor_updateScale. rewrite (proj1 Hs).
    apply controls_updateScale_steady. exact Hs.
  - destruct k; cbn [BirdCursor_call].
    + apply BirdCursor_init_steady. exact Hs.
    + unfold with_instance. cbn [call].
      destruct Hs as (Ha & Hv & Hac & Hp & Hw & Hh).
      unfold steady, setupEventListeners. cbn. rewrite Hw, Hh.
      repeat split; try assumption. right. reflexivity.
    + apply BirdCursor_animate_steady. exact Hs.
    + unfold BirdCursor_updatePhysics. rewrite (proj1 Hs).
      apply controls_updatePhysics_steady. exact Hs.
    + unfold with_instance. apply steady_instance; [exact Hs| | | | |];
        cbn [call]; unfold updateFlapping; destruct (_ >? _)%js; reflexivity.
    + unfold with_instance.
      destruct (updateAnimation_nodes (BirdCursor g)) as (b1 & c1 & E1).
      cbn [call]. rewrite E1.
      apply steady_instance; [exact Hs | reflexivity ..].
    + unfold with_instance.
      destruct (render_nodes (BirdCursor g)) as (b1 & c1 & E1).
      cbn [call]. rewrite E1.
      apply steady_instance; [exact Hs | reflexivity ..].
    + unfold with_instance. apply steady_instance; [exact Hs| | | | |];
        cbn [call]; unfold setPreset;
        destruct (getProperty presets presetName); reflexivity.
    + unfold with_instance. apply steady_instance; [exact Hs| | | | |];
        cbn [call]; unfold setTheme;
        destruct (negb (containerElement (this (BirdCursor g)))); try reflexivity;
        destruct (truthy (getProperty themes themeName)); reflexivity.
    + unfold with_instance. apply steady_instance; [exact Hs | reflexivity ..].
    + unfold with_instance. apply steady_instance; [exact Hs | reflexivity ..].
    + unfold with_instance. apply steady_instance; [exact Hs| | | | |];
        cbn [call]; unfold destroy;
        destruct (animationFrame (this (BirdCursor g))); reflexivity.
Qed.

Lemma init_window (w : World N) :
  innerWidth (host (world_of (init w))) = innerWidth (host w)
  /\ innerHeight (host (world_of (init w))) = innerHeight (host w).
Proof.
  destruct (init_shape w) as [E|[E|[E|E]]]; rewrite E; cbn;
    try (split; reflexivity);
    destruct (animate_host (setupEventListeners
                              (with_this (set_elements true true) w)))
      as (b & c & q & f & n & Eh); rewrite Eh; split; reflexivity.
Qed.

(** The script runs to its end, and leaves the functions assigned. *)
Lemma script_returns (h : Host N) (isLoading : bool)
    (els : gmap string (Element N)) :
  exists g0,
    script parseFloat h isLoading els = Normal g0
    /\ assigned g0 = true
    /\ elementsById g0 = els
    /\ BirdCursor g0
       = (if isLoading then {| this := constructor; host := h |}
          else world_of (init {| this := constructor; host := h |})).
Proof.
  unfold script. cbn [loading]. destruct isLoading.
  - eexists. split; [reflexivity|]. repeat split.
  - rewrite BirdCursor_init_class by reflexivity. cbn [BirdCursor].
    destruct (init_returns {| this := constructor; host := h |}) as [w' E].
    rewrite E. eexists. split; [reflexivity|]. repeat split.
Qed.

Lemma occurs_ind (P : Page N -> Prop) (es : list (PageEvent N)) (g : Page N) :
  P g -> (forall e g, P g -> P (occur parseFloat e g)) ->
  P (occurs parseFloat es g).
Proof.
  intros H0 Hstep. unfold occurs. revert g H0.
  induction es as [|e l IH]; intros g H0; cbn [foldl].
  - exact H0.
  - apply IH. apply Hstep. exact H0.
Qed.

(** X24.  The global instance never follows the mouse.  The script always
    runs to its end and leaves [BirdCursor.updatePhysics] assigned; from then
    on the loop of that instance calls the assigned function, not the physics
    step of the class.  So whatever happens afterwards on the page (the
    document finishing to load, frames, timer phases, mouse moves, delays,
    slider calls, calls of any method of the instance), velocity and
    acceleration stay what they were when the
    script ended, and the position is the one it had then or the centre of the
    window, where [setupEventListeners] puts it.  If the document was still
    loading when the script ran, the instance it leaves is the one the
    constructor built: no physics step is ever made. *)
Theorem global_instance_never_steps (h : Host N) (isLoading : bool)
    (els : gmap string (Element N)) (es : list (PageEvent N)) :
  exists g0,
    script parseFloat h isLoading els = Normal g0
    /\ assigned g0 = true
    /\ BirdCursor g0
       = (if isLoading then {| this := constructor; host := h |}
          else world_of (init {| this := constructor; host := h |}))
    /\ velocity (this (BirdCursor (occurs parseFloat es g0)))
       = velocity (this (BirdCursor g0))
    /\ acceleration (this (BirdCursor (occurs parseFloat es g0)))
       = acceleration (this (BirdCursor g0))
    /\ (position (this (BirdCursor (occurs parseFloat es g0)))
        = position (this (BirdCursor g0))
        \/ position (this (BirdCursor (occurs parseFloat es g0))) = centre h).
Proof.
  destruct (script_returns h isLoading els) as (g0 & E & Ha & _ & Eb).
  exists g0. split; [exact E|]. split; [exact Ha|]. split; [exact Eb|].
  assert (Hw : innerWidth (host (BirdCursor g0)) = innerWidth h
               /\ innerHeight (host (BirdCursor g0)) = innerHeight h).
  { rewrite Eb. destruct isLoading; [split; reflexivity|].
    apply (init_window {| this := constructor; host := h |}). }
  destruct Hw as [Hw Hh].
  assert (Hs : steady (velocity (this (BirdCursor g0)))
                 (acceleration (this (BirdCursor g0)))
                 (position (this (BirdCursor g0))) (centre h)
                 (innerWidth h) (innerHeight h) (occurs parseFloat es g0)).
  { apply occurs_ind.
    - unfold steady. repeat split; try assumption. left. reflexivity.
    - intros e g. apply occur_steady. }
  destruct Hs as (_ & Hv & Hac & Hp & _). repeat split; assumption.
Qed.

(** *** The function for the sliders *)

Lemma sliderObject_assign (c : PhysicsConfig N) (s m b : N) :
  Object_assign c
    {[ "springStrength"%string := s; "maxSpeed"%string := m;
       "baseScale"%string := b ]}
  = {| springStrength := s; dampening := dampening c; maxSpeed := m;
       accelerationRate := accelerationRate c;
       flappingThreshold := flappingThreshold c; baseScale := b;
       otherProps := otherProps c |}.
Proof.
  unfold Object_assign.
  assert (E : filter (fun kv : string * N => kv.1 ∉ configProps)
                ({[ "springStrength"%string := s; "maxSpeed"%string := m;
                    "baseScale"%string := b ]} : gmap string N) = ∅)
    by (vm_compute; reflexivity).
  rewrite E, (left_id_L ∅ (∪)).
  f_equal; vm_compute; reflexivity.
Qed.

(** What the function for the sliders does when the six elements are there. *)
Lemma controls_updatePhysics_returns (g : Page N) (e1 e2 e3 d1 d2 d3 : Element N) :
  elementsById g !! "springStrength"%string = Some e1 ->
  elementsById g !! "maxSpeed"%string = Some e2 ->
  elementsById g !! "scale"%string = Some e3 ->
  elementsById g !! "springValue"%string = Some d1 ->
  elementsById g !! "speedValue"%string = Some d2 ->
  elementsById g !! "scaleValue"%string = Some d3 ->
  let c := config (this (BirdCursor g)) in
  let s := parseFloat (el_value e1) in
  let m := parseFloat (el_value e2) in
  let b := parseFloat (el_value e3) in
  exists g',
    controls_updatePhysics parseFloat g = Normal g'
    /\ BirdCursor g'
       = with_this
           (set_config
              {| springStrength := s; dampening := dampening c; maxSpeed := m;
                 accelerationRate := accelerationRate c;
                 flappingThreshold := flappingThreshold c; baseScale := b;
                 otherProps := otherProps c |})
           (BirdCursor g)
    /\ elementsById g'
       = <["scaleValue"%string :=
             {| el_value := el_value d3; el_textContent := Some b |}]>
           (<["speedValue"%string :=
                {| el_value := el_value d2; el_textContent := Some m |}]>
              (<["springValue"%string :=
                   {| el_value := el_value d1; el_textContent := Some s |}]>
                 (elementsById g)))
    /\ assigned g' = assigned g
    /\ loading g' = loading g
    /\ DOMContentLoaded g' = DOMContentLoaded g.
Proof.
  intros H1 H2 H3 H4 H5 H6 c s m b.
  unfold controls_updatePhysics, sliderValue, showValue.
  rewrite H1, H2, H3.
  cbn [with_instance set_instance elementsById set_elementsById].
  rewrite H4.
  cbn [with_instance set_instance elementsById set_elementsById].
  rewrite lookup_insert_ne by discriminate. rewrite H5.
  cbn [with_instance set_instance elementsById set_elementsById].
  rewrite lookup_insert_ne by discriminate.
  rewrite lookup_insert_ne by discriminate. rewrite H6.
  eexists. split; [reflexivity|].
  cbn [with_instance set_instance set_elementsById BirdCursor elementsById
       assigned loading DOMContentLoaded].
  split; [|repeat split].
  unfold updatePhysicsConfig, with_this. cbn beta.
  rewrite sliderObject_assign. reflexivity.
Qed.

(** X25.  With the six elements on the page, the function assigned to
    [BirdCursor.updatePhysics] returns normally.  It sets [springStrength],
    [maxSpeed] and [baseScale] of the configuration to what [parseFloat] makes
    of the values of the three sliders, leaves the rest of the configuration,
    of the instance and of the host as it was, and writes the three numbers
    to the three display elements; no other element changes. *)
Theorem slider_function_updates (g : Page N) (e1 e2 e3 d1 d2 d3 : Element N) :
  elementsById g !! "springStrength"%string = Some e1 ->
  elementsById g !! "maxSpeed"%string = Some e2 ->
  elementsById g !! "scale"%string = Some e3 ->
  elementsById g !! "springValue"%string = Some d1 ->
  elementsById g !! "speedValue"%string = Some d2 ->
  elementsById g !! "scaleValue"%string = Some d3 ->
  let c := config (this (BirdCursor g)) in
  let s := parseFloat (el_value e1) in
  let m := parseFloat (el_value e2) in
  let b := parseFloat (el_value e3) in
  exists g',
    controls_updatePhysics parseFloat g = Normal g'
    /\ BirdCursor g'
       = with_this
           (set_config
              {| springStrength := s; dampening := dampening c; maxSpeed := m;
                 accelerationRate := accelerationRate c;
                 flappingThreshold := flappingThreshold c; baseScale := b;
                 otherProps := otherProps c |})
           (BirdCursor g)
    /\ elementsById g'
       = <["scaleValue"%string :=
             {| el_value := el_value d3; el_textContent := Some b |}]>
           (<["speedValue"%string :=
                {| el_value := el_value d2; el_textContent := Some m |}]>
              (<["springValue"%string :=
                   {| el_value := el_value d1; el_textContent := Some s |}]>
                 (elementsById g)))
    /\ assigned g' = assigned g
    /\ loading g' = loading g
    /\ DOMContentLoaded g' = DOMContentLoaded g.
Proof. exact (controls_updatePhysics_returns g e1 e2 e3 d1 d2 d3). Qed.

(** X26.  The function assigned to [BirdCursor.updatePhysics] is not atomic.
    If one of the three sliders is missing it throws and nothing has changed;
    if the three sliders are there but one of the display elements is
    missing, it throws after it has changed the configuration. *)
Theorem slider_function_fails (g : Page N) :
  (elementsById g !! "springStrength"%string = None
   \/ elementsById g !! "maxSpeed"%string = None
   \/ elementsById g !! "scale"%string = None ->
   controls_updatePhysics parseFloat g = Throw g)
  /\ (forall e1 e2 e3 : Element N,
        elementsById g !! "springStrength"%string = Some e1 ->
        elementsById g !! "maxSpeed"%string = Some e2 ->
        elementsById g !! "scale"%string = Some e3 ->
        elementsById g !! "springValue"%string = None
        \/ elementsById g !! "speedValue"%string = None
        \/ elementsById g !! "scaleValue"%string = None ->
        exists g',
          controls_updatePhysics parseFloat g = Throw g'
          /\ BirdCursor g'
             = updatePhysicsConfig
                 {[ "springStrength"%string := parseFloat (el_value e1);
                    "maxSpeed"%string := parseFloat (el_value e2);
                    "baseScale"%string := parseFloat (el_value e3) ]}
                 (BirdCursor g)).
Proof.
  split.
  - intros Hm. unfold controls_updatePhysics, sliderValue.
    destruct (elementsById g !! "springStrength"%string); [|reflexivity].
    destruct (elementsById g !! "maxSpeed"%string); [|reflexivity].
    destruct (elementsById g !! "scale"%string); [|reflexivity].
    destruct Hm as [Hm|[Hm|Hm]]; discriminate Hm.
  - intros e1 e2 e3 H1 H2 H3 Hm.
    unfold controls_updatePhysics, sliderValue, showValue.
    rewrite H1, H2, H3.
    cbn [with_instance set_instance elementsById set_elementsById].
    destruct (elementsById g !! "springValue"%string) as [d1|];
      [|eexists; split; reflexivity].
    cbn [with_instance set_instance elementsById set_elementsById].
    rewrite lookup_insert_ne by discriminate.
    destruct (elementsById g !! "speedValue"%string) as [d2|];
      [|eexists; split; reflexivity].
    cbn [with_instance set_instance elementsById set_elementsById].
    rewrite lookup_insert_ne by discriminate.
    rewrite lookup_insert_ne by discriminate.
    destruct (elementsById g !! "scaleValue"%string) as [d3|];
      [|eexists; split; reflexivity].
    destruct Hm as [Hm|[Hm|Hm]]; discriminate Hm.
Qed.

(** *** A page without the sliders *)

Lemma undrawn_animate (b : BirdNode N) (c : ContainerNode N) (g : Page N) :
  undrawn b c g -> BirdCursor_animate parseFloat g = Throw g.
Proof.
  intros (Ha & He & _).
  unfold BirdCursor_animate, BirdCursor_updatePhysics, controls_updatePhysics,
    sliderValue.
  rewrite Ha, He. reflexivity.
Qed.

Lemma undrawn_instance (b : BirdNode N) (c : ContainerNode N) (g : Page N)
    (w : World N) :
  undrawn b c g ->
  birdNode (host w) = birdNode (host (BirdCursor g)) ->
  containerNode (host w) = containerNode (host (BirdCursor g)) ->
  undrawn b c (set_instance w g).
Proof.
  intros (Ha & He & Hb & Hc) Eb Ec. unfold undrawn.
  cbn [set_instance BirdCursor assigned elementsById].
  rewrite Eb, Ec. repeat split; assumption.
Qed.

Lemma undrawn_init (b : BirdNode N) (c : ContainerNode N) (g : Page N) :
  undrawn b c g ->
  undrawn b c (world_of (BirdCursor_init parseFloat g))
  /\ isInitialized (this (BirdCursor (world_of (BirdCursor_init parseFloat g))))
     = isInitialized (this (BirdCursor g)).
Proof.
  intros Hu. unfold BirdCursor_init.
  destruct (isInitialized (this (BirdCursor g))) eqn:Ei; [split; assumption|].
  destruct (negb (hasBird (host (BirdCursor g)))
            || negb (hasBird (host (BirdCursor g))
                     && hasContainer (host (BirdCursor g)))).
  - cbn [world_of]. split; [|exact Ei].
    apply undrawn_instance; [exact Hu | reflexivity ..].
  - set (g1 := set_instance _ g).
    assert (H1 : undrawn b c g1)
      by (apply undrawn_instance; [exact Hu | reflexivity ..]).
    rewrite (undrawn_animate b c g1 H1). cbn [world_of].
    split; [exact H1 | exact Ei].
Qed.

Lemma undrawn_occur (b : BirdNode N) (c : ContainerNode N)
    (e : PageEvent N) (g : Page N) :
  isCall e = false ->
  undrawn b c g ->
  undrawn b c (occur parseFloat e g)
  /\ isInitialized (this (BirdCursor (occur parseFloat e g)))
     = isInitialized (this (BirdCursor g)).
Proof.
  intros Hk Hu. destruct e as [|e| | |k]; cbn [occur]; [| | | |discriminate Hk].
  - assert (H0 : undrawn b c (set_document false (DOMContentLoaded g) g)
                 /\ isInitialized
                      (this (BirdCursor (set_document false (DOMContentLoaded g) g)))
                    = isInitialized (this (BirdCursor g)))
      by (split; [exact Hu | reflexivity]).
    generalize dependent (set_document false (DOMContentLoaded g) g).
    intros g0 H0.
    induction (DOMContentLoaded g) as [|n [IHu IHi]]; [exact H0|].
    rewrite Nat.iter_succ.
    destruct (undrawn_init b c _ IHu) as [Iu Ii].
    split; [exact Iu | rewrite Ii; exact IHi].
  - destruct e.
    + unfold BirdCursor_runFrame.
      set (g0 := with_instance _ g).
      assert (H0 : undrawn b c g0
                   /\ isInitialized (this (BirdCursor g0))
                      = isInitialized (this (BirdCursor g)))
        by (split; [exact Hu | reflexivity]).
      clearbody g0. revert g0 H0.
      induction (frameRequests (host (BirdCursor g))) as [|r l IH];
        intros g0 H0; cbn [foldl]; [exact H0|].
      apply IH. rewrite (undrawn_animate b c g0 (proj1 H0)). exact H0.
    + unfold with_instance. cbn [happen]. unfold runTimeouts. split.
      * apply undrawn_instance; [exact Hu | |]; rewrite runChecks_host; reflexivity.
      * cbn [set_instance BirdCursor].
        apply (runChecks_this
                 (fun s => isInitialized s = isInitialized (this (BirdCursor g))));
          auto.
    + unfold with_instance. cbn [happen]. unfold mousemove.
      destruct (mousemoveListeners (host (BirdCursor g)));
        (split; [apply undrawn_instance; [exact Hu | reflexivity ..] | reflexivity]).
    + split; [exact Hu | reflexivity].
  - unfold BirdCursor_updatePhysics, controls_updatePhysics, sliderValue.
    destruct Hu as (Ha & He & Hb & Hc). rewrite Ha, He. cbn [world_of].
    split; [repeat split; assumption | reflexivity].
  - unfold BirdCursor_updateScale, controls_updateScale, sliderValue, showValue.
    destruct Hu as (Ha & He & Hb & Hc). rewrite Ha.
    destruct (elementsById g !! "scale"%string) as [e3|]; cbn [world_of];
      [|split; [repeat split; assumption | reflexivity]].
    cbn [with_instance set_instance elementsById].
    destruct (elementsById g !! "scaleValue"%string) as [d3|]; cbn [world_of];
      (split; [|reflexivity]); unfold undrawn;
      cbn [set_elementsById set_instance assigned elementsById BirdCursor];
      rewrite ?lookup_insert_ne by discriminate; repeat split; assumption.
Qed.

Lemma undrawn_occurs (b : BirdNode N) (c : ContainerNode N)
    (es : list (PageEvent N)) (g : Page N) :
  forallb (fun e => negb (isCall e)) es = true ->
  undrawn b c g ->
  undrawn b c (occurs parseFloat es g)
  /\ isInitialized (this (BirdCursor (occurs parseFloat es g)))
     = isInitialized (this (BirdCursor g)).
Proof.
  unfold occurs. revert g.
  induction es as [|e l IH]; intros g Hes Hu; cbn [foldl];
    [split; [exact Hu | reflexivity]|].
  cbn [forallb] in Hes. apply andb_true_iff in Hes as [Hk Hl].
  apply negb_true_iff in Hk.
  destruct (undrawn_occur b c e g Hk Hu) as [Hu' Hi'].
  destruct (IH _ Hl Hu') as [Hu'' Hi''].
  split; [exact Hu'' | rewrite Hi''; exact Hi'].
Qed.

(** X27.  On a page without the slider [springStrength] the global instance
    draws nothing after the script has ended: the function the loop calls
    throws at its first line, before [updateAnimation] and [render] and before
    a new frame is requested.  Whatever happens afterwards, short of calls
    of the methods of the instance, the two elements of the bird stay as the
    script left them, [isInitialized] stays what it
    was, and after any frame phase no frame request is pending.  If the
    document was still loading when the script ran, the elements are never
    written at all and the instance never counts as initialised. *)
Theorem without_sliders_nothing_is_drawn (h : Host N) (isLoading : bool)
    (els : gmap string (Element N)) (es : list (PageEvent N)) :
  els !! "springStrength"%string = None ->
  forallb (fun e => negb (isCall e)) es = true ->
  exists g0,
    script parseFloat h isLoading els = Normal g0
    /\ birdNode (host (BirdCursor (occurs parseFloat es g0)))
       = birdNode (host (BirdCursor g0))
    /\ containerNode (host (BirdCursor (occurs parseFloat es g0)))
       = containerNode (host (BirdCursor g0))
    /\ isInitialized (this (BirdCursor (occurs parseFloat es g0)))
       = isInitialized (this (BirdCursor g0))
    /\ frameRequests
         (host (BirdCursor (occur parseFloat (OnHost Frame)
                              (occurs parseFloat es g0)))) = []
    /\ (isLoading = true ->
        birdNode (host (BirdCursor g0)) = birdNode h
        /\ containerNode (host (BirdCursor g0)) = containerNode h
        /\ isInitialized (this (BirdCursor g0)) = false).
Proof.
  intros He Hes.
  destruct (script_returns h isLoading els) as (g0 & E & Ha & Ee & Eb).
  exists g0. split; [exact E|].
  assert (Hu : undrawn (birdNode (host (BirdCursor g0)))
                 (containerNode (host (BirdCursor g0)))
                 (occurs parseFloat es g0)
               /\ isInitialized (this (BirdCursor (occurs parseFloat es g0)))
                  = isInitialized (this (BirdCursor g0))).
  { apply undrawn_occurs; [exact Hes|].
    unfold undrawn. rewrite Ee. repeat split; assumption. }
  destruct Hu as [Hu Hi].
  split; [exact (proj1 (proj2 (proj2 Hu)))|].
  split; [exact (proj2 (proj2 (proj2 Hu)))|].
  split; [exact Hi|]. split.
  - cbn [occur]. unfold BirdCursor_runFrame.
    set (g1 := with_instance _ (occurs parseFloat es g0)).
    assert (H1 : undrawn (birdNode (host (BirdCursor g0)))
                   (containerNode (host (BirdCursor g0))) g1
                 /\ frameRequests (host (BirdCursor g1)) = [])
      by (split; [exact Hu | reflexivity]).
    clearbody g1. revert g1 H1.
    induction (frameRequests (host (BirdCursor (occurs parseFloat es g0))))
      as [|r l IH]; intros g1 H1; cbn [foldl]; [exact (proj2 H1)|].
    apply IH. rewrite (undrawn_animate _ _ g1 (proj1 H1)). exact H1.
  - intros ->. rewrite Eb. repeat split.
Qed.

(** X28.  On the global instance every frame applies the sliders.  With
    the functions assigned and the six elements on the page, a run of the
    loop's closure leaves [springStrength], [maxSpeed] and [baseScale] at what
    [parseFloat] makes of the sliders, whatever a preset or a configuration
    update had put there, and leaves the other properties of the
    configuration alone. *)
Theorem frame_applies_the_sliders (g : Page N) (e1 e2 e3 d1 d2 d3 : Element N) :
  assigned g = true ->
  elementsById g !! "springStrength"%string = Some e1 ->
  elementsById g !! "maxSpeed"%string = Some e2 ->
  elementsById g !! "scale"%string = Some e3 ->
  elementsById g !! "springValue"%string = Some d1 ->
  elementsById g !! "speedValue"%string = Some d2 ->
  elementsById g !! "scaleValue"%string = Some d3 ->
  let c := config (this (BirdCursor g)) in
  config (this (BirdCursor (world_of (BirdCursor_animate parseFloat g))))
  = {| springStrength := parseFloat (el_value e1); dampening := dampening c;
       maxSpeed := parseFloat (el_value e2);
       accelerationRate := accelerationRate c;
       flappingThreshold := flappingThreshold c;
       baseScale := parseFloat (el_value e3);
       otherProps := otherProps c |}.
Proof.
  intros Ha H1 H2 H3 H4 H5 H6 c.
  destruct (controls_updatePhysics_returns g e1 e2 e3 d1 d2 d3 H1 H2 H3 H4 H5 H6)
    as (g1 & E & Eb & _).
  unfold BirdCursor_animate, BirdCursor_updatePhysics. rewrite Ha, E.
  destruct (updateAnimation_nodes (BirdCursor g1)) as (b1 & c1 & E1).
  destruct (updateAnimation (BirdCursor g1)) as [w2|w2]; cbn [world_of] in *;
    subst w2.
  - destruct (render_nodes (with_host (set_nodes b1 c1) (BirdCursor g1)))
      as (b2 & c2 & E2).
    rewrite E2. cbn. rewrite Eb. reflexivity.
  - cbn. rewrite Eb. reflexivity.
Qed.

End ScriptFacts.

Module SamplePageFacts.

Ltac lookup_now :=
  repeat (rewrite lookup_insert_ne by discriminate);
  first [ apply lookup_insert_Some; left; split; reflexivity
        | apply lookup_singleton_Some; split; reflexivity ].

Lemma sliders_lookup :
  SamplePage.sliders !! "springStrength"%string = Some (SamplePage.slider "0.2")
  /\ SamplePage.sliders !! "maxSpeed"%string = Some (SamplePage.slider "20")
  /\ SamplePage.sliders !! "scale"%string = Some (SamplePage.slider "0.5")
  /\ SamplePage.sliders !! "springValue"%string = None.
Proof.
  unfold SamplePage.sliders. split; [|split; [|split]]; try lookup_now.
  repeat (rewrite lookup_insert_ne by discriminate).
  apply lookup_singleton_ne. discriminate.
Qed.

Lemma controls_lookup :
  SamplePage.controls !! "springStrength"%string = Some (SamplePage.slider "0.2")
  /\ SamplePage.controls !! "maxSpeed"%string = Some (SamplePage.slider "20")
  /\ SamplePage.controls !! "scale"%string = Some (SamplePage.slider "0.5")
  /\ SamplePage.controls !! "springValue"%string = Some SamplePage.display
  /\ SamplePage.controls !! "speedValue"%string = Some SamplePage.display
  /\ SamplePage.controls !! "scaleValue"%string = Some SamplePage.display.
Proof.
  unfold SamplePage.controls, SamplePage.sliders.
  split; [|split; [|split; [|split; [|split]]]]; lookup_now.
Qed.

End SamplePageFacts.

Lemma slider_function_updates_witness :
  exists g',
    controls_updatePhysics SamplePage.parse (SamplePage.page SamplePage.controls)
    = Normal g'
    /\ maxSpeed (config (this (BirdCursor g'))) = lit 20
    /\ dampening (config (this (BirdCursor g'))) = lit 0.85.
Proof.
  destruct SamplePageFacts.controls_lookup as (L1 & L2 & L3 & L4 & L5 & L6).
  destruct (slider_function_updates SamplePage.parse
              (SamplePage.page SamplePage.controls) _ _ _ _ _ _
              L1 L2 L3 L4 L5 L6)
    as (g' & E & Eb & _).
  exists g'. split; [exact E|]. rewrite Eb. split; reflexivity.
Defined.

Lemma slider_function_fails_witness :
  controls_updatePhysics SamplePage.parse (SamplePage.page ∅)
  = Throw (SamplePage.page ∅)
  /\ exists g',
       controls_updatePhysics SamplePage.parse (SamplePage.page SamplePage.sliders)
       = Throw g'
       /\ maxSpeed (config (this (BirdCursor g'))) = lit 20.
Proof.
  destruct SamplePageFacts.sliders_lookup as (L1 & L2 & L3 & L4).
  split.
  - apply (proj1 (slider_function_fails SamplePage.parse (SamplePage.page ∅))).
    left. apply lookup_empty.
  - destruct (proj2 (slider_function_fails SamplePage.parse
                       (SamplePage.page SamplePage.sliders))
                _ _ _ L1 L2 L3 (or_introl L4))
      as (g' & E & Eb).
    exists g'. split; [exact E|]. rewrite Eb.
    unfold updatePhysicsConfig, with_this. cbn beta.
    rewrite sliderObject_assign. reflexivity.
Defined.

Lemma without_sliders_nothing_is_drawn_witness :
  exists g0 : Page float,
    script SamplePage.parse (Sample.page true true) true ∅ = Normal g0
    /\ birdNode (host (BirdCursor
                         (occurs SamplePage.parse
                            [Loaded; OnHost Frame; OnHost (Mousemove 3%float 4%float);
                             OnHost Frame] g0)))
       = Sample.emptyBirdNode
    /\ isInitialized
         (this (BirdCursor
                  (occurs SamplePage.parse
                     [Loaded; OnHost Frame; OnHost (Mousemove 3%float 4%float);
                      OnHost Frame] g0)))
       = false.
Proof.
  destruct (without_sliders_nothing_is_drawn SamplePage.parse
              (Sample.page true true) true ∅
              [Loaded; OnHost Frame; OnHost (Mousemove 3%float 4%float);
               OnHost Frame] (lookup_empty _) eq_refl)
    as (g0 & E & Eb & _ & Ei & _ & Hl).
  destruct (Hl eq_refl) as (Hb & _ & Hi).
  exists g0. split; [exact E|]. split.
  - rewrite Eb. exact Hb.
  - rewrite Ei. exact Hi.
Defined.

Lemma frame_applies_the_sliders_witness :
  maxSpeed
    (config (this (BirdCursor
                     (world_of
                        (BirdCursor_animate SamplePage.parse
                           (with_instance (setPreset "gentle")
                              (SamplePage.page SamplePage.controls)))))))
  = lit 20.
Proof.
  destruct SamplePageFacts.controls_lookup as (L1 & L2 & L3 & L4 & L5 & L6).
  rewrite (frame_applies_the_sliders SamplePage.parse
             (with_instance (setPreset "gentle")
                (SamplePage.page SamplePage.controls))
             _ _ _ _ _ _ eq_refl L1 L2 L3 L4 L5 L6).
  reflexivity.
Defined.

(** * Convergence under the presets *)

(** ** Convergence near the target, for any configuration with an energy *)

Section LocalConvergence.

Local Open Scope R_scope.

Variables (r k d M rho L cv ce : R) (form : R -> R -> R -> R).

Hypothesis Hrho : 0 <= rho < 1.
Hypothesis HM : 0 <= M.
Hypothesis Hcv : 0 < cv.
Hypothesis Hce : 0 < ce.
Hypothesis HL : L <= cv * (M * M).
Hypothesis Hstep : forall e v a a' v',
  a' = a + (e * r - a) * (1 / 10) ->
  v' = (v + a' * k) * d ->
  form (e - v') v' a' <= rho * form e v a.
Hypothesis Hvel : forall e v a, cv * (v * v) <= form e v a.
Hypothesis Hoff : forall e v a, ce * (e * e) <= form e v a.

Lemma form_nonneg (e v a : R) : 0 <= form e v a.
Proof. pose proof (Hoff e v a). nra. Qed.

Lemma energyWith_nonneg (s : BirdCursorSystem R) : 0 <= energyWith form s.
Proof. unfold energyWith. apply Rplus_le_le_0_compat; apply form_nonneg. Qed.

(** Below the level [L] the speed limit stays idle and the energy shrinks. *)
Lemma local_step (w : World R) :
  configuredAs r k d M w ->
  energyWith form (this w) <= L ->
  velocity (this (updatePhysics w)) = dampenedVelocity (this w)
  /\ energyWith form (this (updatePhysics w)) <= rho * energyWith form (this w).
Proof.
  intros (Er & Ek & Ed & EM) HE.
  assert (E01 : Q2R 0.1 = 1 / 10) by (unfold Q2R; cbn; lra).
  destruct (updatePhysics_motion w) as (Ea & Ev & Ep & Et & _).
  set (ex := Vector2.x (target (this w)) - Vector2.x (position (this w))) in *.
  set (ey := Vector2.y (target (this w)) - Vector2.y (position (this w))) in *.
  pose (ax' := Vector2.x (adjustedAcceleration (this w))).
  pose (ay' := Vector2.y (adjustedAcceleration (this w))).
  pose (ux := Vector2.x (dampenedVelocity (this w))).
  pose (uy := Vector2.y (dampenedVelocity (this w))).
  assert (Hax : ax' = Vector2.x (acceleration (this w))
                      + (ex * r - Vector2.x (acceleration (this w))) * (1 / 10)).
  { unfold ax', adjustedAcceleration. cbn [Vector2.x].
    rewrite Er. cbn [add sub mul lit ideal]. rewrite E01. reflexivity. }
  assert (Hay : ay' = Vector2.y (acceleration (this w))
                      + (ey * r - Vector2.y (acceleration (this w))) * (1 / 10)).
  { unfold ay', adjustedAcceleration. cbn [Vector2.y].
    rewrite Er. cbn [add sub mul lit ideal]. rewrite E01. reflexivity. }
  assert (Hux : ux = (Vector2.x (velocity (this w)) + ax' * k) * d).
  { unfold ux, ax', dampenedVelocity. cbn [Vector2.x].
    rewrite Ek, Ed. reflexivity. }
  assert (Huy : uy = (Vector2.y (velocity (this w)) + ay' * k) * d).
  { unfold uy, ay', dampenedVelocity. cbn [Vector2.y].
    rewrite Ek, Ed. reflexivity. }
  pose proof (Hstep ex _ _ ax' ux Hax Hux) as Hsx.
  pose proof (Hstep ey _ _ ay' uy Hay Huy) as Hsy.
  assert (Hidle : velocity (this (updatePhysics w)) = dampenedVelocity (this w)).
  { rewrite Ev. apply Ideal.limit_inactive.
    rewrite EM. apply Ideal.magnitude_le; [exact HM|].
    fold ux uy.
    pose proof (Hvel (ex - ux) ux ax') as Vx.
    pose proof (Hvel (ey - uy) uy ay') as Vy.
    pose proof (form_nonneg ex (Vector2.x (velocity (this w)))
                  (Vector2.x (acceleration (this w)))) as Nx.
    pose proof (form_nonneg ey (Vector2.y (velocity (this w)))
                  (Vector2.y (acceleration (this w)))) as Ny.
    unfold energyWith in HE. fold ex ey in HE.
    set (Fx := form ex _ _) in *. set (Fy := form ey _ _) in *.
    set (Gx := form (ex - ux) ux ax') in *.
    set (Gy := form (ey - uy) uy ay') in *.
    clearbody Fx Fy Gx Gy ux uy.
    assert (cv * (ux * ux + uy * uy) <= cv * (M * M)) by nra.
    apply Rmult_le_reg_l with cv; [exact Hcv | exact H]. }
  split; [exact Hidle|].
  unfold energyWith at 1. rewrite Et, Ep, Hidle, Ea.
  cbn [Vector2.x Vector2.y add ideal]. fold ex ey ux uy ax' ay'.
  replace (Vector2.x (target (this w)) - (Vector2.x (position (this w)) + ux))
    with (ex - ux) by (unfold ex; ring).
  replace (Vector2.y (target (this w)) - (Vector2.y (position (this w)) + uy))
    with (ey - uy) by (unfold ey; ring).
  unfold energyWith. fold ex ey. lra.
Qed.

Lemma ticks_configuredAs (w : World R) (n : nat) :
  configuredAs r k d M w -> configuredAs r k d M (ticks n w).
Proof.
  unfold configuredAs. destruct (ticks_config_target n w) as [-> _]. auto.
Qed.

Lemma local_ticks (w : World R) (n : nat) :
  configuredAs r k d M w ->
  energyWith form (this w) <= L ->
  energyWith form (this (ticks n w)) <= rho ^ n * energyWith form (this w)
  /\ energyWith form (this (ticks n w)) <= L.
Proof.
  intros Hc HE. induction n as [|n [IH1 IH2]].
  - simpl. split; lra.
  - rewrite ticks_S.
    destruct (local_step (ticks n w)) as [_ Hs];
      [apply ticks_configuredAs; exact Hc | exact IH2 |].
    pose proof (energyWith_nonneg (this (ticks n w))) as H0.
    split; [|nra].
    simpl. eapply Rle_trans; [exact Hs|].
    rewrite Rmult_assoc. apply Rmult_le_compat_l; lra.
Qed.

Lemma local_converges (w : World R) :
  configuredAs r k d M w ->
  energyWith form (this w) <= L ->
  positionConverges w (target (this w)).
Proof.
  intros Hc HE.
  pose proof (energyWith_nonneg (this w)) as H0.
  assert (Hcv' : forall eps, 0 < eps ->
            exists n0, forall n, (n0 <= n)%nat ->
              energyWith form (this (ticks n w)) < ce * (eps * eps)).
  { intros eps Heps.
    destruct (pow_lt_1_zero rho
                ltac:(unfold Rabs; destruct (Rcase_abs _); lra)
                (ce * (eps * eps) / (L + 1)))
      as [n0 Hn0].
    { apply Rdiv_lt_0_compat; [|lra].
      apply Rmult_lt_0_compat; [exact Hce|].
      apply Rmult_lt_0_compat; exact Heps. }
    exists n0. intros n Hn.
    destruct (local_ticks w n Hc HE) as [Hle _].
    specialize (Hn0 n Hn).
    rewrite Rabs_pos_eq in Hn0 by (apply pow_le; lra).
    assert (Hp : 0 <= rho ^ n) by (apply pow_le; lra).
    assert (rho ^ n * energyWith form (this w) <= rho ^ n * L)
      by (apply Rmult_le_compat_l; lra).
    assert (rho ^ n * (L + 1) < ce * (eps * eps)).
    { apply (Rmult_lt_compat_r (L + 1)) in Hn0; [|lra].
      replace (ce * (eps * eps) / (L + 1) * (L + 1)) with (ce * (eps * eps))
        in Hn0 by (field; lra).
      exact Hn0. }
    nra. }
  split; intros eps Heps; destruct (Hcv' eps Heps) as [n0 Hn0];
    exists n0; intros n Hn; specialize (Hn0 n Hn);
    destruct (ticks_config_target n w) as [_ Ht];
    unfold energyWith in Hn0; rewrite Ht in Hn0;
    unfold Rdist; apply Lyapunov.small_square; try exact Heps.
  - pose proof (Hoff
        (Vector2.x (target (this w)) - Vector2.x (position (this (ticks n w))))
        (Vector2.x (velocity (this (ticks n w))))
        (Vector2.x (acceleration (this (ticks n w))))) as Ox.
    pose proof (form_nonneg
        (Vector2.y (target (this w)) - Vector2.y (position (this (ticks n w))))
        (Vector2.y (velocity (this (ticks n w))))
        (Vector2.y (acceleration (this (ticks n w))))) as Ny.
    set (dx := Vector2.x (position (this (ticks n w))) - Vector2.x (target (this w))).
    replace (Vector2.x (target (this w)) - Vector2.x (position (this (ticks n w))))
      with (- dx) in * by (unfold dx; ring).
    set (Fx := form (- dx) _ _) in *. set (Fy := form _ _ _) in *.
    clearbody Fx Fy dx.
    apply Rmult_lt_reg_l with ce; [exact Hce|]. nra.
  - pose proof (Hoff
        (Vector2.y (target (this w)) - Vector2.y (position (this (ticks n w))))
        (Vector2.y (velocity (this (ticks n w))))
        (Vector2.y (acceleration (this (ticks n w))))) as Oy.
    pose proof (form_nonneg
        (Vector2.x (target (this w)) - Vector2.x (position (this (ticks n w))))
        (Vector2.x (velocity (this (ticks n w))))
        (Vector2.x (acceleration (this (ticks n w))))) as Nx.
    set (dy := Vector2.y (position (this (ticks n w))) - Vector2.y (target (this w))).
    replace (Vector2.y (target (this w)) - Vector2.y (position (this (ticks n w))))
      with (- dy) in * by (unfold dy; ring).
    set (Fy := form (- dy) _ _) in *. set (Fx := form _ _ _) in *.
    clearbody Fx Fy dy.
    apply Rmult_lt_reg_l with ce; [exact Hce|]. nra.
Qed.

End LocalConvergence.

(** ** The energies of the presets *)

Module PresetEnergies.

Local Open Scope R_scope.

Lemma gentle_step (e v a a' v' : R) :
  a' = a + (e * (3 / 20) - a) * (1 / 10) ->
  v' = (v + a' * (2 / 25)) * (9 / 10) ->
  energyGentle1 (e - v') v' a' <= 199 / 200 * energyGentle1 e v a.
Proof.
  intros -> ->.
  assert (E : 199 / 200 * energyGentle1 e v a
              - energyGentle1 (e - (v + (a + (e * (3 / 20) - a) * (1 / 10)) * (2 / 25)) * (9 / 10))
                  ((v + (a + (e * (3 / 20) - a) * (1 / 10)) * (2 / 25)) * (9 / 10))
                  (a + (e * (3 / 20) - a) * (1 / 10))
              = 2298711 / 625000000 * Rsqr (e + 2780000 / 2298711 * v + 3974220 / 766237 * a)
                + 1688138483 / 91948440 * Rsqr (v - 168353142 / 8440692415 * a)
                + 2713394375071 / 1688138483000 * Rsqr (a)).
  { unfold energyGentle1, Rsqr. field. }
  assert (H1 := Rle_0_sqr (e + 2780000 / 2298711 * v + 3974220 / 766237 * a)).
  assert (H2 := Rle_0_sqr (v - 168353142 / 8440692415 * a)).
  assert (H3 := Rle_0_sqr (a)).
  nra.
Qed.

Lemma gentle_velocity (e v a : R) : 69 * (v * v) <= energyGentle1 e v a.
Proof.
  assert (E : energyGentle1 e v a - 69 * (v * v)
              = 3 * Rsqr (e - 14 / 3 * v)
                + 302 / 3 * Rsqr (v + 123 / 151 * a)
                + 31 / 151 * Rsqr (a)).
  { unfold energyGentle1, Rsqr. field. }
  assert (H1 := Rle_0_sqr (e - 14 / 3 * v)).
  assert (H2 := Rle_0_sqr (v + 123 / 151 * a)).
  assert (H3 := Rle_0_sqr (a)).
  nra.
Qed.

Lemma gentle_offset (e v a : R) : 1 * (e * e) <= energyGentle1 e v a.
Proof.
  assert (E : energyGentle1 e v a - 1 * (e * e)
              = 2 * Rsqr (e - 7 * v)
                + 137 * Rsqr (v + 82 / 137 * a)
                + 2455 / 137 * Rsqr (a)).
  { unfold energyGentle1, Rsqr. field. }
  assert (H1 := Rle_0_sqr (e - 7 * v)).
  assert (H2 := Rle_0_sqr (v + 82 / 137 * a)).
  assert (H3 := Rle_0_sqr (a)).
  nra.
Qed.

Lemma energetic_step (e v a a' v' : R) :
  a' = a + (e * (3 / 10) - a) * (1 / 10) ->
  v' = (v + a' * (9 / 50)) * (4 / 5) ->
  energyEnergetic1 (e - v') v' a' <= 999 / 1000 * energyEnergetic1 e v a.
Proof.
  intros -> ->.
  assert (E : 999 / 1000 * energyEnergetic1 e v a
              - energyEnergetic1 (e - (v + (a + (e * (3 / 10) - a) * (1 / 10)) * (9 / 50)) * (4 / 5))
                  ((v + (a + (e * (3 / 10) - a) * (1 / 10)) * (9 / 50)) * (4 / 5))
                  (a + (e * (3 / 10) - a) * (1 / 10))
              = 83683 / 9765625 * Rsqr (e - 19824375 / 669464 * v - 2087955 / 669464 * a)
                + 8364830371 / 669464000 * Rsqr (v - 565009785 / 8364830371 * a)
                + 249812615781 / 8364830371000 * Rsqr (a)).
  { unfold energyEnergetic1, Rsqr. field. }
  assert (H1 := Rle_0_sqr (e - 19824375 / 669464 * v - 2087955 / 669464 * a)).
  assert (H2 := Rle_0_sqr (v - 565009785 / 8364830371 * a)).
  assert (H3 := Rle_0_sqr (a)).
  nra.
Qed.

Lemma energetic_velocity (e v a : R) : 39 * (v * v) <= energyEnergetic1 e v a.
Proof.
  assert (E : energyEnergetic1 e v a - 39 * (v * v)
              = 5 * Rsqr (e - 13 / 5 * v + 1 / 5 * a)
                + 191 / 5 * Rsqr (v + 263 / 191 * a)
                + 262 / 191 * Rsqr (a)).
  { unfold energyEnergetic1, Rsqr. field. }
  assert (H1 := Rle_0_sqr (e - 13 / 5 * v + 1 / 5 * a)).
  assert (H2 := Rle_0_sqr (v + 263 / 191 * a)).
  assert (H3 := Rle_0_sqr (a)).
  nra.
Qed.

Lemma energetic_offset (e v a : R) : 2 * (e * e) <= energyEnergetic1 e v a.
Proof.
  assert (E : energyEnergetic1 e v a - 2 * (e * e)
              = 3 * Rsqr (e - 13 / 3 * v + 1 / 3 * a)
                + 164 / 3 * Rsqr (v + 163 / 164 * a)
                + 3225 / 164 * Rsqr (a)).
  { unfold energyEnergetic1, Rsqr. field. }
  assert (H1 := Rle_0_sqr (e - 13 / 3 * v + 1 / 3 * a)).
  assert (H2 := Rle_0_sqr (v + 163 / 164 * a)).
  assert (H3 := Rle_0_sqr (a)).
  nra.
Qed.
End PresetEnergies.

Lemma setPreset_motion {N : Type} `{JSNumber N} (name : string) (w : World N) :
  position (this (setPreset name w)) = position (this w)
  /\ velocity (this (setPreset name w)) = velocity (this w)
  /\ acceleration (this (setPreset name w)) = acceleration (this w)
  /\ target (this (setPreset name w)) = target (this w).
Proof.
  unfold setPreset. destruct (getProperty presets name); repeat split.
Qed.


